(** * The realtime relay of the call automation server (rtmt.py)

    A shallow embedding of [VoiceRAGAI/app/backend/rtmt.py]: the JSON values
    the relay handles, the Python operations it performs on them (with the
    exceptions they raise), the per-message transformers, the two forwarding
    loops, and the object layout of [RTMiddleTier].  The development then
    states and proves what the code does for each property of the relay's
    specification.

    Logging and printing are left out, a send on a socket is taken to
    succeed, and a tool is a function of its arguments.  How the two loops
    interleave under [asyncio.gather] is not modelled: each loop is a
    function of the frames its socket yields. *)

From Stdlib Require Import ZArith Ascii String List Lia.
From stdpp Require Import base option list strings gmap pretty.

Set Warnings "-register-all".

(** ** JSON values *)

(** What [json.loads] returns: Python's [None], [bool], [int], [float], [str],
    [list] and [dict].  A dict keeps its keys in insertion order, which is
    the order [json.dumps] prints them in, so an object is an association
    list.  The relay never computes with a float; one is kept as its [repr]. *)
Inductive JSON : Type :=
| JNull
| JBool (b : bool)
| JInt (z : Z)
| JFloat (repr : string)
| JString (s : string)
| JArray (items : list JSON)
| JObject (members : list (string * JSON)).

(** ** Exceptions *)

Inductive PyExn : Type :=
| JSONDecodeError
| KeyError
| TypeError
| AttributeError
| IndexError
| ConnectionResetError
| OtherException (name : string).

Inductive Result (A : Type) : Type :=
| Ok (a : A)
| Raise (e : PyExn).
Arguments Ok {A} a.
Arguments Raise {A} e.

Definition rbind {A B} (r : Result A) (k : A -> Result B) : Result B :=
  match r with
  | Ok a => k a
  | Raise e => Raise e
  end.

Declare Scope result_scope.
Delimit Scope result_scope with result.
Notation "x <- r ;; k" := (rbind r (fun x => k))
  (at level 62, r at next level, right associativity) : result_scope.

(** ** Dictionaries *)

Module Dict.

(** [d.get(k)] with no default, as an option. *)
Fixpoint lookup (k : string) (d : list (string * JSON)) : option JSON :=
  match d with
  | [] => None
  | (k', v) :: d' => if String.eqb k k' then Some v else lookup k d'
  end.

(** [d[k] = v]: an existing key keeps its place, a new key goes last. *)
Fixpoint set (k : string) (v : JSON) (d : list (string * JSON))
  : list (string * JSON) :=
  match d with
  | [] => [(k, v)]
  | (k', v') :: d' =>
      if String.eqb k k' then (k', v) :: d' else (k', v') :: set k v d'
  end.

Definition keys (d : list (string * JSON)) : list string := map fst d.

Definition mem (k : string) (d : list (string * JSON)) : bool :=
  match lookup k d with Some _ => true | None => false end.

End Dict.

(** ** Python operations on JSON values *)

(** [v == "lit"] for a string literal: only an equal [str] compares equal. *)
Definition is_str (v : JSON) (lit : string) : bool :=
  match v with
  | JString s => String.eqb s lit
  | _ => false
  end.

(** [v[k]] for a string key [k]. *)
Definition getitem (v : JSON) (k : string) : Result JSON :=
  match v with
  | JObject d =>
      match Dict.lookup k d with
      | Some x => Ok x
      | None => Raise KeyError
      end
  | _ => Raise TypeError
  end.

(** [v[k] = x] for a string key [k]; the result is the mutated object. *)
Definition setitem (v : JSON) (k : string) (x : JSON) : Result JSON :=
  match v with
  | JObject d => Ok (JObject (Dict.set k x d))
  | _ => Raise TypeError
  end.

(** [v.get(k, default)]: only a dict has the method. *)
Definition get_default (v : JSON) (k : string) (default : JSON) : Result JSON :=
  match v with
  | JObject d =>
      match Dict.lookup k d with
      | Some x => Ok x
      | None => Ok default
      end
  | _ => Raise AttributeError
  end.

Definition is_substring (k s : string) : bool :=
  match String.index 0 k s with Some _ => true | None => false end.

(** [k in v] for a string literal [k]: key test on a dict, element test on a
    list, substring test on a str; the other values are not iterable. *)
Definition contains (k : string) (v : JSON) : Result bool :=
  match v with
  | JObject d => Ok (Dict.mem k d)
  | JArray l => Ok (existsb (fun x => is_str x k) l)
  | JString s => Ok (is_substring k s)
  | _ => Raise TypeError
  end.

(** ** The libraries the relay calls *)

(** [json.loads] on a [str] ([None] for [JSONDecodeError]), [json.dumps] with
    its default arguments, and [base64.b64encode(...).decode()].  The relay's
    functions are written against this interface; [Sample.lib] below is one
    implementation of it. *)
Class PyLib : Type := {
  json_loads : string -> option JSON;
  json_dumps : JSON -> string;
  b64encode : list Byte.byte -> string
}.

(** [json.loads(s)] where [s] is any value: only a [str] is accepted. *)
Definition loads_value `{PyLib} (s : JSON) : Result JSON :=
  match s with
  | JString text =>
      match json_loads text with
      | Some v => Ok v
      | None => Raise JSONDecodeError
      end
  | _ => Raise TypeError
  end.

(** ** Data model (rtmt.py, lines 23-75) *)

Inductive ToolResultDirection : Type :=
| TO_SERVER
| TO_CLIENT.

(** [text] is annotated [str], but [to_text] provides for [None] and for
    values that are not strings, so it is kept as a value. *)
Record ToolResult : Type := {
  text : JSON;
  destination : ToolResultDirection
}.

(** [target] is awaited with the parsed arguments and either returns a
    [ToolResult] or raises. *)
Record Tool : Type := {
  target : JSON -> Result ToolResult;
  schema : JSON
}.

Record RTToolCall : Type := {
  tool_call_id : string;
  previous_id : JSON
}.

(** What [self.<attribute>] evaluates to while a message is processed;
    [self._tools_pending] is the mutable table threaded through [IO]. *)
Record RTMiddleTier : Type := {
  endpoint : string;
  deployment : string;
  key : option string;
  tools : list (string * Tool);
  model : option string;
  system_message : option string;
  temperature : option string;
  max_tokens : option Z;
  disable_audio : option bool;
  voice_choice : option string;
  api_version : string
}.

Abbreviation Pending := (gmap string RTToolCall).

(** ** Sockets, frames and the effects of a handler *)

Inductive Socket : Type :=
| server_ws
| client_ws.

(** What the relay does to a socket, in the order it does it. *)
Inductive Sent : Type :=
| SendStr (ws : Socket) (payload : string)
| Close (ws : Socket).

Inductive WSMsgType : Type :=
| TEXT
| BINARY
| PING
| PONG
| CLOSE
| ERROR.

Record WSMessage : Type := {
  msg_type : WSMsgType;
  data : string
}.

(** A handler reads and writes the pending-call table, sends frames, and
    returns or raises.  What it did before raising stays done. *)
Definition IO (A : Type) : Type :=
  gmap string RTToolCall -> Result A * gmap string RTToolCall * list Sent.

Definition io_ret {A} (a : A) : IO A := fun p => (Ok a, p, []).

Definition io_bind {A B} (m : IO A) (k : A -> IO B) : IO B := fun p =>
  match m p with
  | (Ok a, p1, o1) =>
      match k a p1 with
      | (r, p2, o2) => (r, p2, o1 ++ o2)
      end
  | (Raise e, p1, o1) => (Raise e, p1, o1)
  end.

Declare Scope io_scope.
Delimit Scope io_scope with io.
Notation "x <- m ;; k" := (io_bind m (fun x => k))
  (at level 62, m at next level, right associativity) : io_scope.

Definition lift {A} (r : Result A) : IO A := fun p => (r, p, []).

Definition send_str (ws : Socket) (payload : string) : IO unit :=
  fun p => (Ok tt, p, [SendStr ws payload]).

(** aiohttp's [send_json(v)] is [send_str(json.dumps(v))]. *)
Definition send_json `{PyLib} (ws : Socket) (v : JSON) : IO unit :=
  send_str ws (json_dumps v).

Definition close (ws : Socket) : IO unit :=
  fun p => (Ok tt, p, [Close ws]).

(** [try: body except (E1, ...): handler], for the exceptions [caught]. *)
Definition try_except {A} (body : IO A) (caught : PyExn -> bool)
    (handler : PyExn -> IO A) : IO A := fun p =>
  match body p with
  | (Raise e, p1, o1) =>
      if caught e then
        match handler e p1 with
        | (r, p2, o2) => (r, p2, o1 ++ o2)
        end
      else (Raise e, p1, o1)
  | done => done
  end.

(** *** The pending-call table, [self._tools_pending]

    Call identifiers are strings ([RTToolCall.tool_call_id : str]).  A list
    or a dict is unhashable ([TypeError]); another value equals no string
    key.  Python would store a call under such a value; this table cannot,
    and [pending_setitem] raises there. *)

Definition pending_len : IO nat := fun p => (Ok (size p), p, []).

Definition pending_clear : IO unit := fun p => (Ok tt, ∅, []).

Definition pending_contains (k : JSON) : IO bool := fun p =>
  match k with
  | JString c => (Ok (bool_decide (is_Some (p !! c))), p, [])
  | JArray _ | JObject _ => (Raise TypeError, p, [])
  | _ => (Ok false, p, [])
  end.

Definition pending_getitem (k : JSON) : IO RTToolCall := fun p =>
  match k with
  | JString c =>
      match p !! c with
      | Some call => (Ok call, p, [])
      | None => (Raise KeyError, p, [])
      end
  | JArray _ | JObject _ => (Raise TypeError, p, [])
  | _ => (Raise KeyError, p, [])
  end.

Definition pending_setitem (k : JSON) (prev : JSON) : IO unit := fun p =>
  match k with
  | JString c =>
      (Ok tt, <[c := {| tool_call_id := c; previous_id := prev |}]> p, [])
  | _ => (Raise TypeError, p, [])
  end.

(** *** The tool registry, [self.tools : dict[str, Tool]] *)

Fixpoint assoc {A} (k : string) (d : list (string * A)) : option A :=
  match d with
  | [] => None
  | (k', v) :: d' => if String.eqb k k' then Some v else assoc k d'
  end.

(** [self.tools[name]] *)
Definition tools_getitem (registry : list (string * Tool)) (name : JSON)
  : Result Tool :=
  match name with
  | JString n =>
      match assoc n registry with
      | Some t => Ok t
      | None => Raise KeyError
      end
  | JArray _ | JObject _ => Raise TypeError
  | _ => Raise KeyError
  end.

(** [[tool.schema for tool in self.tools.values()]] *)
Definition tool_schemas (registry : list (string * Tool)) : list JSON :=
  map (fun entry => schema (snd entry)) registry.

(** ** [ToolResult.to_text] (lines 35-38) *)
Definition to_text `{PyLib} (result : ToolResult) : string :=
  match text result with
  | JNull => ""
  | JString s => s
  | v => json_dumps v
  end.

Definition opt_json {A} (inj : A -> JSON) (o : option A) : JSON :=
  match o with
  | Some a => inj a
  | None => JNull
  end.

(** ** The model-to-client transformer (lines 89-167) *)

(** [v is None] *)
Definition is_None (v : JSON) : bool :=
  match v with
  | JNull => true
  | _ => false
  end.

(** ["item" in message and message["item"]["type"] == kind] *)
Definition item_is (message : JSON) (kind : string) : Result bool :=
  (has_item <- contains "item" message ;;
   if has_item : bool then
     item <- getitem message "item" ;;
     ty <- getitem item "type" ;;
     Ok (is_str ty kind)
   else Ok false)%result.

(** The loop of lines 160-163 over [output = message["response"]["output"]]:
    [reversed(output)] reads [output[idx]] for [idx = len-1, len-2, ...] and
    stops as soon as [idx] is no index of the (shrinking) list; [i] counts
    the iterations; [output.pop(i)] raises [IndexError] out of range.
    [n] is [idx + 1]. *)
Fixpoint strip_function_calls (n i : nat) (output : list JSON) (replace : bool)
  : Result (list JSON * bool) :=
  match n with
  | O => Ok (output, replace)
  | S idx =>
      match output !! idx with
      | None => Ok (output, replace)
      | Some entry =>
          (ty <- getitem entry "type" ;;
           if is_str ty "function_call" then
             if bool_decide (i < length output)
             then strip_function_calls idx (S i) (delete i output) true
             else Raise IndexError
           else strip_function_calls idx (S i) output replace)%result
      end
  end.

(** The same loop for whatever value [message["response"]["output"]] is:
    [reversed] of an empty str or dict yields nothing, of a non-empty one a
    str, which has no item ["type"]; other values are not reversible. *)
Definition strip_output (output : JSON) : Result (JSON * bool) :=
  match output with
  | JArray l =>
      (stripped <- strip_function_calls (length l) 0 l false ;;
       Ok (JArray (fst stripped), snd stripped))%result
  | JString "" | JObject [] => Ok (output, false)
  | _ => Raise TypeError
  end.

Definition _process_message_to_client `{PyLib} (self : RTMiddleTier)
    (msg : WSMessage) : IO (option string) :=
  (message <- lift (loads_value (JString (data msg))) ;;
   let updated_message := Some (data msg) in
   if is_None message then io_ret updated_message else
   ty <- lift (getitem message "type") ;;
   if is_str ty "session.created" then
     session <- lift (getitem message "session") ;;
     session <- lift (setitem session "instructions" (JString "")) ;;
     session <- lift (setitem session "tools" (JArray [])) ;;
     session <- lift (setitem session "voice"
                        (opt_json JString (voice_choice self))) ;;
     session <- lift (setitem session "tool_choice" (JString "none")) ;;
     session <- lift (setitem session "max_response_output_tokens" JNull) ;;
     (* [session] is the dict held by [message]: the writes show there *)
     message <- lift (setitem message "session" session) ;;
     io_ret (Some (json_dumps message))
   else if is_str ty "response.output_item.added" then
     is_call <- lift (item_is message "function_call") ;;
     if is_call : bool then io_ret None else io_ret updated_message
   else if is_str ty "conversation.item.created" then
     is_call <- lift (item_is message "function_call") ;;
     if is_call : bool then
       item <- lift (getitem message "item") ;;
       call_id <- lift (getitem item "call_id") ;;
       known <- pending_contains call_id ;;
       _ <- (if known : bool then io_ret tt else
               previous <- lift (getitem message "previous_item_id") ;;
               pending_setitem call_id previous) ;;
       io_ret None
     else
       is_output <- lift (item_is message "function_call_output") ;;
       if is_output : bool then io_ret None else io_ret updated_message
   else if is_str ty "response.function_call_arguments.delta" then
     io_ret None
   else if is_str ty "response.function_call_arguments.done" then
     io_ret None
   else if is_str ty "response.output_item.done" then
     is_call <- lift (item_is message "function_call") ;;
     if is_call : bool then
       item <- lift (getitem message "item") ;;
       call_id <- lift (getitem item "call_id") ;;
       tool_call <- pending_getitem call_id ;;
       name <- lift (getitem item "name") ;;
       tool <- lift (tools_getitem (tools self) name) ;;
       args <- lift (getitem item "arguments") ;;
       parsed <- lift (loads_value args) ;;
       result <- lift (target tool parsed) ;;
       _ <- send_json server_ws (JObject [
         ("type", JString "conversation.item.create");
         ("item", JObject [
            ("type", JString "function_call_output");
            ("call_id", call_id);
            ("output", JString (match destination result with
                                | TO_SERVER => to_text result
                                | TO_CLIENT => ""
                                end))])]) ;;
       _ <- match destination result with
       | TO_CLIENT =>
           send_json client_ws (JObject [
             ("type", JString "extension.middle_tier_tool_response");
             ("previous_item_id", previous_id tool_call);
             ("tool_name", name);
             ("tool_result", JString (to_text result))])
       | TO_SERVER => io_ret tt
       end ;;
       io_ret None
     else io_ret updated_message
   else if is_str ty "response.done" then
     outstanding <- pending_len ;;
     _ <- (if bool_decide (0 < outstanding) then
             _ <- pending_clear ;;
             send_json server_ws (JObject [("type", JString "response.create")])
           else io_ret tt) ;;
     has_response <- lift (contains "response" message) ;;
     if has_response : bool then
       response <- lift (getitem message "response") ;;
       output <- lift (getitem response "output") ;;
       stripped <- lift (strip_output output) ;;
       let output := fst stripped in
       let replace := snd stripped in
       if replace : bool then
         (* [pop] mutated the list held by [message] *)
         response <- lift (setitem response "output" output) ;;
         message <- lift (setitem message "response" response) ;;
         io_ret (Some (json_dumps message))
       else io_ret updated_message
     else io_ret updated_message
   else io_ret updated_message)%io.

(** ** Session policy (lines 177-189 and, word for word, lines 298-310)

    The statements that follow [session = message["session"]] in both
    [_process_message_to_server] and [update_session]. *)
Definition enforce_session_policy (self : RTMiddleTier) (session : JSON)
  : Result JSON :=
  (session <- match system_message self with
              | Some v => setitem session "instructions" (JString v)
              | None => Ok session
              end ;;
   session <- match temperature self with
              | Some v => setitem session "temperature" (JFloat v)
              | None => Ok session
              end ;;
   session <- match max_tokens self with
              | Some v => setitem session "max_response_output_tokens" (JInt v)
              | None => Ok session
              end ;;
   session <- match disable_audio self with
              | Some v => setitem session "disable_audio" (JBool v)
              | None => Ok session
              end ;;
   session <- match voice_choice self with
              | Some v => setitem session "voice" (JString v)
              | None => Ok session
              end ;;
   session <- setitem session "tool_choice"
                (JString (if bool_decide (0 < length (tools self))
                          then "auto" else "none")) ;;
   setitem session "tools" (JArray (tool_schemas (tools self))))%result.

(** ** The client-to-model transformer (lines 169-195)

    Its one caller, [from_client_to_server], is defined in
    [_forward_messages] but no longer passed to [asyncio.gather] (line 389). *)
Definition _process_message_to_server `{PyLib} (self : RTMiddleTier)
    (msg : WSMessage) : Result (option string) :=
  (message <- loads_value (JString (data msg)) ;;
   let updated_message := Some (data msg) in
   if is_None message then Ok updated_message else
   ty <- getitem message "type" ;;
   if is_str ty "session.update" then
     session <- getitem message "session" ;;
     session <- enforce_session_policy self session ;;
     message <- setitem message "session" session ;;
     Ok (Some (json_dumps message))
   else Ok updated_message)%result.

(** ** [update_session] (lines 293-310): the message after the call *)
Definition update_session (self : RTMiddleTier) (message : JSON) : Result JSON :=
  (if is_None message then Ok message else
   ty <- getitem message "type" ;;
   if is_str ty "session.update" then
     session <- getitem message "session" ;;
     session <- enforce_session_policy self session ;;
     setitem message "session" session
   else Ok message)%result.

(** ** [transmit_openai_audio_to_acs] (lines 197-215) *)
Definition transmit_openai_audio_to_acs `{PyLib} (gpt_audio_response : JSON)
  : string :=
  let acs_payload := JObject [
    ("Kind", JString "AudioData");
    ("AudioData", JObject [("Data", gpt_audio_response)]);
    ("StopAudio", JNull)] in
  json_dumps acs_payload.

(** ** [update_session_instruction] (lines 218-228) *)
Definition update_session_instruction `{PyLib} (self : RTMiddleTier)
  : Result string :=
  let payload := JObject [
    ("type", JString "session.update");
    ("session", JObject [
       ("turn_detection", JObject [("type", JString "server_vad")])])] in
  (payload <- update_session self payload ;;
   Ok (json_dumps payload))%result.

(** ** [greet_user] (lines 230-247)

    [greeting_pcm] is the content of [audio/greet-user.pcm], or [None] when
    opening or reading it raises; both [except] clauses only log. *)
Definition greet_user `{PyLib} (greeting_pcm : option (list Byte.byte))
  : IO unit :=
  match greeting_pcm with
  | Some pcm_audio =>
      let base64_payload := b64encode pcm_audio in
      let payload := JObject [
        ("type", JString "input_audio_buffer.append");
        ("event_id", JString "greeting");
        ("audio", JString base64_payload)] in
      send_json server_ws payload
  | None => io_ret tt
  end.

(** ** The forwarding loops *)

Inductive Flow : Type :=
| Continue
| Break.

(** [async for msg in ws: body], over the messages the socket yields. *)
Fixpoint async_for (body : WSMessage -> IO Flow) (msgs : list WSMessage)
  : IO unit :=
  match msgs with
  | [] => io_ret tt
  | msg :: rest =>
      (flow <- body msg ;;
       match flow with
       | Continue => async_for body rest
       | Break => io_ret tt
       end)%io
  end.

(** The body of the loop of [forward_openai_audio_to_acs] (lines 258-291).
    Line 261 reassigns [new_msg]: what [_process_message_to_client] returned
    is not used. *)
Definition forward_openai_audio_to_acs_body `{PyLib} (self : RTMiddleTier)
    (greeting_pcm : option (list Byte.byte)) (msg : WSMessage) : IO Flow :=
  match msg_type msg with
  | TEXT =>
      (new_msg <- _process_message_to_client self msg ;;
       new_msg <- lift (loads_value (JString (data msg))) ;;
       if is_None new_msg then io_ret Continue else
       ty <- lift (get_default new_msg "type" (JString "")) ;;
       if is_str ty "response.audio.delta" then
         gpt_audio_response <- lift (get_default new_msg "delta" (JObject [])) ;;
         let client_response := transmit_openai_audio_to_acs gpt_audio_response in
         _ <- send_str client_ws client_response ;;
         io_ret Continue
       else if is_str ty "session.created" then
         payload <- lift (update_session_instruction self) ;;
         _ <- send_str server_ws payload ;;
         _ <- greet_user greeting_pcm ;;
         io_ret Continue
       else if is_str ty "input_audio_buffer.speech_started" then
         let acs_payload := JObject [
           ("Kind", JString "StopAudio");
           ("AudioData", JNull);
           ("StopAudio", JObject [])] in
         let serialized_data := json_dumps acs_payload in
         _ <- send_str client_ws serialized_data ;;
         io_ret Continue
       else io_ret Continue)%io
  | CLOSE =>
      (_ <- close client_ws ;;
       io_ret Break)%io
  | _ => io_ret Continue
  end.

(** ** [forward_openai_audio_to_acs] (lines 249-291) *)
Definition forward_openai_audio_to_acs `{PyLib} (self : RTMiddleTier)
    (greeting_pcm : option (list Byte.byte)) (msgs : list WSMessage) : IO unit :=
  async_for (forward_openai_audio_to_acs_body self greeting_pcm) msgs.

(** [except (json.JSONDecodeError, KeyError)] (line 340) *)
Definition decode_errors (e : PyExn) : bool :=
  match e with
  | JSONDecodeError | KeyError => true
  | _ => false
  end.

(** The body of the loop of [forward_from_acs_to_openai] (lines 317-348). *)
Definition forward_from_acs_to_openai_body `{PyLib} (msg : WSMessage) : IO Flow :=
  match msg_type msg with
  | TEXT =>
      (_ <- try_except
              (message <- lift (loads_value (JString (data msg))) ;;
               _ <- lift (contains "kind" message) ;;
               kind <- lift (get_default message "kind" (JString "")) ;;
               if is_str kind "AudioData" then
                 audioData <- lift (getitem message "audioData") ;;
                 audio_base64 <- lift (getitem audioData "data") ;;
                 let payload := JObject [
                   ("type", JString "input_audio_buffer.append");
                   ("audio", audio_base64)] in
                 let openai_message := json_dumps payload in
                 send_str server_ws openai_message
               else io_ret tt)
              decode_errors
              (fun _ => io_ret tt) ;;
       io_ret Continue)%io
  | CLOSE =>
      (_ <- close server_ws ;;
       io_ret Break)%io
  | _ => io_ret Continue
  end.

(** ** [forward_from_acs_to_openai] (lines 312-348) *)
Definition forward_from_acs_to_openai `{PyLib} (msgs : list WSMessage) : IO unit :=
  async_for forward_from_acs_to_openai_body msgs.

(** [except ConnectionResetError: pass] (lines 391-393) *)
Definition connection_reset (e : PyExn) : bool :=
  match e with
  | ConnectionResetError => true
  | _ => false
  end.

(** The [try] of [_forward_messages] (lines 388-393) around one of the two
    gathered loops: an exception of the loop leaves [asyncio.gather] and
    meets the only [except] clause.  How the two loops interleave is not
    modelled. *)
Definition _forward_messages_try (gathered : IO unit) : IO unit :=
  try_except gathered connection_reset (fun _ => io_ret tt).

(** ** A JSON and base64 library

    One implementation of [PyLib], used to run the relay on concrete frames:
    the text format of Python's [json] module ([dumps] with the default
    separators and [ensure_ascii]) on ASCII texts without float literals
    (which [loads] rejects here), and RFC 4648 base64. *)
Module Sample.

Definition dquote : ascii := ascii_of_nat 34.
Definition backslash : ascii := ascii_of_nat 92.

(** Writes a text with ['] for each double quote. *)
Fixpoint q (s : string) : string :=
  match s with
  | EmptyString => EmptyString
  | String c r =>
      String (if Nat.eqb (nat_of_ascii c) 39 then dquote else c) (q r)
  end.

(** *** Printing *)

Definition hex_digit (n : nat) : ascii :=
  match String.get n "0123456789abcdef" with
  | Some c => c
  | None => "0"%char
  end.

Definition escape_char (c : ascii) : string :=
  let n := nat_of_ascii c in
  if Nat.eqb n 34 then String backslash (String dquote EmptyString)
  else if Nat.eqb n 92 then String backslash (String backslash EmptyString)
  else if Nat.eqb n 10 then String backslash "n"
  else if Nat.eqb n 13 then String backslash "r"
  else if Nat.eqb n 9 then String backslash "t"
  else if Nat.eqb n 8 then String backslash "b"
  else if Nat.eqb n 12 then String backslash "f"
  else if Nat.leb 32 n && Nat.leb n 126 then String c EmptyString
  else String backslash "u00"
         +:+ String (hex_digit (n / 16))
               (String (hex_digit (n mod 16)) EmptyString).

Fixpoint escape (s : string) : string :=
  match s with
  | EmptyString => EmptyString
  | String c r => escape_char c +:+ escape r
  end.

Definition quote (s : string) : string :=
  String dquote (escape s +:+ String dquote EmptyString).

Fixpoint dumps (v : JSON) : string :=
  match v with
  | JNull => "null"
  | JBool true => "true"
  | JBool false => "false"
  | JInt z => pretty z
  | JFloat r => r
  | JString s => quote s
  | JArray l => "[" +:+ String.concat ", " (map dumps l) +:+ "]"
  | JObject d =>
      "{" +:+ String.concat ", "
                (map (fun '(k, x) => quote k +:+ ": " +:+ dumps x) d)
          +:+ "}"
  end.

(** *** Parsing *)

Definition is_ws (c : ascii) : bool :=
  let n := nat_of_ascii c in
  Nat.eqb n 32 || Nat.eqb n 9 || Nat.eqb n 10 || Nat.eqb n 13.

Fixpoint skip_ws (s : string) : string :=
  match s with
  | String c r => if is_ws c then skip_ws r else s
  | EmptyString => s
  end.

Definition is_digit (c : ascii) : bool :=
  let n := nat_of_ascii c in Nat.leb 48 n && Nat.leb n 57.

Definition digit_value (c : ascii) : Z := Z.of_nat (nat_of_ascii c - 48).

Fixpoint parse_digits (s : string) (acc : Z) : Z * string :=
  match s with
  | String c r =>
      if is_digit c then parse_digits r (10 * acc + digit_value c)%Z
      else (acc, s)
  | EmptyString => (acc, s)
  end.

Definition starts_float (s : string) : bool :=
  match s with
  | String c _ =>
      let n := nat_of_ascii c in
      Nat.eqb n 46 || Nat.eqb n 101 || Nat.eqb n 69
  | EmptyString => false
  end.

(** [0] or a digit string without leading zero; a fraction or exponent
    after it makes a float literal, which is not read. *)
Definition parse_nat (s : string) : option (Z * string) :=
  match s with
  | String c r =>
      if Nat.eqb (nat_of_ascii c) 48 then
        if starts_float r then None else Some (0%Z, r)
      else if is_digit c then
        let '(z, rest) := parse_digits s 0 in
        if starts_float rest then None else Some (z, rest)
      else None
  | EmptyString => None
  end.

Definition parse_number (s : string) : option (JSON * string) :=
  match s with
  | String c r =>
      if Nat.eqb (nat_of_ascii c) 45 then
        match parse_nat r with
        | Some (z, rest) => Some (JInt (- z), rest)
        | None => None
        end
      else
        match parse_nat s with
        | Some (z, rest) => Some (JInt z, rest)
        | None => None
        end
  | EmptyString => None
  end.

Definition hex_value (c : ascii) : option nat :=
  let n := nat_of_ascii c in
  if Nat.leb 48 n && Nat.leb n 57 then Some (n - 48)
  else if Nat.leb 97 n && Nat.leb n 102 then Some (n - 87)
  else if Nat.leb 65 n && Nat.leb n 70 then Some (n - 55)
  else None.

Definition simple_escape (c : ascii) : option ascii :=
  let n := nat_of_ascii c in
  if Nat.eqb n 34 then Some dquote
  else if Nat.eqb n 92 then Some backslash
  else if Nat.eqb n 47 then Some "/"%char
  else if Nat.eqb n 110 then Some (ascii_of_nat 10)
  else if Nat.eqb n 114 then Some (ascii_of_nat 13)
  else if Nat.eqb n 116 then Some (ascii_of_nat 9)
  else if Nat.eqb n 98 then Some (ascii_of_nat 8)
  else if Nat.eqb n 102 then Some (ascii_of_nat 12)
  else None.

(** The characters after an opening quote, up to the closing one. *)
Fixpoint parse_string (s : string) : option (string * string) :=
  match s with
  | EmptyString => None
  | String c r =>
      let n := nat_of_ascii c in
      if Nat.eqb n 34 then Some (EmptyString, r)
      else if Nat.eqb n 92 then
        match r with
        | String e r1 =>
            match simple_escape e with
            | Some ch =>
                match parse_string r1 with
                | Some (t, rest) => Some (String ch t, rest)
                | None => None
                end
            | None =>
                match r1 with
                | String h1 (String h2 (String h3 (String h4 r2))) =>
                    match hex_value h1, hex_value h2, hex_value h3, hex_value h4 with
                    | Some 0, Some 0, Some a, Some b =>
                        if Nat.eqb (nat_of_ascii e) 117 then
                          match parse_string r2 with
                          | Some (t, rest) =>
                              Some (String (ascii_of_nat (16 * a + b)) t, rest)
                          | None => None
                          end
                        else None
                    | _, _, _, _ => None
                    end
                | _ => None
                end
            end
        | EmptyString => None
        end
      else if Nat.ltb n 32 then None
      else
        match parse_string r with
        | Some (t, rest) => Some (String c t, rest)
        | None => None
        end
  end.

Fixpoint strip_prefix (p s : string) : option string :=
  match p, s with
  | EmptyString, _ => Some s
  | String a p', String b s' =>
      if Ascii.eqb a b then strip_prefix p' s' else None
  | String _ _, EmptyString => None
  end.

Definition parse_literal (s : string) : option (JSON * string) :=
  match strip_prefix "true" s, strip_prefix "false" s, strip_prefix "null" s with
  | Some r, _, _ => Some (JBool true, r)
  | _, Some r, _ => Some (JBool false, r)
  | _, _, Some r => Some (JNull, r)
  | _, _, _ => parse_number s
  end.

(** A key that occurs twice keeps its first place and its last value. *)
Fixpoint parse_value (fuel : nat) (s : string) : option (JSON * string) :=
  match fuel with
  | O => None
  | S fuel =>
      match skip_ws s with
      | EmptyString => None
      | String c r =>
          let n := nat_of_ascii c in
          if Nat.eqb n 123 then
            match skip_ws r with
            | String c1 r1 =>
                if Nat.eqb (nat_of_ascii c1) 125 then Some (JObject [], r1)
                else parse_members fuel r []
            | EmptyString => None
            end
          else if Nat.eqb n 91 then
            match skip_ws r with
            | String c1 r1 =>
                if Nat.eqb (nat_of_ascii c1) 93 then Some (JArray [], r1)
                else parse_elements fuel r []
            | EmptyString => None
            end
          else if Nat.eqb n 34 then
            match parse_string r with
            | Some (t, rest) => Some (JString t, rest)
            | None => None
            end
          else parse_literal (String c r)
      end
  end
with parse_members (fuel : nat) (s : string) (acc : list (string * JSON))
  : option (JSON * string) :=
  match fuel with
  | O => None
  | S fuel =>
      match skip_ws s with
      | String c r =>
          if Nat.eqb (nat_of_ascii c) 34 then
            match parse_string r with
            | Some (k, rest) =>
                match skip_ws rest with
                | String colon rest1 =>
                    if Nat.eqb (nat_of_ascii colon) 58 then
                      match parse_value fuel rest1 with
                      | Some (v, rest2) =>
                          let acc := Dict.set k v acc in
                          match skip_ws rest2 with
                          | String d rest3 =>
                              if Nat.eqb (nat_of_ascii d) 44
                              then parse_members fuel rest3 acc
                              else if Nat.eqb (nat_of_ascii d) 125
                              then Some (JObject acc, rest3)
                              else None
                          | EmptyString => None
                          end
                      | None => None
                      end
                    else None
                | EmptyString => None
                end
            | None => None
            end
          else None
      | EmptyString => None
      end
  end
with parse_elements (fuel : nat) (s : string) (acc : list JSON)
  : option (JSON * string) :=
  match fuel with
  | O => None
  | S fuel =>
      match parse_value fuel s with
      | Some (v, rest) =>
          match skip_ws rest with
          | String d rest1 =>
              if Nat.eqb (nat_of_ascii d) 44
              then parse_elements fuel rest1 (acc ++ [v])
              else if Nat.eqb (nat_of_ascii d) 93
              then Some (JArray (acc ++ [v]), rest1)
              else None
          | EmptyString => None
          end
      | None => None
      end
  end.

Definition loads (s : string) : option JSON :=
  match parse_value (2 * String.length s + 2) s with
  | Some (v, rest) =>
      match skip_ws rest with
      | EmptyString => Some v
      | String _ _ => None
      end
  | None => None
  end.

(** *** Base64 *)

Definition b64_char (n : N) : ascii :=
  match String.get (N.to_nat n)
          "ABCDEFGHIJKLMNOPQRSTUVWXYZabcdefghijklmnopqrstuvwxyz0123456789+/" with
  | Some c => c
  | None => "="%char
  end.

Fixpoint b64 (l : list Byte.byte) : string :=
  match l with
  | [] => EmptyString
  | [a] =>
      let x := Byte.to_N a in
      String (b64_char (x / 4))
        (String (b64_char ((x mod 4) * 16)) "==")
  | [a; b] =>
      let x := Byte.to_N a in
      let y := Byte.to_N b in
      String (b64_char (x / 4))
        (String (b64_char ((x mod 4) * 16 + y / 16))
           (String (b64_char ((y mod 16) * 4)) "="))
  | a :: b :: c :: rest =>
      let x := Byte.to_N a in
      let y := Byte.to_N b in
      let z := Byte.to_N c in
      String (b64_char (x / 4))
        (String (b64_char ((x mod 4) * 16 + y / 16))
           (String (b64_char ((y mod 16) * 4 + z / 64))
              (String (b64_char (z mod 64)) (b64 rest))))
  end%N.

Definition lib : PyLib := {|
  json_loads := loads;
  json_dumps := dumps;
  b64encode := b64
|}.

End Sample.

(** ** The objects behind [self] (lines 56-87)

    The class body binds [tools] and [_tools_pending] to two dict objects,
    created once when the class is defined, and the other defaults to
    constants.  [__init__] binds [endpoint], [deployment], [voice_choice] and
    [key] (or [_token_provider]) in the instance.  An attribute is read from
    the instance when it is bound there and from the class otherwise. *)
Module Objects.

Inductive Obj : Type :=
| ToolsDict (registry : list (string * Tool))
| PendingDict (pending : gmap string RTToolCall).

(** The class attributes (lines 57-75). *)
Record Class : Type := {
  cls_key : option string;
  cls_tools : nat;
  cls_model : option string;
  cls_system_message : option string;
  cls_temperature : option string;
  cls_max_tokens : option Z;
  cls_disable_audio : option bool;
  cls_voice_choice : option string;
  cls_api_version : string;
  cls_tools_pending : nat
}.

(** An instance's own attributes; [None] where nothing was assigned
    through the instance. *)
Record Instance : Type := {
  inst_endpoint : string;
  inst_deployment : string;
  inst_key : option (option string);
  inst_tools : option nat;
  inst_model : option (option string);
  inst_system_message : option (option string);
  inst_temperature : option (option string);
  inst_max_tokens : option (option Z);
  inst_disable_audio : option (option bool);
  inst_voice_choice : option (option string);
  inst_tools_pending : option nat
}.

Record World : Type := {
  heap : gmap nat Obj;
  class : Class
}.

(** The state after the class statement: the two [{}] of lines 63 and 74
    are objects 0 and 1. *)
Definition class_definition : World := {|
  heap := <[1 := PendingDict ∅]> (<[0 := ToolsDict []]> ∅);
  class := {|
    cls_key := None;
    cls_tools := 0;
    cls_model := None;
    cls_system_message := None;
    cls_temperature := None;
    cls_max_tokens := None;
    cls_disable_audio := None;
    cls_voice_choice := None;
    cls_api_version := "2024-10-01-preview";
    cls_tools_pending := 1
  |}
|}.

Inductive Credentials : Type :=
| AzureKeyCredential (key : string)
| DefaultAzureCredential.

(** [__init__] (lines 77-87): the new instance. *)
Definition __init__ (endpoint deployment : string)
    (credentials : Credentials) (voice_choice : option string) : Instance := {|
  inst_endpoint := endpoint;
  inst_deployment := deployment;
  inst_voice_choice := Some voice_choice;
  inst_key := match credentials with
              | AzureKeyCredential key => Some (Some key)
              | DefaultAzureCredential => None
              end;
  inst_tools := None;
  inst_model := None;
  inst_system_message := None;
  inst_temperature := None;
  inst_max_tokens := None;
  inst_disable_audio := None;
  inst_tools_pending := None
|}.

(** [self.<name>]: the instance's binding, else the class's. *)
Definition getattr {A} (own : option A) (shared : A) : A :=
  match own with
  | Some a => a
  | None => shared
  end.

Definition tools_ref (w : World) (self : Instance) : nat :=
  getattr (inst_tools self) (cls_tools (class w)).

Definition tools_pending_ref (w : World) (self : Instance) : nat :=
  getattr (inst_tools_pending self) (cls_tools_pending (class w)).

(** [self.tools] *)
Definition tools_of (w : World) (self : Instance) : list (string * Tool) :=
  match heap w !! tools_ref w self with
  | Some (ToolsDict registry) => registry
  | _ => []
  end.

(** [self._tools_pending] *)
Definition tools_pending_of (w : World) (self : Instance)
  : gmap string RTToolCall :=
  match heap w !! tools_pending_ref w self with
  | Some (PendingDict pending) => pending
  | _ => ∅
  end.

(** What the attributes of [self] evaluate to in [w]. *)
Definition view (w : World) (self : Instance) : RTMiddleTier := {|
  endpoint := inst_endpoint self;
  deployment := inst_deployment self;
  key := getattr (inst_key self) (cls_key (class w));
  tools := tools_of w self;
  model := getattr (inst_model self) (cls_model (class w));
  system_message :=
    getattr (inst_system_message self) (cls_system_message (class w));
  temperature := getattr (inst_temperature self) (cls_temperature (class w));
  max_tokens := getattr (inst_max_tokens self) (cls_max_tokens (class w));
  disable_audio :=
    getattr (inst_disable_audio self) (cls_disable_audio (class w));
  voice_choice := getattr (inst_voice_choice self) (cls_voice_choice (class w));
  api_version := cls_api_version (class w)
|}.

(** Runs a method of [self]: its reads and writes of [self._tools_pending]
    go to the dict object the attribute refers to. *)
Definition call {A} (method : RTMiddleTier -> IO A) (self : Instance)
    (w : World) : Result A * World * list Sent :=
  match method (view w self) (tools_pending_of w self) with
  | (r, pending, sent) =>
      (r,
       {| heap := <[tools_pending_ref w self := PendingDict pending]> (heap w);
          class := class w |},
       sent)
  end.

End Objects.

(** ** Events

    The shapes of the frames the properties are about. *)

(** The text of [msg] parses to an object whose ["type"] is [ty]. *)
Definition event `{PyLib} (msg : WSMessage) (ty : string)
    (members : list (string * JSON)) : Prop :=
  json_loads (data msg) = Some (JObject members) /\
  Dict.lookup "type" members = Some (JString ty).

(** An event of type [ty] whose ["item"] is a function call with the call
    identifier [call_id]. *)
Definition function_call_event `{PyLib} (msg : WSMessage) (ty : string)
    (members item : list (string * JSON)) (call_id : string) : Prop :=
  event msg ty members /\
  Dict.lookup "item" members = Some (JObject item) /\
  Dict.lookup "type" item = Some (JString "function_call") /\
  Dict.lookup "call_id" item = Some (JString call_id).

(** Whether the text of [msg] parses to an object whose ["type"] is [ty]. *)
Definition has_type `{PyLib} (msg : WSMessage) (ty : string) : bool :=
  match json_loads (data msg) with
  | Some (JObject members) =>
      match Dict.lookup "type" members with
      | Some t => is_str t ty
      | None => false
      end
  | _ => false
  end.

(** A handler that removes no pending call, however it ends. *)
Definition keeps_pending {A} (m : IO A) : Prop :=
  forall (p : gmap string RTToolCall) (c : string),
    is_Some (p !! c) -> is_Some ((m p).1.2 !! c).

(** A handler that leaves the pending-call table as it is. *)
Definition leaves_pending {A} (m : IO A) : Prop :=
  forall p : gmap string RTToolCall, (m p).1.2 = p.

(** A handler that sends nothing and leaves the table as it is. *)
Definition silent {A} (m : IO A) : Prop :=
  forall p : gmap string RTToolCall, exists r, m p = (r, p, []).

(** A loop body that does not leave the loop. *)
Definition continues (m : IO Flow) : Prop :=
  forall p : gmap string RTToolCall, (m p).1.1 <> Ok Break.

(** The event types [_process_message_to_client] has a case for. *)
Definition handled_types : list string :=
  ["session.created"; "response.output_item.added";
   "conversation.item.created"; "response.function_call_arguments.delta";
   "response.function_call_arguments.done"; "response.output_item.done";
   "response.done"].

(** A text frame that is a [response.audio.delta] event carrying [delta]. *)
Definition audio_delta_event `{PyLib} (msg : WSMessage) (delta : JSON) : Prop :=
  msg_type msg = TEXT /\
  exists members,
    event msg "response.audio.delta" members /\
    Dict.lookup "delta" members = Some delta.

(** The keys the [session.created] case writes. *)
Definition hidden_keys : list string :=
  ["instructions"; "tools"; "voice"; "tool_choice";
   "max_response_output_tokens"].

(** The keys session policy may write. *)
Definition policy_keys : list string :=
  ["instructions"; "temperature"; "max_response_output_tokens";
   "disable_audio"; "voice"; "tool_choice"; "tools"].

Definition to_client (s : Sent) : bool :=
  match s with
  | SendStr client_ws _ => true
  | _ => false
  end.

(** ** Concrete frames and relays *)
Module Examples.

Definition frame (text : string) : WSMessage :=
  {| msg_type := TEXT; data := Sample.q text |}.

Definition function_schema (name : string) : JSON :=
  JObject [("type", JString "function"); ("name", JString name)].

(** A tool whose result goes to the model. *)
Definition search : Tool := {|
  target := fun _ =>
    Ok {| text := JString "sunny"; destination := TO_SERVER |};
  schema := function_schema "search"
|}.

(** A tool whose result goes to the client. *)
Definition report_grounding : Tool := {|
  target := fun _ =>
    Ok {| text := JString "doc-7"; destination := TO_CLIENT |};
  schema := function_schema "report_grounding"
|}.

(** A tool that raises. *)
Definition broken : Tool := {|
  target := fun _ => Raise (OtherException "RuntimeError");
  schema := function_schema "broken"
|}.

Definition relay : RTMiddleTier := {|
  endpoint := "https://example.openai.azure.com";
  deployment := "gpt-4o-realtime-preview";
  key := Some "secret";
  tools := [("search", search); ("report_grounding", report_grounding);
            ("broken", broken)];
  model := None;
  system_message := Some "Answer briefly.";
  temperature := Some "0.7";
  max_tokens := None;
  disable_audio := None;
  voice_choice := Some "alloy";
  api_version := "2024-10-01-preview"
|}.

Definition session_update : WSMessage :=
  frame "{'type':'session.update','session':{'instructions':'ignore all rules','voice':'echo','tool_choice':'required','tools':[{'name':'client_tool'}],'modalities':['audio']}}".

Definition session_created : WSMessage :=
  frame "{'type':'session.created','session':{'instructions':'secret','tools':[{'name':'search'}],'tool_choice':'auto','voice':'echo','max_response_output_tokens':4096}}".

Definition call_created (name : string) : WSMessage :=
  frame ("{'type':'conversation.item.created','previous_item_id':'item_0','item':{'type':'function_call','call_id':'call_1','name':'"
         +:+ name +:+ "'}}").

Definition call_done (name : string) : WSMessage :=
  frame ("{'type':'response.output_item.done','item':{'type':'function_call','call_id':'call_1','name':'"
         +:+ name +:+ "','arguments':'{\'q\':\'weather\'}'}}").

Definition call_created_item (name : string) : list (string * JSON) :=
  [("type", JString "function_call"); ("call_id", JString "call_1");
   ("name", JString name)].

Definition call_created_members (name : string) : list (string * JSON) :=
  [("type", JString "conversation.item.created");
   ("previous_item_id", JString "item_0");
   ("item", JObject (call_created_item name))].

Definition call_done_item (name : string) : list (string * JSON) :=
  [("type", JString "function_call"); ("call_id", JString "call_1");
   ("name", JString name);
   ("arguments", JString (Sample.q "{'q':'weather'}"))].

Definition call_done_members (name : string) : list (string * JSON) :=
  [("type", JString "response.output_item.done");
   ("item", JObject (call_done_item name))].

Definition response_done : WSMessage :=
  frame "{'type':'response.done','response':{'output':[{'type':'function_call','call_id':'call_1'},{'type':'message','id':'item_2'}]}}".

Definition audio_delta (delta : string) : WSMessage :=
  frame ("{'type':'response.audio.delta','delta':'" +:+ delta +:+ "'}").

Definition speech_started : WSMessage :=
  frame "{'type':'input_audio_buffer.speech_started'}".

Definition acs_audio : WSMessage :=
  frame "{'kind':'AudioData','audioData':{'data':'QUJD'}}".

Definition acs_not_json : WSMessage := frame "not json".

Definition acs_no_audio_data : WSMessage := frame "{'kind':'AudioData'}".

Definition acs_null_audio_data : WSMessage :=
  frame "{'kind':'AudioData','audioData':null}".

Definition one_pending : gmap string RTToolCall :=
  {[ "call_1" := {| tool_call_id := "call_1"; previous_id := JString "item_0" |} ]}.

Definition two_pending : gmap string RTToolCall :=
  <["call_2" := {| tool_call_id := "call_2"; previous_id := JString "item_1" |}]>
    one_pending.

Definition greeting_pcm : list Byte.byte := [Byte.x41; Byte.x42; Byte.x43].

Definition session_created_session : list (string * JSON) :=
  [("instructions", JString "secret");
   ("tools", JArray [JObject [("name", JString "search")]]);
   ("tool_choice", JString "auto");
   ("voice", JString "echo");
   ("max_response_output_tokens", JInt 4096)].

Definition session_created_members : list (string * JSON) :=
  [("type", JString "session.created");
   ("session", JObject session_created_session)].

(** Two relays, built by two calls of the constructor. *)
Definition first_instance : Objects.Instance :=
  Objects.__init__ "https://one.example" "deployment-one"
    (Objects.AzureKeyCredential "key-one") None.

Definition second_instance : Objects.Instance :=
  Objects.__init__ "https://two.example" "deployment-two"
    (Objects.AzureKeyCredential "key-two") (Some "alloy").

End Examples.

(** ** The rest of [_forward_messages] (rtmt.py, lines 351-393) *)

(** The query parameters of the model connection (line 353). *)
Definition _forward_messages_params (self : RTMiddleTier)
  : list (string * string) :=
  [("api-version", api_version self); ("deployment", deployment self)].

(** The headers of the model connection (lines 354-360).  [ws_headers] is
    [ws.headers] as a lookup; [token_provider] is what
    [self._token_provider()] returns, [None] when the attribute is [None]
    (calling it raises [TypeError]). *)
Definition _forward_messages_headers (self : RTMiddleTier)
    (ws_headers : string -> option string) (token_provider : option string)
  : Result (list (string * string)) :=
  let headers : list (string * string) := [] in
  let headers :=
    match ws_headers "x-ms-client-request-id" with
    | Some request_id => headers ++ [("x-ms-client-request-id", request_id)]
    | None => headers
    end in
  match key self with
  | Some api_key =>
      let headers := [("api-key", api_key)] in
      Ok headers
  | None =>
      match token_provider with
      | Some token =>
          let headers := [("Authorization", "Bearer " +:+ token)] in
          Ok headers
      | None => Raise TypeError
      end
  end.

(** The body of the loop of [from_client_to_server] (lines 364-371); [ws] is
    the client socket, [target_ws] the model socket. *)
Definition from_client_to_server_body `{PyLib} (self : RTMiddleTier)
    (msg : WSMessage) : IO Flow :=
  match msg_type msg with
  | TEXT =>
      (new_msg <- lift (_process_message_to_server self msg) ;;
       _ <- match new_msg with
            | Some text => send_str server_ws text
            | None => io_ret tt
            end ;;
       io_ret Continue)%io
  | _ => io_ret Continue
  end.

(** [from_client_to_server] (lines 363-376): a [target_ws] object is true,
    so the model socket is closed once the client's frames end. *)
Definition from_client_to_server `{PyLib} (self : RTMiddleTier)
    (msgs : list WSMessage) : IO unit :=
  (_ <- async_for (from_client_to_server_body self) msgs ;;
   close server_ws)%io.

(** The body of the loop of [from_server_to_client] (lines 379-386). *)
Definition from_server_to_client_body `{PyLib} (self : RTMiddleTier)
    (msg : WSMessage) : IO Flow :=
  match msg_type msg with
  | TEXT =>
      (new_msg <- _process_message_to_client self msg ;;
       _ <- match new_msg with
            | Some text => send_str client_ws text
            | None => io_ret tt
            end ;;
       io_ret Continue)%io
  | _ => io_ret Continue
  end.

(** [from_server_to_client] (lines 378-386) *)
Definition from_server_to_client `{PyLib} (self : RTMiddleTier)
    (msgs : list WSMessage) : IO unit :=
  async_for (from_server_to_client_body self) msgs.

(** ** More frame shapes *)

(** A text frame of the client that is an [AudioData] frame carrying
    [audio]. *)
Definition acs_audio_frame `{PyLib} (msg : WSMessage) (audio : JSON) : Prop :=
  msg_type msg = TEXT /\
  exists members audio_data,
    json_loads (data msg) = Some (JObject members) /\
    Dict.lookup "kind" members = Some (JString "AudioData") /\
    Dict.lookup "audioData" members = Some (JObject audio_data) /\
    Dict.lookup "data" audio_data = Some audio.

(** A frame of the client that the loop passes over: a frame that is
    neither TEXT nor CLOSE, a text that is not JSON, an object of another
    kind or of none, or an [AudioData] object that lacks ["audioData"] or
    whose ["audioData"] is an object without ["data"]. *)
Definition acs_skipped_frame `{PyLib} (msg : WSMessage) : Prop :=
  (msg_type msg <> TEXT /\ msg_type msg <> CLOSE) \/
  (msg_type msg = TEXT /\
   (json_loads (data msg) = None \/
    exists members,
      json_loads (data msg) = Some (JObject members) /\
      (is_str (default (JString "") (Dict.lookup "kind" members)) "AudioData"
         = false \/
       (Dict.lookup "kind" members = Some (JString "AudioData") /\
        (Dict.lookup "audioData" members = None \/
         exists audio_data,
           Dict.lookup "audioData" members = Some (JObject audio_data) /\
           Dict.lookup "data" audio_data = None))))).

(** What the client loop does with a frame: forward [audio], or nothing. *)
Definition acs_frame_yields `{PyLib} (msg : WSMessage) (audio : option JSON)
  : Prop :=
  match audio with
  | Some a => acs_audio_frame msg a
  | None => acs_skipped_frame msg
  end.

(** [input_audio_buffer.append] for [audio], as the client loop sends it. *)
Definition append_frame `{PyLib} (audio : JSON) : Sent :=
  SendStr server_ws
    (json_dumps (JObject [("type", JString "input_audio_buffer.append");
                          ("audio", audio)])).

(** What the model-to-client loop may write to the client socket: an
    [AudioData] frame, the [StopAudio] frame, or a tool's
    [extension.middle_tier_tool_response]. *)
Definition client_frame `{PyLib} (s : Sent) : Prop :=
  match s with
  | SendStr client_ws payload =>
      (exists delta, payload = transmit_openai_audio_to_acs delta) \/
      payload = json_dumps (JObject [
                  ("Kind", JString "StopAudio");
                  ("AudioData", JNull);
                  ("StopAudio", JObject [])]) \/
      (exists previous name result,
         payload = json_dumps (JObject [
                     ("type", JString "extension.middle_tier_tool_response");
                     ("previous_item_id", previous);
                     ("tool_name", name);
                     ("tool_result", JString result)]))
  | _ => True
  end.

(** A handler all of whose sends satisfy [P]. *)
Definition sends_only {A} (P : Sent -> Prop) (m : IO A) : Prop :=
  forall p : gmap string RTToolCall, Forall P (m p).2.

(** The events about a tool call that [_process_message_to_client] keeps
    from the client without acting on them. *)
Definition tool_call_noise `{PyLib} (msg : WSMessage) : Prop :=
  exists members,
    json_loads (data msg) = Some (JObject members) /\
    (Dict.lookup "type" members
       = Some (JString "response.function_call_arguments.delta") \/
     Dict.lookup "type" members
       = Some (JString "response.function_call_arguments.done") \/
     (Dict.lookup "type" members = Some (JString "response.output_item.added") /\
      exists item,
        Dict.lookup "item" members = Some (JObject item) /\
        Dict.lookup "type" item = Some (JString "function_call")) \/
     (Dict.lookup "type" members = Some (JString "conversation.item.created") /\
      exists item,
        Dict.lookup "item" members = Some (JObject item) /\
        Dict.lookup "type" item = Some (JString "function_call_output"))).

(** An output entry that is an object whose ["type"] is not
    ["function_call"]. *)
Definition not_a_function_call (entry : JSON) : Prop :=
  exists ty, getitem entry "type" = Ok ty /\ is_str ty "function_call" = false.

(** ** The logger (logger.py)

    [logging.getLogger] hands out one logger object per name, so the
    loggers live in a registry and a [MultiLogger] refers to its logger by
    name.  A formatter is the format it keeps, and a handler is what
    [_setup_console_logging] and [_setup_file_logging] make of it: its
    kind, level and formatter.  The directory and the file that
    [_setup_file_logging] creates are not tracked; [can_open] says whether
    creating them succeeds.  Files are texts under the path they are opened
    with. *)
Module LoggerPy.

(** What the module takes from [os]: [os.path.abspath], whether a path can
    be opened for writing (its directory exists or can be made), and
    [os.path.dirname(__file__)]. *)
Class Os : Type := {
  abspath : string -> string;
  can_open : string -> bool;
  module_dir : string
}.

(** What the module takes from [logging] besides loggers and handlers:
    [logging.Formatter(fmt)], as the format the formatter keeps, or the
    exception the constructor raises. *)
Class Logging : Type := {
  Formatter : string -> Result string
}.

Inductive Handler : Type :=
| StreamHandler (level : Z) (formatter : string)
| FileHandler (baseFilename : string) (level : Z) (formatter : string).

Record Logger : Type := {
  name : string;
  level : Z;
  handlers : list Handler
}.

Record MultiLogger : Type := {
  logger : string;
  formatter : string;
  log_file : option string;
  log_destination : string
}.

(** [logging.getLogger("")] is the root logger, whose name is ["root"]. *)
Definition logger_key (name : string) : string :=
  if String.eqb name "" then "root" else name.

(** [logging.getLogger(name)]: the registry with the logger in it. *)
Definition getLogger (name : string) (registry : gmap string Logger)
  : gmap string Logger :=
  match registry !! logger_key name with
  | Some _ => registry
  | None =>
      <[logger_key name :=
          {| name := logger_key name; level := 0; handlers := [] |}]> registry
  end.

(** [self.logger], the object. *)
Definition the_logger (self : MultiLogger) (registry : gmap string Logger)
  : Logger :=
  match registry !! logger self with
  | Some l => l
  | None => {| name := logger self; level := 0; handlers := [] |}
  end.

Definition setLevel (self : MultiLogger) (log_level : Z)
    (registry : gmap string Logger) : gmap string Logger :=
  let l := the_logger self registry in
  <[logger self := {| name := name l; level := log_level;
                      handlers := handlers l |}]> registry.

(** [self.logger.handlers.clear()] *)
Definition clear_handlers (self : MultiLogger) (registry : gmap string Logger)
  : gmap string Logger :=
  let l := the_logger self registry in
  <[logger self := {| name := name l; level := level l; handlers := [] |}]>
    registry.

(** [self.logger.addHandler(h)] for a handler just made. *)
Definition addHandler (self : MultiLogger) (h : Handler)
    (registry : gmap string Logger) : gmap string Logger :=
  let l := the_logger self registry in
  <[logger self := {| name := name l; level := level l;
                      handlers := handlers l ++ [h] |}]> registry.

(** [_setup_console_logging] (lines 54-64) *)
Definition _setup_console_logging (self : MultiLogger)
    (registry : gmap string Logger) : gmap string Logger :=
  let console_handler :=
    StreamHandler (level (the_logger self registry)) (formatter self) in
  addHandler self console_handler registry.

(** [not s] for an optional string: [None] and [""] are false. *)
Definition falsy (s : option string) : bool :=
  match s with
  | None => true
  | Some text => String.eqb text ""
  end.

(** [_setup_file_logging] (lines 66-88): the result, [self] and the
    registry after the call.  [logging.FileHandler] keeps the absolute path
    of the file it opens. *)
Definition _setup_file_logging `{Os} (self : MultiLogger)
    (registry : gmap string Logger)
  : Result unit * MultiLogger * gmap string Logger :=
  let file :=
    match log_file self with
    | Some text => if String.eqb text "" then
                     name (the_logger self registry) +:+ ".log"
                   else text
    | None => name (the_logger self registry) +:+ ".log"
    end in
  let file := abspath file in
  let self := {| logger := logger self; formatter := formatter self;
                 log_file := Some file;
                 log_destination := log_destination self |} in
  if can_open file then
    let file_handler :=
      FileHandler (abspath file) (level (the_logger self registry))
        (formatter self) in
    (Ok tt, self, addHandler self file_handler registry)
  else (Raise (OtherException "OSError"), self, registry).

(** [MultiLogger.__init__] (lines 14-52): the new object, or the exception,
    and the registry after the call. *)
Definition __init__ `{Os} `{Logging} (name : string) (log_level : Z)
    (log_destination : string) (log_file : option string) (log_format : string)
    (registry : gmap string Logger)
  : Result MultiLogger * gmap string Logger :=
  let registry := getLogger name registry in
  (* only [self.logger] is assigned so far: lines 34-37 read nothing else *)
  let self := {| logger := logger_key name; formatter := "";
                 log_file := None; log_destination := "" |} in
  let registry := setLevel self log_level registry in
  let registry := clear_handlers self registry in
  match Formatter log_format with
  | Raise e => (Raise e, registry)
  | Ok made =>
      let self := {| logger := logger_key name; formatter := made;
                     log_file := log_file;
                     log_destination := log_destination |} in
      if String.eqb log_destination "console" then
        (Ok self, _setup_console_logging self registry)
      else if String.eqb log_destination "file" then
        match _setup_file_logging self registry with
        | (Ok _, self, registry) => (Ok self, registry)
        | (Raise e, _, registry) => (Raise e, registry)
        end
      else (Raise (OtherException "ValueError"), registry)
  end.

(** [x or y] for optional strings. *)
Definition or_else (x y : option string) : option string :=
  if falsy x then y else x.

(** [change_log_destination] (lines 90-116) *)
Definition change_log_destination `{Os} (self : MultiLogger)
    (new_destination : string) (new_log_file : option string)
    (registry : gmap string Logger)
  : Result unit * MultiLogger * gmap string Logger :=
  let registry := clear_handlers self registry in
  let self := {| logger := logger self; formatter := formatter self;
                 log_file := log_file self;
                 log_destination := new_destination |} in
  if String.eqb new_destination "console" then
    (Ok tt, self, _setup_console_logging self registry)
  else if String.eqb new_destination "file" then
    let self := {| logger := logger self; formatter := formatter self;
                   log_file := or_else new_log_file (log_file self);
                   log_destination := log_destination self |} in
    _setup_file_logging self registry
  else (Raise (OtherException "ValueError"), self, registry).

(** [get_logger] (lines 142-149): the logger object. *)
Definition get_logger (self : MultiLogger) (registry : gmap string Logger)
  : Logger :=
  the_logger self registry.

(** [posixpath.join] of two parts. *)
Definition join2 (path b : string) : string :=
  match b with
  | String "/" _ => b
  | _ =>
      if String.eqb path "" then b
      else if String.eqb (String.substring (String.length path - 1) 1 path) "/"
      then path +:+ b
      else path +:+ "/" +:+ b
  end.

(** [os.path.join(os.path.dirname(__file__), 'logs', filename)] *)
Definition log_path `{Os} (filename : string) : string :=
  join2 (join2 module_dir "logs") filename.

(** [write_instruction_log] (lines 118-128): the files after the call. *)
Definition write_instruction_log `{Os} (instruction filename : string)
    (files : gmap string string) : Result unit * gmap string string :=
  let file_path := log_path filename in
  if can_open file_path then
    let before := default "" (files !! file_path) in
    let newlines := String (ascii_of_nat 10) (String (ascii_of_nat 10)
                     (String (ascii_of_nat 10) (String (ascii_of_nat 10) ""))) in
    (Ok tt, <[file_path := before +:+ instruction +:+ newlines]> files)
  else (Raise (OtherException "OSError"), files).

(** [truncate_log_files] (lines 130-140) *)
Definition truncate_log_files `{Os} (filename : string)
    (files : gmap string string) : Result unit * gmap string string :=
  let file_path := log_path filename in
  if can_open file_path then (Ok tt, <[file_path := ""]> files)
  else (Raise (OtherException "OSError"), files).

End LoggerPy.

(** ** Reading an audio log (stream_decoder.py, lines 38-57)

    Files hold ASCII text, one character per byte; [isspace] is
    [str.isspace] on such characters. *)
Module StreamDecoder.

(** [str.isspace] of a character. *)
Definition isspace (c : ascii) : bool :=
  let n := nat_of_ascii c in
  (Nat.leb 9 n && Nat.leb n 13) || (Nat.leb 28 n && Nat.leb n 32).

Fixpoint lstrip (s : string) : string :=
  match s with
  | String c rest => if isspace c then lstrip rest else s
  | EmptyString => s
  end.

Fixpoint rstrip (s : string) : string :=
  match s with
  | String c rest =>
      match rstrip rest with
      | EmptyString => if isspace c then EmptyString else String c EmptyString
      | kept => String c kept
      end
  | EmptyString => s
  end.

(** [s.strip()] *)
Definition strip (s : string) : string := rstrip (lstrip s).

(** What reading in text mode makes of the line ends: ["\r\n"] and ["\r"]
    become ["\n"]. *)
Fixpoint universal_newlines (s : string) : string :=
  match s with
  | EmptyString => EmptyString
  | String c rest =>
      if Nat.eqb (nat_of_ascii c) 13 then
        String (ascii_of_nat 10)
          match rest with
          | String c' rest' =>
              if Nat.eqb (nat_of_ascii c') 10 then universal_newlines rest'
              else universal_newlines rest
          | EmptyString => EmptyString
          end
      else String c (universal_newlines rest)
  end.

(** The lines of a text, each with its line end. *)
Fixpoint lines (s : string) : list string :=
  match s with
  | EmptyString => []
  | String c rest =>
      if Nat.eqb (nat_of_ascii c) 10 then String c EmptyString :: lines rest
      else
        match lines rest with
        | [] => [String c EmptyString]
        | line :: more => String c line :: more
        end
  end.

(** [for line in log_file] *)
Definition readlines (content : string) : list string :=
  lines (universal_newlines content).

(** The loop of [process_audio_log] over the lines. *)
Fixpoint chunks (file_lines : list string) (pcm_data : list string)
  : list string :=
  match file_lines with
  | [] => pcm_data
  | line :: rest =>
      if String.eqb (strip line) "" then chunks rest pcm_data
      else
        let chunk := strip line in
        chunks rest (pcm_data ++ [chunk])
  end.

(** A text of ASCII characters. *)
Definition ascii_text (s : string) : Prop :=
  Forall (fun c => nat_of_ascii c < 128) (list_ascii_of_string s).

(** A chunk as the relay logs them: ASCII text that is not empty, has no
    white space around it and no line end inside. *)
Definition plain_chunk (chunk : string) : Prop :=
  chunk <> EmptyString /\
  strip chunk = chunk /\
  Forall (fun c => nat_of_ascii c <> 10 /\ nat_of_ascii c <> 13 /\
                   nat_of_ascii c < 128)
    (list_ascii_of_string chunk).

(** [process_audio_log] *)
Definition process_audio_log (input_log_file : string)
    (files : gmap string string) : Result (list string) :=
  match files !! input_log_file with
  | Some content => Ok (chunks (readlines content) [])
  | None => Raise (OtherException "FileNotFoundError")
  end.

End StreamDecoder.

(** ** A formatter constructor

    [logging.Formatter(fmt)] with the default style, on ASCII formats: an
    empty format stands for ["%(message)s"], and a format in which
    [PercentStyle.validation_pattern],
    [%\(\w+\)[#0+ -]*(\*|\d+)?(\.(\*|\d+))?[diouxefgcrsa%]] without regard
    to case, matches nowhere is refused with [ValueError]. *)
Module SampleLogging.

Fixpoint skip (p : ascii -> bool) (s : string) : string :=
  match s with
  | String c rest => if p c then skip p rest else s
  | EmptyString => s
  end.

Definition between (low high : nat) (c : ascii) : bool :=
  Nat.leb low (nat_of_ascii c) && Nat.leb (nat_of_ascii c) high.

(** [\d] *)
Definition digit (c : ascii) : bool := between 48 57 c.

(** [\w] *)
Definition word (c : ascii) : bool :=
  digit c || between 65 90 c || between 97 122 c || Nat.eqb (nat_of_ascii c) 95.

(** [[#0+ -]] *)
Definition flag (c : ascii) : bool :=
  existsb (Nat.eqb (nat_of_ascii c)) [35; 48; 43; 32; 45].

(** [[diouxefgcrsa%]], either case *)
Definition conversion (c : ascii) : bool :=
  let lower := if between 65 90 c then nat_of_ascii c + 32
               else nat_of_ascii c in
  existsb (Nat.eqb lower)
    (map nat_of_ascii (list_ascii_of_string "diouxefgcrsa%")).

(** Whether [[#0+ -]*(\*|\d+)?(\.(\*|\d+))?[diouxefgcrsa%]] matches at the
    start of [s]. *)
Definition after_name (s : string) : bool :=
  let s := skip flag s in
  let s := match s with
           | String "*" rest => rest
           | _ => skip digit s
           end in
  let s := match s with
           | String "." (String "*" rest) => Some rest
           | String "." (String d rest) =>
               if digit d then Some (skip digit rest) else None
           | String "." EmptyString => None
           | _ => Some s
           end in
  match s with
  | Some (String c _) => conversion c
  | _ => false
  end.

(** Whether the pattern matches at a ["%"] that [s] follows. *)
Definition field (s : string) : bool :=
  match s with
  | String "(" (String c rest) =>
      word c &&
      match skip word rest with
      | String ")" tail => after_name tail
      | _ => false
      end
  | _ => false
  end.

(** [validation_pattern.search(fmt)] *)
Fixpoint search (fmt : string) : bool :=
  match fmt with
  | String c rest => (Nat.eqb (nat_of_ascii c) 37 && field rest) || search rest
  | EmptyString => false
  end.

Definition Formatter (fmt : string) : Result string :=
  let fmt := if String.eqb fmt "" then "%(message)s" else fmt in
  if search fmt then Ok fmt else Raise (OtherException "ValueError").

Definition lib : LoggerPy.Logging := {| LoggerPy.Formatter := Formatter |}.

End SampleLogging.

(** ** More concrete data *)
Module MoreExamples.

(** A process whose working directory is [/srv/app] and that may write
    anywhere; paths are taken to be in normal form. *)
Definition os : LoggerPy.Os := {|
  LoggerPy.abspath := fun path =>
    match path with
    | String "/" _ => path
    | _ => "/srv/app/" +:+ path
    end;
  LoggerPy.can_open := fun _ => true;
  LoggerPy.module_dir := "/srv/app/backend"
|}.

Definition text_delta : WSMessage :=
  Examples.frame "{'type':'response.text.delta','delta':'Hello'}".

Definition arguments_delta : WSMessage :=
  Examples.frame "{'type':'response.function_call_arguments.delta','delta':'{'}".

Definition output_item_added : WSMessage :=
  Examples.frame "{'type':'response.output_item.added','item':{'type':'function_call','call_id':'call_1'}}".

Definition output_created : WSMessage :=
  Examples.frame "{'type':'conversation.item.created','item':{'type':'function_call_output','call_id':'call_1'}}".

Definition quiet_response_done : WSMessage :=
  Examples.frame "{'type':'response.done','response':{'output':[{'type':'message','id':'item_2'}]}}".

Definition binary_frame : WSMessage := {| msg_type := BINARY; data := "" |}.

Definition client_ping : WSMessage :=
  Examples.frame "{'type':'ping','n':1}".

Definition log_format : string :=
  "%(asctime)s - %(name)s - %(levelname)s - %(message)s".

(** [MultiLogger("rtmt", log_level=logging.ERROR)], the object and the
    registry it leaves (rtmt.py, line 16). *)
Definition rtmt_logger : LoggerPy.MultiLogger := {|
  LoggerPy.logger := "rtmt";
  LoggerPy.formatter := log_format;
  LoggerPy.log_file := None;
  LoggerPy.log_destination := "console"
|}.

Definition rtmt_registry : gmap string LoggerPy.Logger :=
  {[ "rtmt" := {| LoggerPy.name := "rtmt"; LoggerPy.level := 40;
                  LoggerPy.handlers :=
                    [LoggerPy.StreamHandler 40 log_format] |} ]}.

(** The same after [change_log_destination("file", "logs/rtmt-acs.log")]
    (line 18). *)
Definition rtmt_file_logger : LoggerPy.MultiLogger := {|
  LoggerPy.logger := "rtmt";
  LoggerPy.formatter := log_format;
  LoggerPy.log_file := Some "/srv/app/logs/rtmt-acs.log";
  LoggerPy.log_destination := "file"
|}.

Definition rtmt_file_registry : gmap string LoggerPy.Logger :=
  {[ "rtmt" := {| LoggerPy.name := "rtmt"; LoggerPy.level := 40;
                  LoggerPy.handlers :=
                    [LoggerPy.FileHandler "/srv/app/logs/rtmt-acs.log" 40
                       log_format] |} ]}.

Definition line_feed : string := String (ascii_of_nat 10) "".

Definition carriage_return : string := String (ascii_of_nat 13) "".

(** A log with a Windows line end, blank lines, white space around a chunk
    and no line end after the last chunk. *)
Definition audio_log : string :=
  "QUJD" +:+ carriage_return +:+ line_feed +:+ line_feed +:+
  "  RUZH  " +:+ line_feed +:+ " " +:+ line_feed +:+ "SUpL".

End MoreExamples.

(** * Properties *)

(** ** Dictionaries *)

Lemma lookup_set_eq k v d : Dict.lookup k (Dict.set k v d) = Some v.
Proof.
  induction d as [|[k' v'] d IH]; simpl.
  - now rewrite String.eqb_refl.
  - destruct (String.eqb k k') eqn:E; simpl; rewrite E; auto.
Qed.

Lemma lookup_set_ne k k' v d :
  k <> k' -> Dict.lookup k' (Dict.set k v d) = Dict.lookup k' d.
Proof.
  intros Hne. induction d as [|[k0 v0] d IH]; simpl.
  - destruct (String.eqb_spec k' k); congruence.
  - destruct (String.eqb_spec k k0) as [->|]; simpl.
    + destruct (String.eqb_spec k' k0); congruence.
    + now rewrite IH.
Qed.

(** Assigning to a key keeps the keys distinct. *)
Lemma set_keys_NoDup k v d : NoDup (Dict.keys d) -> NoDup (Dict.keys (Dict.set k v d)).
Proof.
  unfold Dict.keys. induction d as [|[k0 v0] d IH]; simpl; intros Hd.
  - repeat constructor. intros Hin. inversion Hin.
  - inversion Hd as [|? ? Hnotin Hrest]; subst.
    destruct (String.eqb_spec k k0) as [->|Hne]; simpl.
    + now constructor.
    + constructor; [|auto].
      intros Hin. apply Hnotin. clear -Hin Hne.
      induction d as [|[k1 v1] d IH]; simpl in *.
      * apply list_elem_of_In in Hin. simpl in Hin. intuition congruence.
      * destruct (String.eqb_spec k k1) as [->|]; simpl in *.
        -- exact Hin.
        -- apply elem_of_cons in Hin as [->|Hin]; [left|right; auto].
Qed.

Ltac lookups :=
  repeat first
    [ rewrite lookup_set_eq
    | rewrite lookup_set_ne by discriminate ].

(** ** Session policy *)

Section Policy.
Context `{PyLib}.

Lemma lookup_set_other k k' v d :
  k' ∉ policy_keys -> k ∈ policy_keys ->
  Dict.lookup k' (Dict.set k v d) = Dict.lookup k' d.
Proof.
  intros Hout Hin. apply lookup_set_ne. intros ->. contradiction.
Qed.

(** On a dict, the policy statements never raise; this is what they leave
    under each key. *)
Lemma enforce_session_policy_spec self session :
  exists session',
    enforce_session_policy self (JObject session) = Ok (JObject session') /\
    Dict.lookup "tool_choice" session'
      = Some (JString (match tools self with [] => "none" | _ => "auto" end)) /\
    Dict.lookup "tools" session'
      = Some (JArray (map (fun entry => schema (snd entry)) (tools self))) /\
    Dict.lookup "instructions" session'
      = match system_message self with
        | Some v => Some (JString v)
        | None => Dict.lookup "instructions" session
        end /\
    Dict.lookup "temperature" session'
      = match temperature self with
        | Some v => Some (JFloat v)
        | None => Dict.lookup "temperature" session
        end /\
    Dict.lookup "max_response_output_tokens" session'
      = match max_tokens self with
        | Some v => Some (JInt v)
        | None => Dict.lookup "max_response_output_tokens" session
        end /\
    Dict.lookup "disable_audio" session'
      = match disable_audio self with
        | Some v => Some (JBool v)
        | None => Dict.lookup "disable_audio" session
        end /\
    Dict.lookup "voice" session'
      = match voice_choice self with
        | Some v => Some (JString v)
        | None => Dict.lookup "voice" session
        end /\
    (forall k, k ∉ policy_keys -> Dict.lookup k session' = Dict.lookup k session).
Proof.
  assert (Hkeys : forall k, k ∉ policy_keys ->
            k <> "instructions" /\ k <> "temperature" /\
            k <> "max_response_output_tokens" /\ k <> "disable_audio" /\
            k <> "voice" /\ k <> "tool_choice" /\ k <> "tools").
  { intros k Hk. unfold policy_keys in Hk.
    repeat split; intros ->; apply Hk; set_solver. }
  unfold enforce_session_policy.
  destruct self as [ep dep ky tls mdl sm tp mt da vc av]; simpl.
  destruct sm, tp, mt, da, vc; simpl;
    (eexists; split; [reflexivity|]);
    (repeat split;
     [ lookups; now destruct tls
     | lookups; reflexivity
     | lookups; reflexivity ..
     | intros k Hk; destruct (Hkeys k Hk) as (?&?&?&?&?&?&?);
       repeat (rewrite lookup_set_ne by congruence);
       reflexivity ]).
Qed.

(** C2.  For every [session.update] message, [_process_message_to_server]
    returns the serialised message whose session has ["tool_choice"]
    ["auto"] when the tool registry is non-empty and ["none"] otherwise,
    ["tools"] exactly the registry's schemas, each policy field that is set
    in place of the client's value, the client's value where the policy
    field is unset, and every other key as the client sent it.
    [update_session] leaves the same message. *)
Theorem session_update_enforces_policy self msg members session :
  event msg "session.update" members ->
  Dict.lookup "session" members = Some (JObject session) ->
  exists session',
    _process_message_to_server self msg
      = Ok (Some (json_dumps
                    (JObject (Dict.set "session" (JObject session') members)))) /\
    update_session self (JObject members)
      = Ok (JObject (Dict.set "session" (JObject session') members)) /\
    Dict.lookup "tool_choice" session'
      = Some (JString (match tools self with [] => "none" | _ => "auto" end)) /\
    Dict.lookup "tools" session'
      = Some (JArray (map (fun entry => schema (snd entry)) (tools self))) /\
    Dict.lookup "instructions" session'
      = match system_message self with
        | Some v => Some (JString v)
        | None => Dict.lookup "instructions" session
        end /\
    Dict.lookup "temperature" session'
      = match temperature self with
        | Some v => Some (JFloat v)
        | None => Dict.lookup "temperature" session
        end /\
    Dict.lookup "max_response_output_tokens" session'
      = match max_tokens self with
        | Some v => Some (JInt v)
        | None => Dict.lookup "max_response_output_tokens" session
        end /\
    Dict.lookup "disable_audio" session'
      = match disable_audio self with
        | Some v => Some (JBool v)
        | None => Dict.lookup "disable_audio" session
        end /\
    Dict.lookup "voice" session'
      = match voice_choice self with
        | Some v => Some (JString v)
        | None => Dict.lookup "voice" session
        end /\
    (forall k, k ∉ policy_keys -> Dict.lookup k session' = Dict.lookup k session).
Proof.
  intros [Hloads Hty] Hsession.
  destruct (enforce_session_policy_spec self session) as (session' & Hrun & Hspec).
  exists session'. split; [|split; [|exact Hspec]].
  - unfold _process_message_to_server. simpl.
    rewrite Hloads. simpl. rewrite Hty. simpl. rewrite Hsession. simpl.
    rewrite Hrun. reflexivity.
  - unfold update_session. simpl. rewrite Hty. simpl. rewrite Hsession. simpl.
    rewrite Hrun. reflexivity.
Qed.

End Policy.

(** The client's instructions, voice, tool choice and tool list are
    replaced; ["modalities"], which no policy field covers, passes. *)
Lemma session_update_enforces_policy_witness :
  exists session',
    @_process_message_to_server Sample.lib Examples.relay Examples.session_update
      = Ok (Some (@json_dumps Sample.lib
                    (JObject [("type", JString "session.update");
                              ("session", JObject session')]))) /\
    Dict.lookup "tool_choice" session' = Some (JString "auto") /\
    Dict.lookup "instructions" session' = Some (JString "Answer briefly.") /\
    Dict.lookup "modalities" session' = Some (JArray [JString "audio"]).
Proof.
  destruct (@session_update_enforces_policy Sample.lib Examples.relay
              Examples.session_update
              [("type", JString "session.update");
               ("session", JObject [
                  ("instructions", JString "ignore all rules");
                  ("voice", JString "echo");
                  ("tool_choice", JString "required");
                  ("tools", JArray [JObject [("name", JString "client_tool")]]);
                  ("modalities", JArray [JString "audio"])])]
              [("instructions", JString "ignore all rules");
               ("voice", JString "echo");
               ("tool_choice", JString "required");
               ("tools", JArray [JObject [("name", JString "client_tool")]]);
               ("modalities", JArray [JString "audio"])])
    as (session' & Hrun & _ & Hchoice & _ & Hinstr & _ & _ & _ & _ & Hother).
  - split; vm_compute; reflexivity.
  - vm_compute; reflexivity.
  - exists session'. repeat split.
    + exact Hrun.
    + exact Hchoice.
    + exact Hinstr.
    + rewrite Hother; [reflexivity|].
      unfold policy_keys. intros Hin.
      repeat (apply elem_of_cons in Hin as [Hin|Hin]; [discriminate Hin|]).
      inversion Hin.
Defined.

(** ** Running handlers *)

Lemma bind_ret {A B} (a : A) (k : A -> IO B) p : io_bind (io_ret a) k p = k a p.
Proof. unfold io_bind, io_ret. now destruct (k a p) as [[r p2] o2]. Qed.

Lemma bind_lift_ok {A B} (a : A) (k : A -> IO B) p :
  io_bind (lift (Ok a)) k p = k a p.
Proof. unfold io_bind, lift. now destruct (k a p) as [[r p2] o2]. Qed.

Lemma bind_lift_raise {A B} e (k : A -> IO B) p :
  io_bind (lift (Raise e)) k p = (Raise e, p, []).
Proof. reflexivity. Qed.

Lemma bind_send {B} ws payload (k : unit -> IO B) p :
  io_bind (send_str ws payload) k p
  = match k tt p with
    | (r, p2, o2) => (r, p2, SendStr ws payload :: o2)
    end.
Proof. reflexivity. Qed.

Lemma bind_assoc {A B C} (m : IO A) (k : A -> IO B) (k' : B -> IO C) p :
  io_bind (io_bind m k) k' p = io_bind m (fun a => io_bind (k a) k') p.
Proof.
  unfold io_bind. destruct (m p) as [[[a|e] p1] o1]; [|reflexivity].
  destruct (k a p1) as [[[b|e] p2] o2]; [|reflexivity].
  destruct (k' b p2) as [[r p3] o3]. now rewrite app_assoc.
Qed.

Ltac io_simpl :=
  repeat first
    [ rewrite bind_ret
    | rewrite bind_lift_ok
    | rewrite bind_lift_raise
    | rewrite bind_send
    | progress cbn [fst snd is_None is_str rbind] ].

(** ** Tool calls *)

Section ToolCalls.
Context `{PyLib}.

Lemma item_is_function_call members item kind :
  Dict.lookup "item" members = Some (JObject item) ->
  Dict.lookup "type" item = Some (JString kind) ->
  item_is (JObject members) kind = Ok true.
Proof.
  intros Hitem Hkind. unfold item_is, contains, Dict.mem, getitem; simpl.
  rewrite Hitem; simpl. rewrite Hkind; simpl. now rewrite String.eqb_refl.
Qed.

(** C3.  When [response.output_item.done] arrives for a pending function
    call whose tool returns [result], the model socket is sent exactly one
    [function_call_output] item, and the client socket is sent the
    [extension.middle_tier_tool_response] message exactly when the result
    goes to the client: a result for the model travels as the item's
    output and nothing reaches the client; a result for the client leaves
    the item's output empty and travels, with the tool name and the
    pending call's previous item id, in the client message.  The event
    itself is suppressed, and the live loop sends nothing more. *)
Theorem tool_result_delivered_one_way self greeting msg members item call_id
    pending call name tool args parsed result :
  msg_type msg = TEXT ->
  function_call_event msg "response.output_item.done" members item call_id ->
  pending !! call_id = Some call ->
  Dict.lookup "name" item = Some (JString name) ->
  assoc name (tools self) = Some tool ->
  Dict.lookup "arguments" item = Some (JString args) ->
  json_loads args = Some parsed ->
  target tool parsed = Ok result ->
  let output_item (output : string) :=
    SendStr server_ws (json_dumps (JObject [
      ("type", JString "conversation.item.create");
      ("item", JObject [
         ("type", JString "function_call_output");
         ("call_id", JString call_id);
         ("output", JString output)])])) in
  let extension :=
    SendStr client_ws (json_dumps (JObject [
      ("type", JString "extension.middle_tier_tool_response");
      ("previous_item_id", previous_id call);
      ("tool_name", JString name);
      ("tool_result", JString (to_text result))])) in
  let sent :=
    match destination result with
    | TO_SERVER => [output_item (to_text result)]
    | TO_CLIENT => [output_item ""; extension]
    end in
  _process_message_to_client self msg pending = (Ok None, pending, sent) /\
  forward_openai_audio_to_acs_body self greeting msg pending
    = (Ok Continue, pending, sent).
Proof.
  intros Htext ((Hloads & Hty) & Hitem & Hkind & Hcall) Hpending Hname Htool
    Hargs Hparsed Hresult output_item extension sent.
  assert (Hrun : _process_message_to_client self msg pending
                 = (Ok None, pending, sent)).
  { unfold _process_message_to_client, loads_value.
    rewrite Hloads. io_simpl. unfold getitem at 1. rewrite Hty. io_simpl.
    cbn [String.eqb Ascii.eqb Bool.eqb].
    rewrite (item_is_function_call _ _ _ Hitem Hkind). io_simpl.
    unfold getitem. rewrite Hitem. io_simpl. rewrite Hcall. io_simpl.
    unfold io_bind at 1, pending_getitem. rewrite Hpending.
    rewrite Hname. io_simpl. unfold tools_getitem. rewrite Htool. io_simpl.
    rewrite Hargs. io_simpl. unfold loads_value. rewrite Hparsed. io_simpl.
    rewrite Hresult. io_simpl.
    unfold sent, output_item, extension, send_json.
    destruct (destination result); io_simpl; reflexivity. }
  split; [exact Hrun|].
  unfold forward_openai_audio_to_acs_body. rewrite Htext.
  unfold io_bind at 1. rewrite Hrun.
  unfold loads_value. rewrite Hloads. io_simpl.
  unfold get_default. rewrite Hty. io_simpl.
  cbn [String.eqb Ascii.eqb Bool.eqb]. io_simpl.
  unfold io_ret. now rewrite app_nil_r.
Qed.

End ToolCalls.

(** The result of [report_grounding] goes to the client: the model gets an
    empty output item, the client the extension message. *)
Lemma tool_result_delivered_one_way_witness :
  @_process_message_to_client Sample.lib Examples.relay
    (Examples.call_done "report_grounding") Examples.one_pending
  = (Ok None, Examples.one_pending,
     [SendStr server_ws (Sample.q
        "{'type': 'conversation.item.create', 'item': {'type': 'function_call_output', 'call_id': 'call_1', 'output': ''}}");
      SendStr client_ws (Sample.q
        "{'type': 'extension.middle_tier_tool_response', 'previous_item_id': 'item_0', 'tool_name': 'report_grounding', 'tool_result': 'doc-7'}")]).
Proof.
  refine (proj1 (@tool_result_delivered_one_way Sample.lib Examples.relay None
            (Examples.call_done "report_grounding")
            (Examples.call_done_members "report_grounding")
            (Examples.call_done_item "report_grounding")
            "call_1" Examples.one_pending
            {| tool_call_id := "call_1"; previous_id := JString "item_0" |}
            "report_grounding" Examples.report_grounding
            (Sample.q "{'q':'weather'}")
            (JObject [("q", JString "weather")])
            {| text := JString "doc-7"; destination := TO_CLIENT |}
            _ _ _ _ _ _ _ _)).
  - reflexivity.
  - repeat split; vm_compute; reflexivity.
  - vm_compute; reflexivity.
  - reflexivity.
  - reflexivity.
  - reflexivity.
  - vm_compute; reflexivity.
  - reflexivity.
Defined.

(** ** The pending-call table *)

Lemma leaves_keeps {A} (m : IO A) : leaves_pending m -> keeps_pending m.
Proof. intros Hm p c Hc. now rewrite Hm. Qed.

Lemma leaves_ret {A} (a : A) : leaves_pending (io_ret a).
Proof. now intros p. Qed.

Lemma leaves_lift {A} (r : Result A) : leaves_pending (lift r).
Proof. now intros p. Qed.

Lemma leaves_send ws payload : leaves_pending (send_str ws payload).
Proof. now intros p. Qed.

Lemma leaves_close ws : leaves_pending (close ws).
Proof. now intros p. Qed.

Lemma leaves_len : leaves_pending pending_len.
Proof. now intros p. Qed.

Lemma leaves_contains k : leaves_pending (pending_contains k).
Proof. intros p. now destruct k. Qed.

Lemma leaves_getitem k : leaves_pending (pending_getitem k).
Proof. intros p. destruct k; try reflexivity. simpl. now destruct (p !! s). Qed.

Lemma leaves_bind {A B} (m : IO A) (k : A -> IO B) :
  leaves_pending m ->
  (forall a p, (m p).1.1 = Ok a -> (k a p).1.2 = p) ->
  leaves_pending (io_bind m k).
Proof.
  intros Hm Hk p. unfold io_bind.
  specialize (Hm p). specialize (fun a => Hk a p).
  destruct (m p) as [[[a|e] p1] o1]; simpl in *; subst; [|reflexivity].
  specialize (Hk a eq_refl). now destruct (k a p) as [[r p2] o2].
Qed.

Lemma keeps_setitem k prev : keeps_pending (pending_setitem k prev).
Proof.
  intros p c Hc. destruct k; try exact Hc. simpl.
  destruct (decide (s = c)) as [->|Hne].
  - rewrite lookup_insert_eq. eauto.
  - now rewrite lookup_insert_ne.
Qed.

Lemma keeps_bind {A B} (m : IO A) (k : A -> IO B) :
  keeps_pending m ->
  (forall a p, (m p).1.1 = Ok a -> keeps_pending (k a)) ->
  keeps_pending (io_bind m k).
Proof.
  intros Hm Hk p c Hc. unfold io_bind.
  specialize (Hm p c Hc). specialize (fun a => Hk a p).
  destruct (m p) as [[[a|e] p1] o1]; simpl in *; [|exact Hm].
  specialize (Hk a eq_refl p1 c Hm). now destruct (k a p1) as [[r p2] o2].
Qed.

Lemma keeps_try_except {A} (body : IO A) caught handler :
  keeps_pending body -> (forall e, keeps_pending (handler e)) ->
  keeps_pending (try_except body caught handler).
Proof.
  intros Hbody Hhandler p c Hc. unfold try_except.
  specialize (Hbody p c Hc).
  destruct (body p) as [[[a|e] p1] o1]; simpl in *; [exact Hbody|].
  destruct (caught e); [|exact Hbody].
  specialize (Hhandler e p1 c Hbody).
  now destruct (handler e p1) as [[r p2] o2].
Qed.

Lemma lift_result {A} (r : Result A) (a : A) p : (lift r p).1.1 = Ok a -> r = Ok a.
Proof. trivial. Qed.

(** Takes a handler apart down to its primitive steps. *)
Ltac keeps_step :=
  first
    [ apply leaves_keeps; first
        [ apply leaves_ret | apply leaves_lift | apply leaves_send
        | apply leaves_close | apply leaves_len | apply leaves_contains
        | apply leaves_getitem ]
    | apply keeps_setitem
    | apply keeps_bind;
        [| let a := fresh "a" in let p := fresh "p" in let E := fresh "E" in
           intros a p E;
           first [ apply lift_result in E; clear p | clear E p ] ]
    | match goal with
      | |- keeps_pending (if ?b then _ else _) => destruct b eqn:?
      | |- keeps_pending (match ?x with _ => _ end) => destruct x eqn:?
      | |- keeps_pending (let _ := _ in _) => cbv zeta
      end ].

Section Pending.
Context `{PyLib}.

Lemma has_type_intro msg message t ty :
  loads_value (JString (data msg)) = Ok message ->
  getitem message "type" = Ok t ->
  is_str t ty = true ->
  has_type msg ty = true.
Proof.
  unfold loads_value, has_type, getitem. intros Hloads Hget Hstr.
  destruct (json_loads (data msg)) as [v|]; [|discriminate].
  injection Hloads as ->. destruct message; try discriminate.
  destruct (Dict.lookup "type" members); [|discriminate].
  now injection Hget as ->.
Qed.

Lemma event_has_type msg ty members : event msg ty members -> has_type msg ty = true.
Proof.
  intros [Hloads Hty]. unfold has_type. rewrite Hloads, Hty. simpl.
  apply String.eqb_refl.
Qed.

Lemma event_has_not_type msg ty ty' members :
  event msg ty members -> ty <> ty' -> has_type msg ty' = false.
Proof.
  intros [Hloads Hty] Hne. unfold has_type. rewrite Hloads, Hty. simpl.
  now apply String.eqb_neq.
Qed.

(** Only [response.done] takes calls out of the table. *)
Lemma process_keeps_pending self msg :
  has_type msg "response.done" = false ->
  keeps_pending (_process_message_to_client self msg).
Proof.
  intros Hnot. unfold _process_message_to_client, send_json.
  apply keeps_bind; [keeps_step|]. intros message p Hloads.
  apply lift_result in Hloads. clear p. cbv zeta.
  destruct (is_None message); [keeps_step|].
  apply keeps_bind; [keeps_step|]. intros ty p Hty.
  apply lift_result in Hty. clear p.
  destruct (is_str ty "response.done") eqn:Hdone.
  { rewrite (has_type_intro _ _ _ _ Hloads Hty Hdone) in Hnot. discriminate. }
  repeat keeps_step.
Qed.

Lemma greet_user_leaves greeting : leaves_pending (greet_user greeting).
Proof. intros p. now destruct greeting. Qed.

Lemma body_keeps_pending self greeting msg :
  has_type msg "response.done" = false ->
  keeps_pending (forward_openai_audio_to_acs_body self greeting msg).
Proof.
  intros Hnot. unfold forward_openai_audio_to_acs_body.
  destruct (msg_type msg); try solve [repeat keeps_step].
  apply keeps_bind; [now apply process_keeps_pending|]. intros.
  repeat first [ apply leaves_keeps, greet_user_leaves | keeps_step ].
Qed.

Lemma async_for_keeps_pending body msgs :
  Forall (fun msg => keeps_pending (body msg)) msgs ->
  keeps_pending (async_for body msgs).
Proof.
  induction 1 as [|msg msgs Hmsg _ IH]; simpl.
  - keeps_step.
  - apply keeps_bind; [exact Hmsg|]. intros [] ? ?; [exact IH|keeps_step].
Qed.

Lemma loop_keeps_pending self greeting msgs :
  Forall (fun msg => has_type msg "response.done" = false) msgs ->
  keeps_pending (forward_openai_audio_to_acs self greeting msgs).
Proof.
  intros Hmsgs. apply async_for_keeps_pending.
  eapply Forall_impl; [exact Hmsgs|]. intros msg. apply body_keeps_pending.
Qed.

End Pending.

(** ** The lifetime of a pending call *)

Lemma leaves_step_bind {A B} (m : IO A) (k : A -> IO B) :
  leaves_pending m -> (forall a, leaves_pending (k a)) ->
  leaves_pending (io_bind m k).
Proof. intros Hm Hk. apply leaves_bind; [exact Hm|]. intros a p _. apply Hk. Qed.

Ltac leaves_step :=
  first
    [ apply leaves_ret | apply leaves_lift | apply leaves_send
    | apply leaves_close | apply leaves_len | apply leaves_contains
    | apply leaves_getitem
    | apply leaves_step_bind; [|intros ?]
    | match goal with
      | |- leaves_pending (if ?b then _ else _) => destruct b
      | |- leaves_pending (match ?x with _ => _ end) => destruct x
      | |- leaves_pending (let _ := _ in _) => cbv zeta
      end ].

Lemma bind_pending {A B} (m : IO A) (k : A -> IO B) p :
  (io_bind m k p).1.2
  = match (m p).1.1 with
    | Ok a => (k a (m p).1.2).1.2
    | Raise _ => (m p).1.2
    end.
Proof.
  unfold io_bind. destruct (m p) as [[[a|e] p1] o1]; simpl; [|reflexivity].
  now destruct (k a p1) as [[r p2] o2].
Qed.

Section Lifetime.
Context `{PyLib}.

(** After [response.done] the table is empty. *)
Lemma response_done_empties self msg p :
  has_type msg "response.done" = true ->
  (_process_message_to_client self msg p).1.2 = ∅.
Proof.
  unfold has_type. intros Hty.
  destruct (json_loads (data msg)) as [[| | | | | |members]|] eqn:Hloads;
    try discriminate.
  destruct (Dict.lookup "type" members) as [t|] eqn:Ht; [|discriminate].
  destruct t; try discriminate. simpl in Hty. apply String.eqb_eq in Hty as ->.
  unfold _process_message_to_client, loads_value. rewrite Hloads. io_simpl.
  unfold getitem at 1. rewrite Ht. io_simpl. cbn [String.eqb Ascii.eqb Bool.eqb].
  rewrite bind_pending. cbn [pending_len fst snd].
  rewrite bind_pending.
  assert (Hrest : forall q : gmap string RTToolCall, q = ∅ ->
            match
              ((if bool_decide (0 < size p)
                then io_bind pending_clear (fun _ =>
                       send_json server_ws
                         (JObject [("type", JString "response.create")]))
                else io_ret tt) p).1.2
            with q' => q' = q end).
  { intros q ->. case_bool_decide as Hsize.
    - reflexivity.
    - simpl. apply map_size_empty_iff. lia. }
  specialize (Hrest ∅ eq_refl). cbv beta in Hrest. rewrite Hrest.
  match goal with
  | |- match _ with Ok a => (?rest ∅).1.2 | Raise _ => ∅ end = ∅ =>
      assert (Hleaves : leaves_pending rest) by (repeat leaves_step)
  end.
  rewrite Hleaves. now destruct (_ : Result unit).
Qed.

(** What a [conversation.item.created] event for a function call leaves under
    its call identifier: the call already pending, else a new one. *)
Lemma call_created_recorded self msg members item call_id previous
    (pending : gmap string RTToolCall) :
  function_call_event msg "conversation.item.created" members item call_id ->
  Dict.lookup "previous_item_id" members = Some previous ->
  _process_message_to_client self msg pending
  = (Ok None,
     match pending !! call_id with
     | Some _ => pending
     | None => <[call_id := {| tool_call_id := call_id; previous_id := previous |}]>
                 pending
     end, []).
Proof.
  intros ((Hloads & Hty) & Hitem & Hkind & Hcall) Hprevious.
  unfold _process_message_to_client, loads_value.
  rewrite Hloads. io_simpl. unfold getitem at 1. rewrite Hty. io_simpl.
  cbn [String.eqb Ascii.eqb Bool.eqb].
  rewrite (item_is_function_call _ _ _ Hitem Hkind). io_simpl.
  unfold getitem. rewrite Hitem. io_simpl. rewrite Hcall. io_simpl.
  unfold io_bind at 1, pending_contains.
  destruct (pending !! call_id) as [call|] eqn:Hpending.
  - rewrite bool_decide_eq_true_2 by eauto. now io_simpl.
  - rewrite bool_decide_eq_false_2 by (intros [? ?]; discriminate).
    rewrite Hprevious. now io_simpl.
Qed.

(** C1, as the code has it.  A [conversation.item.created] event for a
    function call leaves a pending call under its call identifier (the one
    already there, else a new one that holds the event's previous item id).
    The call stays in the table through every later message that is not
    [response.done], whether handling it returns or raises, and so through
    its [response.output_item.done] counterpart, which reads the call and
    does not remove it.  [response.done] empties the table. *)
Theorem pending_call_kept_until_response_done self greeting msg members item
    call_id previous (pending : gmap string RTToolCall) :
  function_call_event msg "conversation.item.created" members item call_id ->
  Dict.lookup "previous_item_id" members = Some previous ->
  let recorded := (_process_message_to_client self msg pending).1.2 in
  recorded !! call_id
    = Some (default {| tool_call_id := call_id; previous_id := previous |}
              (pending !! call_id)) /\
  (forall later,
     Forall (fun m => has_type m "response.done" = false) later ->
     is_Some ((forward_openai_audio_to_acs self greeting later recorded).1.2
                !! call_id)) /\
  (forall done members' item',
     function_call_event done "response.output_item.done" members' item' call_id ->
     is_Some ((_process_message_to_client self done recorded).1.2 !! call_id)) /\
  (forall done,
     has_type done "response.done" = true ->
     (_process_message_to_client self done recorded).1.2 = ∅).
Proof.
  intros Hevent Hprevious recorded.
  assert (Hrecorded : recorded !! call_id
            = Some (default {| tool_call_id := call_id; previous_id := previous |}
                      (pending !! call_id))).
  { unfold recorded.
    rewrite (call_created_recorded _ _ _ _ _ _ _ Hevent Hprevious). simpl.
    destruct (pending !! call_id) as [call|] eqn:Hpending; simpl.
    - exact Hpending.
    - apply lookup_insert_eq. }
  split; [exact Hrecorded|]. split; [|split].
  - intros later Hlater. apply loop_keeps_pending; [exact Hlater|].
    rewrite Hrecorded. eauto.
  - intros done members' item' (Hdone & _). apply process_keeps_pending.
    + now apply (event_has_not_type _ _ _ _ Hdone).
    + rewrite Hrecorded. eauto.
  - intros done Hdone. now apply response_done_empties.
Qed.

End Lifetime.

(** C1 as stated fails: after the [conversation.item.created] event and its
    [response.output_item.done] counterpart have both been processed (the
    tool ran and its output went to the model), the call is still pending. *)
Lemma pending_call_outlives_output_item_done :
  @forward_openai_audio_to_acs Sample.lib Examples.relay None
    [Examples.call_created "search"; Examples.call_done "search"] ∅
  = (Ok tt, Examples.one_pending,
     [SendStr server_ws (Sample.q
        "{'type': 'conversation.item.create', 'item': {'type': 'function_call_output', 'call_id': 'call_1', 'output': 'sunny'}}")]).
Proof. vm_compute. reflexivity. Qed.

Lemma pending_call_kept_until_response_done_witness :
  (@_process_message_to_client Sample.lib Examples.relay
     (Examples.call_created "search") ∅).1.2 !! "call_1"
  = Some {| tool_call_id := "call_1"; previous_id := JString "item_0" |}.
Proof.
  refine (proj1 (@pending_call_kept_until_response_done Sample.lib
            Examples.relay None (Examples.call_created "search")
            (Examples.call_created_members "search")
            (Examples.call_created_item "search")
            "call_1" (JString "item_0") ∅ _ _)).
  - repeat split; vm_compute; reflexivity.
  - reflexivity.
Defined.

(** ** [response.done] *)

Lemma silent_ret {A} (a : A) : silent (io_ret a).
Proof. intros p. now exists (Ok a). Qed.

Lemma silent_lift {A} (r : Result A) : silent (lift r).
Proof. intros p. now exists r. Qed.

Lemma silent_bind {A B} (m : IO A) (k : A -> IO B) :
  silent m -> (forall a, silent (k a)) -> silent (io_bind m k).
Proof.
  intros Hm Hk p. unfold io_bind. destruct (Hm p) as [[a|e] ->].
  - destruct (Hk a p) as [r ->]. now exists r.
  - now exists (Raise e).
Qed.

Ltac silent_step :=
  first
    [ apply silent_ret | apply silent_lift
    | apply silent_bind; [|intros ?]
    | match goal with
      | |- silent (if ?b then _ else _) => destruct b
      | |- silent (let _ := _ in _) => cbv zeta
      end ].

Section ResponseDone.
Context `{PyLib}.

(** With calls pending, [response.done] empties the table and sends the
    model exactly one frame, [response.create], whatever the rest of the
    handler makes of the response payload. *)
Lemma response_done_requests_response self msg members
    (pending : gmap string RTToolCall) :
  event msg "response.done" members ->
  pending <> ∅ ->
  exists r,
    _process_message_to_client self msg pending
    = (r, ∅, [SendStr server_ws
                (json_dumps (JObject [("type", JString "response.create")]))]).
Proof.
  intros [Hloads Hty] Hpending.
  unfold _process_message_to_client, loads_value. rewrite Hloads. io_simpl.
  unfold getitem at 1. rewrite Hty. io_simpl.
  cbn [String.eqb Ascii.eqb Bool.eqb].
  unfold io_bind at 1, pending_len.
  rewrite bool_decide_eq_true_2.
  2:{ assert (size pending <> 0) by now rewrite map_size_empty_iff. lia. }
  match goal with
  | |- context [io_bind _ ?rest] =>
      assert (Hrest : silent (rest tt)) by (repeat silent_step)
  end.
  unfold io_bind at 1. unfold io_bind at 1, pending_clear, send_json, send_str.
  destruct (Hrest ∅) as [r ->]. now exists r.
Qed.

End ResponseDone.

(** The loop of lines 160-163 removes a function call that is alone. *)
Lemma strip_lone_function_call call :
  getitem call "type" = Ok (JString "function_call") ->
  strip_output (JArray [call]) = Ok (JArray [], true).
Proof.
  intros Hcall. unfold strip_output. simpl. rewrite Hcall. reflexivity.
Qed.

(** After a function call comes another item: the loop pops index 1 when it
    meets the call at index 0, so the other item goes and the call stays. *)
Lemma strip_pops_the_mirrored_index call other kind :
  getitem call "type" = Ok (JString "function_call") ->
  getitem other "type" = Ok (JString kind) ->
  kind <> "function_call" ->
  strip_output (JArray [call; other]) = Ok (JArray [call], true).
Proof.
  intros Hcall Hother Hkind. unfold strip_output. simpl.
  rewrite Hother. simpl. apply String.eqb_neq in Hkind. rewrite Hkind.
  rewrite Hcall. reflexivity.
Qed.

(** Before a function call comes another item: the first [pop(0)] removes
    the other item, the second round meets the call again and [pop(1)]
    raises. *)
Lemma strip_raises_on_trailing_call call other :
  getitem call "type" = Ok (JString "function_call") ->
  strip_output (JArray [other; call]) = Raise IndexError.
Proof.
  intros Hcall. unfold strip_output. simpl. rewrite Hcall. reflexivity.
Qed.

(** C5, the code at the failing input.  [response.done] arrives with two
    calls pending and a response whose output lists a function call and
    then a message: the table is emptied and [response.create] goes to the
    model, but the message returned for the client has lost the message
    item and still lists the function call. *)
Theorem response_done_keeps_function_call :
  @_process_message_to_client Sample.lib Examples.relay Examples.response_done
    Examples.two_pending
  = (Ok (Some (Sample.q
       "{'type': 'response.done', 'response': {'output': [{'type': 'function_call', 'call_id': 'call_1'}]}}")),
     ∅,
     [SendStr server_ws (Sample.q "{'type': 'response.create'}")]).
Proof. vm_compute. reflexivity. Qed.

(** ** The client-to-model loop *)

Section ClientLoop.
Context `{PyLib}.

(** A text that is not JSON: [JSONDecodeError] is caught. *)
Lemma undecodable_frame_dropped msg p :
  msg_type msg = TEXT ->
  json_loads (data msg) = None ->
  forward_from_acs_to_openai_body msg p = (Ok Continue, p, []).
Proof.
  intros Htext Hloads. unfold forward_from_acs_to_openai_body. rewrite Htext.
  unfold io_bind at 1, try_except, loads_value. rewrite Hloads. reflexivity.
Qed.

(** An [AudioData] object without ["audioData"]: [KeyError] is caught. *)
Lemma frame_without_audio_data_dropped msg members p :
  msg_type msg = TEXT ->
  json_loads (data msg) = Some (JObject members) ->
  Dict.lookup "kind" members = Some (JString "AudioData") ->
  Dict.lookup "audioData" members = None ->
  forward_from_acs_to_openai_body msg p = (Ok Continue, p, []).
Proof.
  intros Htext Hloads Hkind Haudio.
  unfold forward_from_acs_to_openai_body. rewrite Htext.
  unfold io_bind at 1, try_except, loads_value. rewrite Hloads. io_simpl.
  unfold contains, get_default, getitem. rewrite Hkind. io_simpl.
  cbn [String.eqb Ascii.eqb Bool.eqb]. rewrite Haudio. reflexivity.
Qed.

(** An [AudioData] object whose ["audioData"] is a dict without ["data"]:
    [KeyError] is caught. *)
Lemma frame_without_data_dropped msg members audio_data p :
  msg_type msg = TEXT ->
  json_loads (data msg) = Some (JObject members) ->
  Dict.lookup "kind" members = Some (JString "AudioData") ->
  Dict.lookup "audioData" members = Some (JObject audio_data) ->
  Dict.lookup "data" audio_data = None ->
  forward_from_acs_to_openai_body msg p = (Ok Continue, p, []).
Proof.
  intros Htext Hloads Hkind Haudio Hdata.
  unfold forward_from_acs_to_openai_body. rewrite Htext.
  unfold io_bind at 1, try_except, loads_value. rewrite Hloads. io_simpl.
  unfold contains, get_default, getitem. rewrite Hkind. io_simpl.
  cbn [String.eqb Ascii.eqb Bool.eqb]. rewrite Haudio. io_simpl.
  rewrite Hdata. reflexivity.
Qed.

(** An object of another kind, or of none, is not forwarded. *)
Lemma frame_of_other_kind_dropped msg members p :
  msg_type msg = TEXT ->
  json_loads (data msg) = Some (JObject members) ->
  is_str (default (JString "") (Dict.lookup "kind" members)) "AudioData" = false ->
  forward_from_acs_to_openai_body msg p = (Ok Continue, p, []).
Proof.
  intros Htext Hloads Hkind.
  unfold forward_from_acs_to_openai_body. rewrite Htext.
  unfold io_bind at 1, try_except, loads_value. rewrite Hloads. io_simpl.
  unfold contains, get_default.
  destruct (Dict.lookup "kind" members) as [kind|]; simpl in Hkind; io_simpl.
  - rewrite Hkind. reflexivity.
  - reflexivity.
Qed.

(** An [AudioData] frame is forwarded as [input_audio_buffer.append]. *)
Lemma audio_frame_forwarded msg members audio_data audio p :
  msg_type msg = TEXT ->
  json_loads (data msg) = Some (JObject members) ->
  Dict.lookup "kind" members = Some (JString "AudioData") ->
  Dict.lookup "audioData" members = Some (JObject audio_data) ->
  Dict.lookup "data" audio_data = Some audio ->
  forward_from_acs_to_openai_body msg p
  = (Ok Continue, p,
     [SendStr server_ws
        (json_dumps (JObject [("type", JString "input_audio_buffer.append");
                              ("audio", audio)]))]).
Proof.
  intros Htext Hloads Hkind Haudio Hdata.
  unfold forward_from_acs_to_openai_body. rewrite Htext.
  unfold io_bind at 1, try_except, loads_value. rewrite Hloads. io_simpl.
  unfold contains, get_default, getitem. rewrite Hkind. io_simpl.
  cbn [String.eqb Ascii.eqb Bool.eqb]. rewrite Haudio. io_simpl.
  rewrite Hdata. io_simpl. reflexivity.
Qed.

(** An [AudioData] object whose ["audioData"] is not a dict: subscripting it
    raises [TypeError], which the [except] clause does not list. *)
Lemma frame_with_bad_audio_data_raises msg members audio_data p :
  msg_type msg = TEXT ->
  json_loads (data msg) = Some (JObject members) ->
  Dict.lookup "kind" members = Some (JString "AudioData") ->
  Dict.lookup "audioData" members = Some audio_data ->
  (forall d, audio_data <> JObject d) ->
  forward_from_acs_to_openai_body msg p = (Raise TypeError, p, []).
Proof.
  intros Htext Hloads Hkind Haudio Hbad.
  unfold forward_from_acs_to_openai_body. rewrite Htext.
  unfold io_bind at 1, try_except, loads_value. rewrite Hloads. io_simpl.
  unfold contains, get_default, getitem at 1. rewrite Hkind. io_simpl.
  cbn [String.eqb Ascii.eqb Bool.eqb]. rewrite Haudio. io_simpl.
  destruct audio_data; try reflexivity. now destruct (Hbad members0).
Qed.

(** A JSON text that is a list or a string has no [get]; a number, a
    boolean or [null] does not support [in]. *)
Lemma frame_not_an_object_raises msg v p :
  msg_type msg = TEXT ->
  json_loads (data msg) = Some v ->
  (forall d, v <> JObject d) ->
  exists e,
    forward_from_acs_to_openai_body msg p = (Raise e, p, []) /\
    decode_errors e = false.
Proof.
  intros Htext Hloads Hbad.
  unfold forward_from_acs_to_openai_body. rewrite Htext.
  unfold io_bind at 1, try_except, loads_value. rewrite Hloads. io_simpl.
  destruct v; try (exists TypeError; split; reflexivity);
    try (exists AttributeError; split; reflexivity).
  now destruct (Hbad members).
Qed.

(** Once a frame raises, the frames after it are not read. *)
Lemma async_for_raises body msg rest e p p1 sent :
  body msg p = (Raise e, p1, sent) ->
  async_for body (msg :: rest) p = (Raise e, p1, sent).
Proof. intros Hbody. simpl. unfold io_bind. now rewrite Hbody. Qed.

(** The client-to-model loop never writes to the client socket. *)
Lemma client_loop_sends_to_model_only msgs p :
  Forall (fun s => to_client s = false) (forward_from_acs_to_openai msgs p).2.
Proof.
  unfold forward_from_acs_to_openai. revert p.
  induction msgs as [|msg msgs IH]; intros p; simpl; [constructor|].
  unfold io_bind at 1.
  assert (Hbody : Forall (fun s => to_client s = false)
                    (forward_from_acs_to_openai_body msg p).2).
  { unfold forward_from_acs_to_openai_body.
    destruct (msg_type msg); try (repeat constructor).
    unfold io_bind at 1, try_except, loads_value.
    destruct (json_loads (data msg)) as [v|]; [|repeat constructor].
    io_simpl.
    destruct (contains "kind" v) as [b|e]; io_simpl;
      [|destruct e; repeat constructor].
    destruct (get_default v "kind" (JString "")) as [kind|e]; io_simpl;
      [|destruct e; repeat constructor].
    destruct (is_str kind "AudioData"); [|repeat constructor].
    destruct (getitem v "audioData") as [audio_data|e]; io_simpl;
      [|destruct e; repeat constructor].
    destruct (getitem audio_data "data") as [audio|e]; io_simpl;
      [|destruct e; repeat constructor].
    repeat constructor. }
  destruct (forward_from_acs_to_openai_body msg p) as [[[[]|e] p1] o1];
    simpl in *; try exact Hbody.
  - specialize (IH p1). destruct (async_for _ msgs p1) as [[r p2] o2].
    simpl in *. now apply Forall_app.
  - now rewrite app_nil_r.
Qed.

End ClientLoop.

(** The scenario of the specification: a text that is not JSON and an
    [AudioData] frame without payload are dropped, and the valid frame after
    them is forwarded. *)
Lemma malformed_frames_then_audio :
  @forward_from_acs_to_openai Sample.lib
    [Examples.acs_not_json; Examples.acs_no_audio_data; Examples.acs_audio] ∅
  = (Ok tt, ∅,
     [SendStr server_ws
        (Sample.q "{'type': 'input_audio_buffer.append', 'audio': 'QUJD'}")]).
Proof. vm_compute. reflexivity. Qed.

(** C9, the code at the failing input.  An [AudioData] frame whose
    ["audioData"] is [null] raises [TypeError] out of the loop: the frame is
    not dropped, the loop ends, and the valid frame after it is never
    forwarded. *)
Theorem null_audio_data_ends_client_loop :
  @forward_from_acs_to_openai Sample.lib
    [Examples.acs_null_audio_data; Examples.acs_audio] ∅
  = (Raise TypeError, ∅, []) /\
  @_forward_messages_try
    (@forward_from_acs_to_openai Sample.lib
       [Examples.acs_null_audio_data; Examples.acs_audio]) ∅
  = (Raise TypeError, ∅, []).
Proof. split; vm_compute; reflexivity. Qed.

(** ** The model-to-client loop *)

Lemma continues_bind {A} (m : IO A) (k : A -> IO Flow) :
  (forall a, continues (k a)) -> continues (io_bind m k).
Proof.
  intros Hk p. unfold io_bind. destruct (m p) as [[[a|e] p1] o1]; [|easy].
  specialize (Hk a p1). now destruct (k a p1) as [[r p2] o2].
Qed.

Lemma continues_ret : continues (io_ret Continue).
Proof. easy. Qed.

(** Frames sent while the loop runs over [before] come before those sent
    over [after]. *)
Lemma async_for_app body before after p p1 sent1 :
  Forall (fun msg => continues (body msg)) before ->
  async_for body before p = (Ok tt, p1, sent1) ->
  async_for body (before ++ after) p
  = match async_for body after p1 with
    | (r, p2, sent2) => (r, p2, sent1 ++ sent2)
    end.
Proof.
  intros Hbefore. revert p sent1.
  induction Hbefore as [|msg before Hmsg _ IH]; intros p sent1 Hrun; simpl in *.
  - injection Hrun as <- <-. now destruct (async_for body after p) as [[r p2] o2].
  - unfold io_bind in *. specialize (Hmsg p).
    destruct (body msg p) as [[[[]|e] q] o]; simpl in Hmsg; try easy.
    destruct (async_for body before q) as [[r' p'] o'] eqn:Hrest.
    injection Hrun as -> -> <-.
    rewrite (IH _ _ Hrest).
    destruct (async_for body after p1) as [[r p2] o2].
    now rewrite app_assoc.
Qed.

Section ServerLoop.
Context `{PyLib}.

(** An event of a type without a case passes [_process_message_to_client]
    unchanged and without effect. *)
Lemma unhandled_event_passes self msg ty members p :
  event msg ty members ->
  ty ∉ handled_types ->
  _process_message_to_client self msg p = (Ok (Some (data msg)), p, []).
Proof.
  intros [Hloads Hty] Hnot.
  assert (Hne : forall t, t ∈ handled_types -> String.eqb ty t = false).
  { intros t Ht. apply String.eqb_neq. intros ->. contradiction. }
  unfold _process_message_to_client, loads_value. rewrite Hloads. io_simpl.
  unfold getitem at 1. rewrite Hty. io_simpl.
  rewrite !Hne by (apply list_elem_of_In; simpl; tauto).
  reflexivity.
Qed.

(** The loop body leaves the loop on a CLOSE frame only. *)
Lemma body_continues self greeting msg :
  msg_type msg <> CLOSE ->
  continues (forward_openai_audio_to_acs_body self greeting msg).
Proof.
  intros Hclose. unfold forward_openai_audio_to_acs_body.
  destruct (msg_type msg); try easy.
  repeat first
    [ apply continues_ret
    | apply continues_bind; intros ?
    | match goal with
      | |- continues (if ?b then _ else _) => destruct b
      | |- continues (let _ := _ in _) => cbv zeta
      end ].
Qed.

(** A [response.audio.delta] event becomes one [AudioData] frame for the
    client, and nothing else happens. *)
Lemma audio_delta_forwarded self greeting msg delta p :
  audio_delta_event msg delta ->
  forward_openai_audio_to_acs_body self greeting msg p
  = (Ok Continue, p, [SendStr client_ws (transmit_openai_audio_to_acs delta)]).
Proof.
  intros (Htext & members & Hevent & Hdelta).
  unfold forward_openai_audio_to_acs_body. rewrite Htext.
  unfold io_bind at 1.
  rewrite (unhandled_event_passes self msg _ _ p Hevent)
    by (rewrite list_elem_of_In; simpl; intuition discriminate).
  destruct Hevent as [Hloads Hty].
  unfold loads_value. rewrite Hloads. io_simpl.
  unfold get_default. rewrite Hty. io_simpl.
  cbn [String.eqb Ascii.eqb Bool.eqb]. rewrite Hdelta. io_simpl.
  reflexivity.
Qed.

(** Any number of deltas: one frame each, in the order of arrival. *)
Lemma audio_deltas_forwarded self greeting msgs deltas p :
  Forall2 audio_delta_event msgs deltas ->
  forward_openai_audio_to_acs self greeting msgs p
  = (Ok tt, p,
     map (fun delta => SendStr client_ws (transmit_openai_audio_to_acs delta))
       deltas).
Proof.
  unfold forward_openai_audio_to_acs.
  induction 1 as [|msg delta msgs deltas Hmsg _ IH]; simpl; [reflexivity|].
  unfold io_bind. rewrite (audio_delta_forwarded _ _ _ _ _ Hmsg).
  now rewrite IH.
Qed.

(** C7.  Three [response.audio.delta] events carrying [d1], [d2], [d3]
    reach the client as three [AudioData] frames carrying [d1], [d2], [d3],
    in that order: one frame per event, none dropped, nothing else sent,
    and the loop goes on. *)
Theorem audio_deltas_forwarded_in_order self greeting m1 m2 m3 d1 d2 d3 p :
  audio_delta_event m1 d1 ->
  audio_delta_event m2 d2 ->
  audio_delta_event m3 d3 ->
  let audio_data (delta : JSON) :=
    SendStr client_ws (json_dumps (JObject [
      ("Kind", JString "AudioData");
      ("AudioData", JObject [("Data", delta)]);
      ("StopAudio", JNull)])) in
  forward_openai_audio_to_acs self greeting [m1; m2; m3] p
  = (Ok tt, p, [audio_data d1; audio_data d2; audio_data d3]).
Proof.
  intros H1 H2 H3 audio_data.
  apply (audio_deltas_forwarded self greeting [m1; m2; m3] [d1; d2; d3]).
  constructor; [exact H1|]. constructor; [exact H2|].
  constructor; [exact H3|]. constructor.
Qed.

(** C6.  A [input_audio_buffer.speech_started] event makes the loop send
    the client one [StopAudio] frame and nothing else.  In the output of
    the loop that frame comes right after what the messages before the
    event produced and before everything the messages after it produce, so
    before every [AudioData] frame of a later delta. *)
Theorem stop_audio_precedes_later_audio self greeting before msg members after
    p p1 sent1 :
  Forall (fun m => msg_type m <> CLOSE) before ->
  forward_openai_audio_to_acs self greeting before p = (Ok tt, p1, sent1) ->
  msg_type msg = TEXT ->
  event msg "input_audio_buffer.speech_started" members ->
  let stop_audio :=
    SendStr client_ws (json_dumps (JObject [
      ("Kind", JString "StopAudio");
      ("AudioData", JNull);
      ("StopAudio", JObject [])])) in
  forward_openai_audio_to_acs_body self greeting msg p1
    = (Ok Continue, p1, [stop_audio]) /\
  forall r p2 sent2,
    forward_openai_audio_to_acs self greeting after p1 = (r, p2, sent2) ->
    forward_openai_audio_to_acs self greeting (before ++ msg :: after) p
    = (r, p2, sent1 ++ stop_audio :: sent2).
Proof.
  intros Hbefore Hrun Htext Hevent stop_audio.
  assert (Hbody : forward_openai_audio_to_acs_body self greeting msg p1
                  = (Ok Continue, p1, [stop_audio])).
  { unfold forward_openai_audio_to_acs_body. rewrite Htext.
    unfold io_bind at 1.
    rewrite (unhandled_event_passes self msg _ _ p1 Hevent)
      by (rewrite list_elem_of_In; simpl; intuition discriminate).
    destruct Hevent as [Hloads Hty].
    unfold loads_value. rewrite Hloads. io_simpl.
    unfold get_default. rewrite Hty. io_simpl.
    cbn [String.eqb Ascii.eqb Bool.eqb]. io_simpl. reflexivity. }
  split; [exact Hbody|].
  intros r p2 sent2 Hafter. unfold forward_openai_audio_to_acs in *.
  rewrite (async_for_app _ before (msg :: after) p p1 sent1).
  - simpl. unfold io_bind. rewrite Hbody, Hafter. reflexivity.
  - eapply Forall_impl; [exact Hbefore|]. intros m. apply body_continues.
  - exact Hrun.
Qed.

End ServerLoop.

Lemma audio_deltas_forwarded_in_order_witness :
  @forward_openai_audio_to_acs Sample.lib Examples.relay None
    [Examples.audio_delta "AAAA"; Examples.audio_delta "BBBB";
     Examples.audio_delta "CCCC"] ∅
  = (Ok tt, ∅,
     [SendStr client_ws (Sample.q
        "{'Kind': 'AudioData', 'AudioData': {'Data': 'AAAA'}, 'StopAudio': null}");
      SendStr client_ws (Sample.q
        "{'Kind': 'AudioData', 'AudioData': {'Data': 'BBBB'}, 'StopAudio': null}");
      SendStr client_ws (Sample.q
        "{'Kind': 'AudioData', 'AudioData': {'Data': 'CCCC'}, 'StopAudio': null}")]).
Proof.
  refine (@audio_deltas_forwarded_in_order Sample.lib Examples.relay None
            (Examples.audio_delta "AAAA") (Examples.audio_delta "BBBB")
            (Examples.audio_delta "CCCC")
            (JString "AAAA") (JString "BBBB") (JString "CCCC") ∅ _ _ _).
  - split; [reflexivity|]. eexists. repeat split; vm_compute; reflexivity.
  - split; [reflexivity|]. eexists. repeat split; vm_compute; reflexivity.
  - split; [reflexivity|]. eexists. repeat split; vm_compute; reflexivity.
Defined.

(** A delta, the start of speech, a delta: the stop frame is between the
    two audio frames. *)
Lemma stop_audio_precedes_later_audio_witness :
  @forward_openai_audio_to_acs Sample.lib Examples.relay None
    ([Examples.audio_delta "AAAA"] ++
     Examples.speech_started :: [Examples.audio_delta "BBBB"]) ∅
  = (Ok tt, ∅,
     [SendStr client_ws (Sample.q
        "{'Kind': 'AudioData', 'AudioData': {'Data': 'AAAA'}, 'StopAudio': null}")]
     ++ SendStr client_ws (Sample.q
          "{'Kind': 'StopAudio', 'AudioData': null, 'StopAudio': {}}")
     :: [SendStr client_ws (Sample.q
          "{'Kind': 'AudioData', 'AudioData': {'Data': 'BBBB'}, 'StopAudio': null}")]).
Proof.
  refine (proj2 (@stop_audio_precedes_later_audio Sample.lib Examples.relay None
            [Examples.audio_delta "AAAA"] Examples.speech_started
            [("type", JString "input_audio_buffer.speech_started")]
            [Examples.audio_delta "BBBB"] ∅ ∅ _ _ _ _ _) _ _ _ _).
  - repeat constructor; discriminate.
  - vm_compute; reflexivity.
  - reflexivity.
  - split; vm_compute; reflexivity.
  - vm_compute; reflexivity.
Defined.

(** ** [session.created] *)

Section SessionCreated.
Context `{PyLib}.

(** What [_process_message_to_client] returns for [session.created]. *)
Lemma session_created_sanitized self msg members session p :
  event msg "session.created" members ->
  Dict.lookup "session" members = Some (JObject session) ->
  exists sanitized,
    _process_message_to_client self msg p
    = (Ok (Some (json_dumps
                   (JObject (Dict.set "session" (JObject sanitized) members)))),
       p, []) /\
    Dict.lookup "instructions" sanitized = Some (JString "") /\
    Dict.lookup "tools" sanitized = Some (JArray []) /\
    Dict.lookup "tool_choice" sanitized = Some (JString "none") /\
    Dict.lookup "voice" sanitized = Some (opt_json JString (voice_choice self)) /\
    Dict.lookup "max_response_output_tokens" sanitized = Some JNull /\
    (forall k, k ∉ hidden_keys ->
       Dict.lookup k sanitized = Dict.lookup k session).
Proof.
  intros [Hloads Hty] Hsession.
  exists (Dict.set "max_response_output_tokens" JNull
            (Dict.set "tool_choice" (JString "none")
               (Dict.set "voice" (opt_json JString (voice_choice self))
                  (Dict.set "tools" (JArray [])
                     (Dict.set "instructions" (JString "") session))))).
  split; [|split; [|split; [|split; [|split; [|split]]]]].
  - unfold _process_message_to_client, loads_value. rewrite Hloads. io_simpl.
    unfold getitem at 1. rewrite Hty. io_simpl.
    cbn [String.eqb Ascii.eqb Bool.eqb].
    unfold getitem. rewrite Hsession. io_simpl.
    unfold setitem. io_simpl. reflexivity.
  - now lookups.
  - now lookups.
  - now lookups.
  - now lookups.
  - now lookups.
  - intros k Hk.
    assert (k <> "instructions" /\ k <> "tools" /\ k <> "voice" /\
            k <> "tool_choice" /\ k <> "max_response_output_tokens")
      as (?&?&?&?&?).
    { repeat split; intros ->; apply Hk; apply list_elem_of_In; simpl; tauto. }
    repeat (rewrite lookup_set_ne by congruence). reflexivity.
Qed.

(** The [session.update] that [update_session_instruction] builds: server
    turn detection, and session policy on top. *)
Lemma update_session_instruction_spec self :
  exists update,
    update_session_instruction self
    = Ok (json_dumps (JObject [("type", JString "session.update");
                               ("session", JObject update)])) /\
    Dict.lookup "turn_detection" update
      = Some (JObject [("type", JString "server_vad")]) /\
    Dict.lookup "tool_choice" update
      = Some (JString (match tools self with [] => "none" | _ => "auto" end)) /\
    Dict.lookup "tools" update
      = Some (JArray (map (fun entry => schema (snd entry)) (tools self))).
Proof.
  destruct (enforce_session_policy_spec self
              [("turn_detection", JObject [("type", JString "server_vad")])])
    as (update & Hrun & Hchoice & Htools & _ & _ & _ & _ & _ & Hother).
  exists update. split; [|split; [|split]].
  - unfold update_session_instruction, update_session. simpl.
    rewrite Hrun. reflexivity.
  - rewrite Hother; [reflexivity|].
    rewrite list_elem_of_In. simpl. intuition discriminate.
  - exact Hchoice.
  - exact Htools.
Qed.

(** C4, as the code has it.  For [session.created],
    [_process_message_to_client] returns the sanitised announcement
    (instructions emptied, tools emptied, tool choice ["none"], voice from
    session policy, no output-token limit), but the loop does not use what
    it returns: nothing is sent to the client.  The model is sent a
    [session.update] that sets [server_vad] turn detection and then, when
    the greeting file can be read, an [input_audio_buffer.append] carrying
    its content in base64. *)
Theorem session_created_configures_model self greeting msg members session p :
  msg_type msg = TEXT ->
  event msg "session.created" members ->
  Dict.lookup "session" members = Some (JObject session) ->
  exists sanitized update,
    _process_message_to_client self msg p
    = (Ok (Some (json_dumps
                   (JObject (Dict.set "session" (JObject sanitized) members)))),
       p, []) /\
    Dict.lookup "instructions" sanitized = Some (JString "") /\
    Dict.lookup "tools" sanitized = Some (JArray []) /\
    Dict.lookup "tool_choice" sanitized = Some (JString "none") /\
    Dict.lookup "voice" sanitized = Some (opt_json JString (voice_choice self)) /\
    Dict.lookup "max_response_output_tokens" sanitized = Some JNull /\
    Dict.lookup "turn_detection" update
      = Some (JObject [("type", JString "server_vad")]) /\
    forward_openai_audio_to_acs_body self greeting msg p
    = (Ok Continue, p,
       SendStr server_ws
         (json_dumps (JObject [("type", JString "session.update");
                               ("session", JObject update)]))
       :: match greeting with
          | Some pcm_audio =>
              [SendStr server_ws
                 (json_dumps (JObject [
                    ("type", JString "input_audio_buffer.append");
                    ("event_id", JString "greeting");
                    ("audio", JString (b64encode pcm_audio))]))]
          | None => []
          end).
Proof.
  intros Htext Hevent Hsession.
  destruct (session_created_sanitized self msg members session p Hevent Hsession)
    as (sanitized & Hrun & Hinstr & Htools & Hchoice & Hvoice & Hmax & _).
  destruct (update_session_instruction_spec self) as (update & Hupdate & Hturn & _).
  exists sanitized, update. repeat split; try assumption.
  unfold forward_openai_audio_to_acs_body. rewrite Htext.
  unfold io_bind at 1. rewrite Hrun.
  destruct Hevent as [Hloads Hty].
  unfold loads_value. rewrite Hloads. io_simpl.
  unfold get_default. rewrite Hty. io_simpl.
  cbn [String.eqb Ascii.eqb Bool.eqb]. rewrite Hupdate. io_simpl.
  unfold greet_user, send_json. destruct greeting; io_simpl; reflexivity.
Qed.

End SessionCreated.

(** C4 as stated fails: for [session.created] the loop sends two frames,
    both to the model; the client receives no announcement. *)
Lemma session_created_not_sent_to_client :
  @forward_openai_audio_to_acs Sample.lib Examples.relay
    (Some Examples.greeting_pcm) [Examples.session_created] ∅
  = (Ok tt, ∅,
     [SendStr server_ws (Sample.q
        "{'type': 'session.update', 'session': {'turn_detection': {'type': 'server_vad'}, 'instructions': 'Answer briefly.', 'temperature': 0.7, 'voice': 'alloy', 'tool_choice': 'auto', 'tools': [{'type': 'function', 'name': 'search'}, {'type': 'function', 'name': 'report_grounding'}, {'type': 'function', 'name': 'broken'}]}}");
      SendStr server_ws (Sample.q
        "{'type': 'input_audio_buffer.append', 'event_id': 'greeting', 'audio': 'QUJD'}")]).
Proof. vm_compute. reflexivity. Qed.

Lemma session_created_configures_model_witness :
  exists update,
    Dict.lookup "turn_detection" update
      = Some (JObject [("type", JString "server_vad")]) /\
    @forward_openai_audio_to_acs_body Sample.lib Examples.relay
      (Some Examples.greeting_pcm) Examples.session_created ∅
    = (Ok Continue, ∅,
       [SendStr server_ws
          (Sample.dumps (JObject [("type", JString "session.update");
                                  ("session", JObject update)]));
        SendStr server_ws (Sample.q
          "{'type': 'input_audio_buffer.append', 'event_id': 'greeting', 'audio': 'QUJD'}")]).
Proof.
  destruct (@session_created_configures_model Sample.lib Examples.relay
              (Some Examples.greeting_pcm) Examples.session_created
              Examples.session_created_members
              Examples.session_created_session ∅)
    as (sanitized & update & _ & _ & _ & _ & _ & _ & Hturn & Hbody).
  - reflexivity.
  - split; vm_compute; reflexivity.
  - reflexivity.
  - exists update. split; [exact Hturn|exact Hbody].
Defined.

(** ** A tool that raises *)

Section ToolFailure.
Context `{PyLib}.

(** C8, as the code has it.  When the tool invoked for a
    [response.output_item.done] function-call event raises [e], nothing
    handles it: [_process_message_to_client] raises [e] before anything is
    sent, so the model gets no [function_call_output]; the model-to-client
    loop ends with [e] and reads none of the messages that follow; and the
    [try] of [_forward_messages] lets [e] through unless it is a
    [ConnectionResetError]. *)
Theorem tool_exception_ends_loop self greeting msg rest members item call_id
    (pending : gmap string RTToolCall) call name tool args parsed e :
  msg_type msg = TEXT ->
  function_call_event msg "response.output_item.done" members item call_id ->
  pending !! call_id = Some call ->
  Dict.lookup "name" item = Some (JString name) ->
  assoc name (tools self) = Some tool ->
  Dict.lookup "arguments" item = Some (JString args) ->
  json_loads args = Some parsed ->
  target tool parsed = Raise e ->
  _process_message_to_client self msg pending = (Raise e, pending, []) /\
  forward_openai_audio_to_acs self greeting (msg :: rest) pending
    = (Raise e, pending, []) /\
  _forward_messages_try
    (forward_openai_audio_to_acs self greeting (msg :: rest)) pending
    = (if connection_reset e then Ok tt else Raise e, pending, []).
Proof.
  intros Htext ((Hloads & Hty) & Hitem & Hkind & Hcall) Hpending Hname Htool
    Hargs Hparsed Hresult.
  assert (Hrun : _process_message_to_client self msg pending
                 = (Raise e, pending, [])).
  { unfold _process_message_to_client, loads_value.
    rewrite Hloads. io_simpl. unfold getitem at 1. rewrite Hty. io_simpl.
    cbn [String.eqb Ascii.eqb Bool.eqb].
    rewrite (item_is_function_call _ _ _ Hitem Hkind). io_simpl.
    unfold getitem. rewrite Hitem. io_simpl. rewrite Hcall. io_simpl.
    unfold io_bind at 1, pending_getitem. rewrite Hpending.
    rewrite Hname. io_simpl. unfold tools_getitem. rewrite Htool. io_simpl.
    rewrite Hargs. io_simpl. unfold loads_value. rewrite Hparsed. io_simpl.
    rewrite Hresult. io_simpl. reflexivity. }
  assert (Hloop : forward_openai_audio_to_acs self greeting (msg :: rest) pending
                  = (Raise e, pending, [])).
  { unfold forward_openai_audio_to_acs. apply async_for_raises.
    unfold forward_openai_audio_to_acs_body. rewrite Htext.
    unfold io_bind at 1. now rewrite Hrun. }
  split; [exact Hrun|]. split; [exact Hloop|].
  unfold _forward_messages_try, try_except. rewrite Hloop.
  now destruct (connection_reset e).
Qed.

End ToolFailure.

(** C8 as stated fails: the tool [broken] raises, the loop ends with its
    exception, the model is sent no [function_call_output], and the audio
    delta that follows is not forwarded. *)
Lemma tool_failure_stops_forwarding :
  @forward_openai_audio_to_acs Sample.lib Examples.relay None
    [Examples.call_done "broken"; Examples.audio_delta "AAAA"]
    Examples.one_pending
  = (Raise (OtherException "RuntimeError"), Examples.one_pending, []) /\
  _forward_messages_try
    (@forward_openai_audio_to_acs Sample.lib Examples.relay None
       [Examples.call_done "broken"; Examples.audio_delta "AAAA"])
    Examples.one_pending
  = (Raise (OtherException "RuntimeError"), Examples.one_pending, []).
Proof. split; vm_compute; reflexivity. Qed.

Lemma tool_exception_ends_loop_witness :
  @forward_openai_audio_to_acs Sample.lib Examples.relay None
    [Examples.call_done "broken"; Examples.audio_delta "AAAA"]
    Examples.one_pending
  = (Raise (OtherException "RuntimeError"), Examples.one_pending, []).
Proof.
  refine (proj1 (proj2 (@tool_exception_ends_loop Sample.lib Examples.relay None
            (Examples.call_done "broken") [Examples.audio_delta "AAAA"]
            (Examples.call_done_members "broken")
            (Examples.call_done_item "broken")
            "call_1" Examples.one_pending
            {| tool_call_id := "call_1"; previous_id := JString "item_0" |}
            "broken" Examples.broken
            (Sample.q "{'q':'weather'}")
            (JObject [("q", JString "weather")])
            (OtherException "RuntimeError")
            _ _ _ _ _ _ _ _))).
  - reflexivity.
  - repeat split; vm_compute; reflexivity.
  - vm_compute; reflexivity.
  - reflexivity.
  - reflexivity.
  - reflexivity.
  - vm_compute; reflexivity.
  - reflexivity.
Defined.

(** ** Instances of [RTMiddleTier] *)

(** C10, as the code has it.  [tools] and [_tools_pending] are bound in the
    class and [__init__] binds neither in the instance, so for any two
    instances [self.tools] is one dict object and [self._tools_pending] is
    one dict object: whatever a method run through one instance leaves in
    the pending-call table (a call recorded, the table cleared) is what the
    other instance reads, and every change made in place to the registry
    shows through both. *)
Theorem instances_share_class_tables (w : Objects.World)
    endpoint1 deployment1 credentials1 voice1
    endpoint2 deployment2 credentials2 voice2 :
  let a := Objects.__init__ endpoint1 deployment1 credentials1 voice1 in
  let b := Objects.__init__ endpoint2 deployment2 credentials2 voice2 in
  Objects.tools_ref w a = Objects.tools_ref w b /\
  Objects.tools_pending_ref w a = Objects.tools_pending_ref w b /\
  (forall A (method : RTMiddleTier -> IO A),
     Objects.tools_pending_of (Objects.call method a w).1.2 b
     = (method (Objects.view w a) (Objects.tools_pending_of w a)).1.2) /\
  (forall h,
     Objects.tools_of {| Objects.heap := h; Objects.class := Objects.class w |} b
     = Objects.tools_of {| Objects.heap := h; Objects.class := Objects.class w |} a).
Proof.
  intros a b. repeat split.
  intros A method. unfold Objects.call.
  destruct (method (Objects.view w a) (Objects.tools_pending_of w a))
    as [[r pending] sent].
  unfold Objects.tools_pending_of, Objects.tools_pending_ref. simpl.
  now rewrite lookup_insert_eq.
Qed.

(** C10 as stated fails: a call recorded while the first instance
    processes a message is pending for the second instance, whose table
    was empty. *)
Lemma pending_call_seen_by_other_instance :
  Objects.tools_pending_of Objects.class_definition Examples.second_instance = ∅ /\
  Objects.tools_pending_of
    (Objects.call
       (fun self => @_process_message_to_client Sample.lib self
                      (Examples.call_created "search"))
       Examples.first_instance Objects.class_definition).1.2
    Examples.second_instance
  = Examples.one_pending.
Proof. split; vm_compute; reflexivity. Qed.

(** * Further properties of the relay *)

(** ** Events without effect *)

Section QuietEvents.
Context `{PyLib}.

(** X1.  An event of a type that neither [_process_message_to_client] nor the
    loop of [forward_openai_audio_to_acs] has a case for: the transformer
    returns the text as it came, not a re-serialisation, and the loop sends
    nothing to either socket, so the client never sees the event. *)
Theorem unhandled_model_event_not_forwarded self greeting msg ty members p :
  msg_type msg = TEXT ->
  event msg ty members ->
  ty ∉ handled_types ->
  ty <> "response.audio.delta" ->
  ty <> "input_audio_buffer.speech_started" ->
  _process_message_to_client self msg p = (Ok (Some (data msg)), p, []) /\
  forward_openai_audio_to_acs_body self greeting msg p = (Ok Continue, p, []).
Proof.
  intros Htext Hevent Hnot Hdelta Hspeech.
  pose proof (unhandled_event_passes self msg ty members p Hevent Hnot) as Hrun.
  split; [exact Hrun|].
  assert (Hcreated : ty <> "session.created").
  { intros ->. apply Hnot. apply list_elem_of_In. simpl. tauto. }
  unfold forward_openai_audio_to_acs_body. rewrite Htext.
  unfold io_bind at 1. rewrite Hrun.
  destruct Hevent as [Hloads Hty].
  unfold loads_value. rewrite Hloads. io_simpl.
  unfold get_default. rewrite Hty. io_simpl.
  apply String.eqb_neq in Hdelta, Hspeech, Hcreated.
  rewrite Hdelta, Hcreated, Hspeech. reflexivity.
Qed.

(** The transformer keeps tool-call noise to itself. *)
Lemma tool_call_noise_suppressed self msg p :
  tool_call_noise msg ->
  _process_message_to_client self msg p = (Ok None, p, []).
Proof.
  intros (members & Hloads & Hcases).
  unfold _process_message_to_client, loads_value. rewrite Hloads. io_simpl.
  unfold getitem at 1.
  destruct Hcases as [Hty|[Hty|[(Hty & item & Hitem & Hkind)
                                |(Hty & item & Hitem & Hkind)]]];
    rewrite Hty; io_simpl; cbn [String.eqb Ascii.eqb Bool.eqb]; try reflexivity.
  - rewrite (item_is_function_call _ _ _ Hitem Hkind). now io_simpl.
  - assert (Hcall : item_is (JObject members) "function_call" = Ok false).
    { unfold item_is, contains, Dict.mem, getitem; simpl.
      rewrite Hitem; simpl. rewrite Hkind; reflexivity. }
    rewrite Hcall. io_simpl.
    rewrite (item_is_function_call _ _ _ Hitem Hkind). now io_simpl.
Qed.

Lemma tool_call_noise_type msg :
  tool_call_noise msg ->
  exists members ty,
    event msg ty members /\
    ty <> "response.audio.delta" /\ ty <> "session.created" /\
    ty <> "input_audio_buffer.speech_started".
Proof.
  intros (members & Hloads & Hcases). exists members.
  destruct Hcases as [Hty|[Hty|[(Hty & _)|(Hty & _)]]];
    eexists; (split; [split; [exact Hloads|exact Hty]|]);
    repeat split; discriminate.
Qed.

(** X2.  The events that stream a tool call's arguments, announce a
    function-call output item or add a function-call item reach neither
    socket and change nothing, in the live loop and in
    [from_server_to_client] alike. *)
Theorem tool_call_noise_never_forwarded self greeting msgs p :
  Forall (fun msg => msg_type msg = TEXT /\ tool_call_noise msg) msgs ->
  forward_openai_audio_to_acs self greeting msgs p = (Ok tt, p, []) /\
  from_server_to_client self msgs p = (Ok tt, p, []).
Proof.
  intros Hmsgs.
  assert (Hbodies : Forall (fun msg =>
            forward_openai_audio_to_acs_body self greeting msg p
              = (Ok Continue, p, []) /\
            from_server_to_client_body self msg p = (Ok Continue, p, [])) msgs).
  { eapply Forall_impl; [exact Hmsgs|]. intros msg [Htext Hnoise].
    pose proof (tool_call_noise_suppressed self msg p Hnoise) as Hrun.
    split.
    - unfold forward_openai_audio_to_acs_body. rewrite Htext.
      unfold io_bind at 1. rewrite Hrun.
      destruct (tool_call_noise_type msg Hnoise)
        as (members & ty & [Hloads Hty] & Hdelta & Hcreated & Hspeech).
      unfold loads_value. rewrite Hloads. io_simpl.
      unfold get_default. rewrite Hty. io_simpl.
      apply String.eqb_neq in Hdelta, Hspeech, Hcreated.
      rewrite Hdelta, Hcreated, Hspeech. reflexivity.
    - unfold from_server_to_client_body. rewrite Htext.
      unfold io_bind at 1. rewrite Hrun. now io_simpl. }
  unfold forward_openai_audio_to_acs, from_server_to_client.
  clear Hmsgs. induction Hbodies as [|msg msgs [Hb1 Hb2] _ [IH1 IH2]];
    [now split|].
  split; simpl; unfold io_bind.
  - now rewrite Hb1, IH1.
  - now rewrite Hb2, IH2.
Qed.

End QuietEvents.

(** ** Examples *)

Ltac not_listed :=
  let Hin := fresh "Hin" in
  intros Hin;
  repeat (apply elem_of_cons in Hin as [Hin|Hin]; [discriminate Hin|]);
  inversion Hin.

(** A [response.text.delta] while a call is pending: the text comes back
    as sent, and the live loop lets nothing through to the client. *)
Lemma unhandled_model_event_not_forwarded_witness :
  @_process_message_to_client Sample.lib Examples.relay MoreExamples.text_delta
    Examples.one_pending
  = (Ok (Some (Sample.q "{'type':'response.text.delta','delta':'Hello'}")),
     Examples.one_pending, []) /\
  @forward_openai_audio_to_acs_body Sample.lib Examples.relay None
    MoreExamples.text_delta Examples.one_pending
  = (Ok Continue, Examples.one_pending, []).
Proof.
  refine (@unhandled_model_event_not_forwarded Sample.lib Examples.relay None
            MoreExamples.text_delta "response.text.delta"
            [("type", JString "response.text.delta");
             ("delta", JString "Hello")]
            Examples.one_pending _ _ _ _ _).
  - reflexivity.
  - split; vm_compute; reflexivity.
  - not_listed.
  - discriminate.
  - discriminate.
Defined.

(** Three events of a tool call in a row. *)
Lemma tool_call_noise_never_forwarded_witness :
  @forward_openai_audio_to_acs Sample.lib Examples.relay None
    [MoreExamples.arguments_delta; MoreExamples.output_item_added;
     MoreExamples.output_created] Examples.one_pending
  = (Ok tt, Examples.one_pending, []) /\
  @from_server_to_client Sample.lib Examples.relay
    [MoreExamples.arguments_delta; MoreExamples.output_item_added;
     MoreExamples.output_created] Examples.one_pending
  = (Ok tt, Examples.one_pending, []).
Proof.
  refine (@tool_call_noise_never_forwarded Sample.lib Examples.relay None
            [MoreExamples.arguments_delta; MoreExamples.output_item_added;
             MoreExamples.output_created] Examples.one_pending _).
  repeat constructor.
  - exists [("type", JString "response.function_call_arguments.delta");
            ("delta", JString "{")].
    split; [vm_compute; reflexivity|]. left. reflexivity.
  - exists [("type", JString "response.output_item.added");
            ("item", JObject [("type", JString "function_call");
                              ("call_id", JString "call_1")])].
    split; [vm_compute; reflexivity|]. right. right. left.
    split; [reflexivity|]. eexists. split; reflexivity.
  - exists [("type", JString "conversation.item.created");
            ("item", JObject [("type", JString "function_call_output");
                              ("call_id", JString "call_1")])].
    split; [vm_compute; reflexivity|]. right. right. right.
    split; [reflexivity|]. eexists. split; reflexivity.
Defined.

(** ** Edge cases of tool calls *)

Section CallEdges.
Context `{PyLib}.

(** X3.  A call that is announced again while it is pending is left as first
    recorded: the table is unchanged and nothing is sent.  The message's
    ["previous_item_id"] is not read, so it may differ from the first one
    or be missing. *)
Theorem repeated_call_announcement_keeps_first self msg members item call_id
    (p : gmap string RTToolCall) call :
  function_call_event msg "conversation.item.created" members item call_id ->
  p !! call_id = Some call ->
  _process_message_to_client self msg p = (Ok None, p, []).
Proof.
  intros ((Hloads & Hty) & Hitem & Hkind & Hcall) Hpending.
  unfold _process_message_to_client, loads_value.
  rewrite Hloads. io_simpl. unfold getitem at 1. rewrite Hty. io_simpl.
  cbn [String.eqb Ascii.eqb Bool.eqb].
  rewrite (item_is_function_call _ _ _ Hitem Hkind). io_simpl.
  unfold getitem. rewrite Hitem. io_simpl. rewrite Hcall. io_simpl.
  unfold io_bind at 1, pending_contains.
  rewrite bool_decide_eq_true_2 by eauto. now io_simpl.
Qed.

(** What handling a [response.output_item.done] function-call event comes
    to once the item's call id is read. *)
Lemma call_done_reaches_lookup self msg members item call_id p :
  function_call_event msg "response.output_item.done" members item call_id ->
  _process_message_to_client self msg p
  = io_bind (pending_getitem (JString call_id)) (fun tool_call =>
      (name <- lift (getitem (JObject item) "name") ;;
       tool <- lift (tools_getitem (tools self) name) ;;
       args <- lift (getitem (JObject item) "arguments") ;;
       parsed <- lift (loads_value args) ;;
       result <- lift (target tool parsed) ;;
       _ <- send_json server_ws (JObject [
         ("type", JString "conversation.item.create");
         ("item", JObject [
            ("type", JString "function_call_output");
            ("call_id", JString call_id);
            ("output", JString (match destination result with
                                | TO_SERVER => to_text result
                                | TO_CLIENT => ""
                                end))])]) ;;
       _ <- match destination result with
       | TO_CLIENT =>
           send_json client_ws (JObject [
             ("type", JString "extension.middle_tier_tool_response");
             ("previous_item_id", previous_id tool_call);
             ("tool_name", name);
             ("tool_result", JString (to_text result))])
       | TO_SERVER => io_ret tt
       end ;;
       io_ret None)%io) p.
Proof.
  intros ((Hloads & Hty) & Hitem & Hkind & Hcall).
  unfold _process_message_to_client, loads_value.
  rewrite Hloads. io_simpl. unfold getitem at 1. rewrite Hty. io_simpl.
  cbn [String.eqb Ascii.eqb Bool.eqb].
  rewrite (item_is_function_call _ _ _ Hitem Hkind). io_simpl.
  unfold getitem at 1. rewrite Hitem. io_simpl.
  unfold getitem at 1. rewrite Hcall. io_simpl. reflexivity.
Qed.

(** X4.  A [response.output_item.done] function-call event whose call was never
    announced (or was cleared by a [response.done] in between) raises
    [KeyError] at the table lookup: no tool is looked up or run, nothing is
    sent, and the model-to-client loop ends there without reading the
    frames that follow. *)
Theorem unannounced_call_ends_loop self greeting msg rest members item call_id
    (p : gmap string RTToolCall) :
  msg_type msg = TEXT ->
  function_call_event msg "response.output_item.done" members item call_id ->
  p !! call_id = None ->
  _process_message_to_client self msg p = (Raise KeyError, p, []) /\
  forward_openai_audio_to_acs self greeting (msg :: rest) p
    = (Raise KeyError, p, []).
Proof.
  intros Htext Hevent Hpending.
  assert (Hrun : _process_message_to_client self msg p = (Raise KeyError, p, [])).
  { rewrite (call_done_reaches_lookup _ _ _ _ _ _ Hevent).
    unfold io_bind at 1, pending_getitem. now rewrite Hpending. }
  split; [exact Hrun|].
  unfold forward_openai_audio_to_acs. apply async_for_raises.
  unfold forward_openai_audio_to_acs_body. rewrite Htext.
  unfold io_bind at 1. now rewrite Hrun.
Qed.

(** X5.  A pending call that names a tool the registry does not have raises
    [KeyError]; one whose tool is registered but whose arguments are not
    JSON text raises [JSONDecodeError] before the tool runs.  Either way
    nothing is sent and the call stays pending. *)
Theorem unknown_tool_or_bad_arguments_raise self msg members item call_id
    (p : gmap string RTToolCall) call name :
  function_call_event msg "response.output_item.done" members item call_id ->
  p !! call_id = Some call ->
  Dict.lookup "name" item = Some (JString name) ->
  (assoc name (tools self) = None ->
   _process_message_to_client self msg p = (Raise KeyError, p, [])) /\
  (forall tool args,
     assoc name (tools self) = Some tool ->
     Dict.lookup "arguments" item = Some (JString args) ->
     json_loads args = None ->
     _process_message_to_client self msg p = (Raise JSONDecodeError, p, [])).
Proof.
  intros Hevent Hpending Hname.
  assert (Hstart : forall k : RTToolCall -> IO (option string),
            io_bind (pending_getitem (JString call_id)) k p = k call p).
  { intros k. unfold io_bind, pending_getitem. rewrite Hpending.
    now destruct (k call p) as [[r p2] o2]. }
  split.
  - intros Htool. rewrite (call_done_reaches_lookup _ _ _ _ _ _ Hevent), Hstart.
    unfold getitem at 1. rewrite Hname. io_simpl.
    unfold tools_getitem. rewrite Htool. now io_simpl.
  - intros tool args Htool Hargs Hparsed.
    rewrite (call_done_reaches_lookup _ _ _ _ _ _ Hevent), Hstart.
    unfold getitem at 1. rewrite Hname. io_simpl.
    unfold tools_getitem. rewrite Htool. io_simpl.
    unfold getitem at 1. rewrite Hargs. io_simpl.
    unfold loads_value. rewrite Hparsed. now io_simpl.
Qed.

End CallEdges.

(** ** The loop that strips function calls *)

Lemma strip_function_calls_removes n : forall i output replace output' replace',
  strip_function_calls n i output replace = Ok (output', replace') ->
  output' `sublist_of` output /\
  ((replace' = replace /\ output' = output) \/
   (replace' = true /\ length output' < length output)).
Proof.
  induction n as [|idx IH]; intros i output replace output' replace' Hrun;
    simpl in Hrun.
  - injection Hrun as <- <-. split; [reflexivity|now left].
  - destruct (output !! idx) as [entry|] eqn:Hentry.
    2:{ injection Hrun as <- <-. split; [reflexivity|now left]. }
    destruct (getitem entry "type") as [ty|e]; simpl in Hrun; [|discriminate].
    destruct (is_str ty "function_call").
    + case_bool_decide as Hi; [|discriminate].
      apply IH in Hrun as [Hsub Hlen].
      assert (Hshorter : length (delete i output) < length output).
      { rewrite length_delete by now apply lookup_lt_is_Some. lia. }
      split.
      * etransitivity; [exact Hsub|]. apply sublist_delete.
      * right. destruct Hlen as [[-> ->]|[-> Hlen]]; split; auto; lia.
    + now apply IH in Hrun.
Qed.

Lemma strip_function_calls_no_call n : forall i output replace,
  Forall not_a_function_call output ->
  strip_function_calls n i output replace = Ok (output, replace).
Proof.
  induction n as [|idx IH]; intros i output replace Hall; simpl; [reflexivity|].
  destruct (output !! idx) as [entry|] eqn:Hentry; [|reflexivity].
  destruct (proj1 (Forall_lookup _ _) Hall idx entry Hentry) as (ty & -> & Hty).
  simpl. rewrite Hty. now apply IH.
Qed.

(** X6.  The loop of lines 160-163 on a list: what is left is a sublist of the
    output list, entries in their order; the flag that makes the message be
    serialised again is set exactly when the list got shorter, and
    otherwise the list is the one that came. *)
Theorem strip_output_only_removes output stripped replace :
  strip_output (JArray output) = Ok (stripped, replace) ->
  exists output',
    stripped = JArray output' /\
    output' `sublist_of` output /\
    if replace then length output' < length output else output' = output.
Proof.
  unfold strip_output. intros Hrun.
  destruct (strip_function_calls (length output) 0 output false)
    as [[output' replace']|e] eqn:Hloop; simpl in Hrun; [|discriminate].
  injection Hrun as <- <-. exists output'. split; [reflexivity|].
  apply strip_function_calls_removes in Hloop as [Hsub Hcases].
  split; [exact Hsub|].
  destruct Hcases as [[-> ->]|[-> Hlen]]; auto.
Qed.

Section Unchanged.
Context `{PyLib}.

(** X7.  [response.done] with no call pending and a response whose output list
    holds no function call (or a message without ["response"]): nothing is
    sent, the table stays empty, and the text comes back as it was
    received, not serialised again. *)
Theorem response_done_without_calls_passes self msg members :
  event msg "response.done" members ->
  Dict.lookup "response" members = None \/
  (exists response output,
     Dict.lookup "response" members = Some (JObject response) /\
     Dict.lookup "output" response = Some (JArray output) /\
     Forall not_a_function_call output) ->
  _process_message_to_client self msg ∅ = (Ok (Some (data msg)), ∅, []).
Proof.
  intros [Hloads Hty] Hcases.
  unfold _process_message_to_client, loads_value. rewrite Hloads. io_simpl.
  unfold getitem at 1. rewrite Hty. io_simpl.
  cbn [String.eqb Ascii.eqb Bool.eqb].
  unfold io_bind at 1, pending_len. rewrite map_size_empty.
  rewrite bool_decide_eq_false_2 by lia. io_simpl.
  unfold contains, Dict.mem.
  destruct Hcases as [Hnone|(response & output & Hresponse & Houtput & Hall)].
  - rewrite Hnone. now io_simpl.
  - rewrite Hresponse. io_simpl. unfold getitem. rewrite Hresponse. io_simpl.
    rewrite Houtput. io_simpl. unfold strip_output.
    rewrite (strip_function_calls_no_call _ _ _ _ Hall). now io_simpl.
Qed.

End Unchanged.

(** ** Examples *)

(** [call_1] is pending with previous item [item_0]; it is announced
    again. *)
Lemma repeated_call_announcement_keeps_first_witness :
  @_process_message_to_client Sample.lib Examples.relay
    (Examples.call_created "search") Examples.one_pending
  = (Ok None, Examples.one_pending, []).
Proof.
  refine (@repeated_call_announcement_keeps_first Sample.lib Examples.relay
            (Examples.call_created "search")
            (Examples.call_created_members "search")
            (Examples.call_created_item "search") "call_1"
            Examples.one_pending
            {| tool_call_id := "call_1"; previous_id := JString "item_0" |}
            _ _).
  - repeat split; vm_compute; reflexivity.
  - vm_compute; reflexivity.
Defined.

(** The call is done with no call pending; the audio delta after it is not
    read. *)
Lemma unannounced_call_ends_loop_witness :
  @forward_openai_audio_to_acs Sample.lib Examples.relay None
    (Examples.call_done "search" :: [Examples.audio_delta "AAAA"]) ∅
  = (Raise KeyError, ∅, []).
Proof.
  refine (proj2 (@unannounced_call_ends_loop Sample.lib Examples.relay None
            (Examples.call_done "search") [Examples.audio_delta "AAAA"]
            (Examples.call_done_members "search")
            (Examples.call_done_item "search") "call_1" ∅ _ _ _)).
  - reflexivity.
  - repeat split; vm_compute; reflexivity.
  - reflexivity.
Defined.

(** The pending call names a tool that is not registered. *)
Lemma unknown_tool_or_bad_arguments_raise_witness :
  @_process_message_to_client Sample.lib Examples.relay
    (Examples.call_done "translate") Examples.one_pending
  = (Raise KeyError, Examples.one_pending, []).
Proof.
  refine (proj1 (@unknown_tool_or_bad_arguments_raise Sample.lib Examples.relay
            (Examples.call_done "translate")
            (Examples.call_done_members "translate")
            (Examples.call_done_item "translate") "call_1"
            Examples.one_pending
            {| tool_call_id := "call_1"; previous_id := JString "item_0" |}
            "translate" _ _ _) _).
  - repeat split; vm_compute; reflexivity.
  - vm_compute; reflexivity.
  - reflexivity.
  - reflexivity.
Defined.

(** A function call between two messages: the two messages are left, in
    their order, and the flag is set. *)
Lemma strip_output_only_removes_witness :
  exists output',
    JArray [JObject [("type", JString "message"); ("id", JString "a")];
            JObject [("type", JString "message"); ("id", JString "b")]]
      = JArray output' /\
    output' `sublist_of`
      [JObject [("type", JString "message"); ("id", JString "a")];
       JObject [("type", JString "function_call"); ("call_id", JString "call_1")];
       JObject [("type", JString "message"); ("id", JString "b")]] /\
    length output' < 3.
Proof.
  refine (strip_output_only_removes
            [JObject [("type", JString "message"); ("id", JString "a")];
             JObject [("type", JString "function_call");
                      ("call_id", JString "call_1")];
             JObject [("type", JString "message"); ("id", JString "b")]]
            (JArray [JObject [("type", JString "message"); ("id", JString "a")];
                     JObject [("type", JString "message"); ("id", JString "b")]])
            true _).
  vm_compute; reflexivity.
Defined.

(** A [response.done] whose output is one message. *)
Lemma response_done_without_calls_passes_witness :
  @_process_message_to_client Sample.lib Examples.relay
    MoreExamples.quiet_response_done ∅
  = (Ok (Some (Sample.q
       "{'type':'response.done','response':{'output':[{'type':'message','id':'item_2'}]}}")),
     ∅, []).
Proof.
  refine (@response_done_without_calls_passes Sample.lib Examples.relay
            MoreExamples.quiet_response_done
            [("type", JString "response.done");
             ("response", JObject [
                ("output", JArray [JObject [("type", JString "message");
                                            ("id", JString "item_2")]])])]
            _ _).
  - split; vm_compute; reflexivity.
  - right. do 2 eexists. split; [reflexivity|]. split; [reflexivity|].
    repeat constructor. exists (JString "message"). split; reflexivity.
Defined.

(** ** What the loops write where *)

Lemma sends_ret {A} P (a : A) : sends_only P (io_ret a).
Proof. intros p. constructor. Qed.

Lemma sends_lift {A} P (r : Result A) : sends_only P (lift r).
Proof. intros p. constructor. Qed.

Lemma sends_send (P : Sent -> Prop) ws payload :
  P (SendStr ws payload) -> sends_only P (send_str ws payload).
Proof. intros HP p. now repeat constructor. Qed.

Lemma sends_close (P : Sent -> Prop) ws : P (Close ws) -> sends_only P (close ws).
Proof. intros HP p. now repeat constructor. Qed.

Lemma sends_len P : sends_only P pending_len.
Proof. intros p. constructor. Qed.

Lemma sends_clear P : sends_only P pending_clear.
Proof. intros p. constructor. Qed.

Lemma sends_contains P k : sends_only P (pending_contains k).
Proof. intros p. destruct k; constructor. Qed.

Lemma sends_getitem P k : sends_only P (pending_getitem k).
Proof.
  intros p. destruct k; try constructor. simpl. destruct (p !! s); constructor.
Qed.

Lemma sends_setitem P k prev : sends_only P (pending_setitem k prev).
Proof. intros p. destruct k; constructor. Qed.

Lemma sends_bind {A B} P (m : IO A) (k : A -> IO B) :
  sends_only P m -> (forall a, sends_only P (k a)) -> sends_only P (io_bind m k).
Proof.
  intros Hm Hk p. unfold io_bind. specialize (Hm p).
  destruct (m p) as [[[a|e] p1] o1]; simpl in *; [|exact Hm].
  specialize (Hk a p1). destruct (k a p1) as [[r p2] o2]. simpl in *.
  now apply Forall_app.
Qed.

Lemma sends_try_except {A} P (body : IO A) caught handler :
  sends_only P body -> (forall e, sends_only P (handler e)) ->
  sends_only P (try_except body caught handler).
Proof.
  intros Hbody Hhandler p. unfold try_except. specialize (Hbody p).
  destruct (body p) as [[[a|e] p1] o1]; simpl in *; [exact Hbody|].
  destruct (caught e); [|exact Hbody].
  specialize (Hhandler e p1). destruct (handler e p1) as [[r p2] o2].
  simpl in *. now apply Forall_app.
Qed.

Lemma sends_async_for P body msgs :
  (forall msg, sends_only P (body msg)) -> sends_only P (async_for body msgs).
Proof.
  intros Hbody. induction msgs as [|msg msgs IH]; simpl.
  - apply sends_ret.
  - apply sends_bind; [apply Hbody|]. intros []; [exact IH|apply sends_ret].
Qed.

Lemma sends_async_for_on (P : Sent -> Prop) (Q : WSMessage -> Prop) body msgs :
  (forall msg, Q msg -> sends_only P (body msg)) ->
  Forall Q msgs -> sends_only P (async_for body msgs).
Proof.
  intros Hbody. induction 1 as [|msg msgs Hmsg _ IH]; simpl.
  - apply sends_ret.
  - apply sends_bind; [now apply Hbody|].
    intros []; [exact IH|apply sends_ret].
Qed.

Lemma leaves_try_except {A} (body : IO A) caught handler :
  leaves_pending body -> (forall e, leaves_pending (handler e)) ->
  leaves_pending (try_except body caught handler).
Proof.
  intros Hbody Hhandler p. unfold try_except. specialize (Hbody p).
  destruct (body p) as [[[a|e] p1] o1]; simpl in *; [exact Hbody|].
  destruct (caught e); [|exact Hbody]. subst p1.
  specialize (Hhandler e p). now destruct (handler e p) as [[r p2] o2].
Qed.

Lemma leaves_async_for body msgs :
  (forall msg, leaves_pending (body msg)) -> leaves_pending (async_for body msgs).
Proof.
  intros Hbody. induction msgs as [|msg msgs IH]; simpl.
  - apply leaves_ret.
  - apply leaves_step_bind; [apply Hbody|]. intros []; [exact IH|apply leaves_ret].
Qed.

(** Takes a handler apart; [tac] settles each send. *)
Ltac sends_step tac :=
  first
    [ apply sends_ret | apply sends_lift | apply sends_len | apply sends_clear
    | apply sends_contains | apply sends_getitem | apply sends_setitem
    | apply sends_send; tac
    | apply sends_close; tac
    | apply sends_bind; [|intros ?]
    | match goal with
      | |- sends_only _ (if ?b then _ else _) => destruct b
      | |- sends_only _ (match ?x with _ => _ end) => destruct x
      | |- sends_only _ (let _ := _ in _) => cbv zeta
      end ].

Section Writes.
Context `{PyLib}.

Ltac client_frame_tac :=
  first
    [ exact I
    | left; eexists; reflexivity
    | right; left; reflexivity
    | right; right; do 3 eexists; reflexivity ].

Lemma process_sends_client_frames self msg :
  sends_only client_frame (_process_message_to_client self msg).
Proof.
  unfold _process_message_to_client, send_json.
  repeat sends_step client_frame_tac.
Qed.

(** X8.  Whatever frames the model sends and whatever is pending, every frame the
    model-to-client loop writes to the client socket is an [AudioData]
    frame, the [StopAudio] frame or a tool's
    [extension.middle_tier_tool_response]: no model event, sanitised or
    not, is ever written to the client. *)
Theorem client_socket_gets_acs_frames_only self greeting msgs p :
  Forall client_frame (forward_openai_audio_to_acs self greeting msgs p).2.
Proof.
  revert p. change (sends_only client_frame
                     (forward_openai_audio_to_acs self greeting msgs)).
  apply sends_async_for. intros msg.
  unfold forward_openai_audio_to_acs_body, greet_user, send_json.
  destruct (msg_type msg); repeat sends_step client_frame_tac.
Qed.

(** X9.  The client-to-model loop, on any frames: the pending-call table is as
    it was, nothing is written to the client socket, and everything written
    to the model socket is an [input_audio_buffer.append] event, but for
    the closing of the socket. *)
Theorem client_loop_only_appends_audio msgs p :
  (forward_from_acs_to_openai msgs p).1.2 = p /\
  Forall (fun s => s = Close server_ws \/ exists audio, s = append_frame audio)
    (forward_from_acs_to_openai msgs p).2.
Proof.
  split.
  - revert p. change (leaves_pending (forward_from_acs_to_openai msgs)).
    apply leaves_async_for. intros msg. unfold forward_from_acs_to_openai_body.
    destruct (msg_type msg); try solve [repeat leaves_step].
    apply leaves_step_bind; [|intros ?; leaves_step].
    apply leaves_try_except; [|intros ?; leaves_step].
    repeat leaves_step.
  - revert p.
    change (sends_only (fun s => s = Close server_ws \/
                                 exists audio, s = append_frame audio)
              (forward_from_acs_to_openai msgs)).
    apply sends_async_for. intros msg. unfold forward_from_acs_to_openai_body.
    destruct (msg_type msg);
      try solve [repeat sends_step ltac:(now left)].
    apply sends_bind; [|intros ?; apply sends_ret].
    apply sends_try_except; [|intros ?; apply sends_ret].
    repeat sends_step ltac:(right; eexists; reflexivity).
Qed.

(** What the client loop does with one frame it forwards or passes over. *)
Lemma acs_frame_body msg audio p :
  acs_frame_yields msg audio ->
  forward_from_acs_to_openai_body msg p
  = (Ok Continue, p, match audio with
                     | Some a => [append_frame a]
                     | None => []
                     end).
Proof.
  destruct audio as [a|]; simpl.
  - intros (Htext & members & audio_data & Hloads & Hkind & Haudio & Hdata).
    now apply (audio_frame_forwarded msg members audio_data).
  - intros [[Htext Hclose]|[Htext Hcases]].
    + unfold forward_from_acs_to_openai_body.
      now destruct (msg_type msg).
    + destruct Hcases as [Hnone|(members & Hloads & Hcases)].
      * now apply undecodable_frame_dropped.
      * destruct Hcases as [Hother|[Hkind [Hnone|(ad & Haudio & Hdata)]]].
        -- now apply (frame_of_other_kind_dropped msg members).
        -- now apply (frame_without_audio_data_dropped msg members).
        -- now apply (frame_without_data_dropped msg members ad).
Qed.

Lemma acs_frames_forwarded msgs audios p :
  Forall2 acs_frame_yields msgs audios ->
  forward_from_acs_to_openai msgs p
  = (Ok tt, p, map append_frame (omap id audios)).
Proof.
  unfold forward_from_acs_to_openai.
  induction 1 as [|msg audio msgs audios Hmsg _ IH]; simpl; [reflexivity|].
  unfold io_bind. rewrite (acs_frame_body _ _ _ Hmsg), IH.
  now destruct audio.
Qed.

(** X10.  The client's audio reaches the model in the order of arrival, one
    [input_audio_buffer.append] per [AudioData] frame, and the frames the
    loop passes over (not JSON, another kind, no payload, not text) leave
    no trace wherever they stand in the stream. *)
Theorem client_audio_forwarded_in_order msgs audios p :
  Forall2 acs_frame_yields msgs audios ->
  forward_from_acs_to_openai msgs p
  = (Ok tt, p, map append_frame (omap id audios)).
Proof. apply acs_frames_forwarded. Qed.

(** X11.  On client frames none of which is a CLOSE frame, the
    client-to-model loop closes no socket, however it ends: all it writes
    are [input_audio_buffer.append] events to the model socket.  The model
    socket is closed only in the branch for a CLOSE frame. *)
Theorem client_loop_closes_only_on_close_frame msgs p :
  Forall (fun msg => msg_type msg <> CLOSE) msgs ->
  Forall (fun s => exists audio, s = append_frame audio)
    (forward_from_acs_to_openai msgs p).2.
Proof.
  intros Hmsgs. revert p.
  change (sends_only (fun s => exists audio, s = append_frame audio)
            (forward_from_acs_to_openai msgs)).
  refine (sends_async_for_on _ _ _ _ _ Hmsgs). intros msg Hmsg.
  unfold forward_from_acs_to_openai_body.
  destruct (msg_type msg); try contradiction; try apply sends_ret.
  apply sends_bind; [|intros ?; apply sends_ret].
  apply sends_try_except; [|intros ?; apply sends_ret].
  repeat sends_step ltac:(eexists; reflexivity).
Qed.

(** X12.  On model frames none of which is a CLOSE frame, the
    model-to-client loop closes no socket, whatever the events, the tools
    and the pending calls are and however it ends: everything it does on
    either socket is sending a text.  The client socket is closed only in
    the branch for a CLOSE frame. *)
Theorem model_loop_closes_only_on_close_frame self greeting msgs p :
  Forall (fun msg => msg_type msg <> CLOSE) msgs ->
  Forall (fun s => exists ws payload, s = SendStr ws payload)
    (forward_openai_audio_to_acs self greeting msgs p).2.
Proof.
  intros Hmsgs. revert p.
  change (sends_only (fun s => exists ws payload, s = SendStr ws payload)
            (forward_openai_audio_to_acs self greeting msgs)).
  refine (sends_async_for_on _ _ _ _ _ Hmsgs). intros msg Hmsg.
  unfold forward_openai_audio_to_acs_body, greet_user, send_json.
  destruct (msg_type msg); try contradiction; try apply sends_ret.
  unfold _process_message_to_client, send_json.
  repeat sends_step ltac:(do 2 eexists; reflexivity).
Qed.

(** X13.  A text frame from the model that is not JSON: unlike the client loop,
    this loop has no [try]; [JSONDecodeError] ends it, nothing is sent for
    the frame, the frames after it are not read, and [_forward_messages]
    does not catch the exception. *)
Theorem undecodable_model_frame_ends_loop self greeting msg rest p :
  msg_type msg = TEXT ->
  json_loads (data msg) = None ->
  forward_openai_audio_to_acs self greeting (msg :: rest) p
    = (Raise JSONDecodeError, p, []) /\
  _forward_messages_try
    (forward_openai_audio_to_acs self greeting (msg :: rest)) p
    = (Raise JSONDecodeError, p, []).
Proof.
  intros Htext Hloads.
  assert (Hloop : forward_openai_audio_to_acs self greeting (msg :: rest) p
                  = (Raise JSONDecodeError, p, [])).
  { unfold forward_openai_audio_to_acs. apply async_for_raises.
    unfold forward_openai_audio_to_acs_body. rewrite Htext.
    unfold io_bind at 1, _process_message_to_client, loads_value.
    rewrite Hloads. now io_simpl. }
  split; [exact Hloop|].
  unfold _forward_messages_try, try_except. now rewrite Hloop.
Qed.

End Writes.

(** ** Examples *)

(** Audio, a text that is not JSON, a binary frame, an [AudioData] frame
    without payload, audio: two appends, in order. *)
Lemma client_audio_forwarded_in_order_witness :
  @forward_from_acs_to_openai Sample.lib
    [Examples.acs_audio; Examples.acs_not_json; MoreExamples.binary_frame;
     Examples.acs_no_audio_data; Examples.acs_audio] Examples.one_pending
  = (Ok tt, Examples.one_pending,
     [SendStr server_ws (Sample.q
        "{'type': 'input_audio_buffer.append', 'audio': 'QUJD'}");
      SendStr server_ws (Sample.q
        "{'type': 'input_audio_buffer.append', 'audio': 'QUJD'}")]).
Proof.
  refine (@client_audio_forwarded_in_order Sample.lib
            [Examples.acs_audio; Examples.acs_not_json;
             MoreExamples.binary_frame; Examples.acs_no_audio_data;
             Examples.acs_audio]
            [Some (JString "QUJD"); None; None; None; Some (JString "QUJD")]
            Examples.one_pending _).
  assert (Haudio : @acs_audio_frame Sample.lib Examples.acs_audio (JString "QUJD")).
  { split; [reflexivity|].
    exists [("kind", JString "AudioData");
            ("audioData", JObject [("data", JString "QUJD")])],
           [("data", JString "QUJD")].
    repeat split; vm_compute; reflexivity. }
  constructor; [exact Haudio|]. constructor; [|constructor; [|constructor]];
    [| | |constructor; [exact Haudio|constructor]].
  - right. split; [reflexivity|]. left. vm_compute; reflexivity.
  - left. split; discriminate.
  - right. split; [reflexivity|]. right.
    exists [("kind", JString "AudioData")].
    split; [vm_compute; reflexivity|]. right.
    split; [reflexivity|]. left. reflexivity.
Defined.

(** Audio, a binary frame, a frame whose [audioData] is null, on which
    the loop ends with [TypeError]: one append, nothing closed. *)
Lemma client_loop_closes_only_on_close_frame_witness :
  Forall (fun s => exists audio, s = @append_frame Sample.lib audio)
    (@forward_from_acs_to_openai Sample.lib
       [Examples.acs_audio; MoreExamples.binary_frame;
        Examples.acs_null_audio_data; Examples.acs_audio] ∅).2.
Proof.
  refine (@client_loop_closes_only_on_close_frame Sample.lib
            [Examples.acs_audio; MoreExamples.binary_frame;
             Examples.acs_null_audio_data; Examples.acs_audio] ∅ _).
  repeat constructor; discriminate.
Defined.

(** An audio delta, the start of speech and the end of a pending call to
    [search]: three texts are sent, nothing is closed. *)
Lemma model_loop_closes_only_on_close_frame_witness :
  Forall (fun s => exists ws payload, s = SendStr ws payload)
    (@forward_openai_audio_to_acs Sample.lib Examples.relay None
       [Examples.audio_delta "AAAA"; Examples.speech_started;
        Examples.call_done "search"] Examples.one_pending).2.
Proof.
  refine (@model_loop_closes_only_on_close_frame Sample.lib Examples.relay None
            [Examples.audio_delta "AAAA"; Examples.speech_started;
             Examples.call_done "search"] Examples.one_pending _).
  repeat constructor; discriminate.
Defined.

(** The model sends a text that is not JSON, then an audio delta. *)
Lemma undecodable_model_frame_ends_loop_witness :
  @forward_openai_audio_to_acs Sample.lib Examples.relay None
    (Examples.acs_not_json :: [Examples.audio_delta "AAAA"]) ∅
  = (Raise JSONDecodeError, ∅, []) /\
  _forward_messages_try
    (@forward_openai_audio_to_acs Sample.lib Examples.relay None
       (Examples.acs_not_json :: [Examples.audio_delta "AAAA"])) ∅
  = (Raise JSONDecodeError, ∅, []).
Proof.
  refine (@undecodable_model_frame_ends_loop Sample.lib Examples.relay None
            Examples.acs_not_json [Examples.audio_delta "AAAA"] ∅ _ _).
  - reflexivity.
  - vm_compute; reflexivity.
Defined.

(** ** The forwarding closures of [_forward_messages] *)

Section Closures.
Context `{PyLib}.

(** X14.  [from_server_to_client] on events that the transformer has no case
    for: each text goes to the client exactly as the model sent it, in the
    order of arrival, and nothing goes to the model. *)
Theorem from_server_to_client_passes_unhandled self msgs p :
  Forall (fun msg => msg_type msg = TEXT /\
                     exists ty members,
                       event msg ty members /\ ty ∉ handled_types) msgs ->
  from_server_to_client self msgs p
  = (Ok tt, p, map (fun msg => SendStr client_ws (data msg)) msgs).
Proof.
  intros Hmsgs.
  assert (Hbodies : Forall (fun msg =>
            from_server_to_client_body self msg p
            = (Ok Continue, p, [SendStr client_ws (data msg)])) msgs).
  { eapply Forall_impl; [exact Hmsgs|].
    intros msg (Htext & ty & members & Hevent & Hnot).
    unfold from_server_to_client_body. rewrite Htext.
    unfold io_bind at 1.
    rewrite (unhandled_event_passes self msg ty members p Hevent Hnot).
    now io_simpl. }
  unfold from_server_to_client. clear Hmsgs.
  induction Hbodies as [|msg msgs Hbody _ IH]; simpl; [reflexivity|].
  unfold io_bind. now rewrite Hbody, IH.
Qed.

(** X15.  [from_server_to_client] on [session.created]: the client is sent the
    announcement with instructions and tools emptied, tool choice
    ["none"], the policy's voice and no token limit, the other session
    keys as they came; the model is sent nothing. *)
Theorem from_server_to_client_forwards_sanitized self msg members session p :
  msg_type msg = TEXT ->
  event msg "session.created" members ->
  Dict.lookup "session" members = Some (JObject session) ->
  exists sanitized,
    from_server_to_client_body self msg p
    = (Ok Continue, p,
       [SendStr client_ws
          (json_dumps
             (JObject (Dict.set "session" (JObject sanitized) members)))]) /\
    Dict.lookup "instructions" sanitized = Some (JString "") /\
    Dict.lookup "tools" sanitized = Some (JArray []) /\
    Dict.lookup "tool_choice" sanitized = Some (JString "none") /\
    Dict.lookup "voice" sanitized = Some (opt_json JString (voice_choice self)) /\
    Dict.lookup "max_response_output_tokens" sanitized = Some JNull /\
    (forall k, k ∉ hidden_keys ->
       Dict.lookup k sanitized = Dict.lookup k session).
Proof.
  intros Htext Hevent Hsession.
  destruct (session_created_sanitized self msg members session p Hevent Hsession)
    as (sanitized & Hrun & Hrest).
  exists sanitized. split; [|exact Hrest].
  unfold from_server_to_client_body. rewrite Htext.
  unfold io_bind at 1. rewrite Hrun. now io_simpl.
Qed.

(** What [_process_message_to_server] returns for a text that is JSON
    [null] or an object of another type than [session.update]: the text. *)
Lemma other_client_message_passes self msg :
  json_loads (data msg) = Some JNull \/
  (exists ty members, event msg ty members /\ ty <> "session.update") ->
  _process_message_to_server self msg = Ok (Some (data msg)).
Proof.
  unfold _process_message_to_server, loads_value.
  intros [Hnull|(ty & members & [Hloads Hty] & Hne)].
  - rewrite Hnull. reflexivity.
  - rewrite Hloads. simpl. rewrite Hty. simpl.
    apply String.eqb_neq in Hne. now rewrite Hne.
Qed.

(** X16.  [from_client_to_server] forwards every text frame that is JSON [null]
    or an object of another type than [session.update] to the model exactly
    as received, in order, and closes the model socket when the client's
    frames end.  A text that is not JSON raises [JSONDecodeError] out of
    the loop: the frames before it were forwarded, those after it are not
    read, and the model socket is not closed. *)
Theorem from_client_to_server_forwards self msgs p :
  Forall (fun msg => msg_type msg = TEXT /\
                     (json_loads (data msg) = Some JNull \/
                      exists ty members,
                        event msg ty members /\ ty <> "session.update")) msgs ->
  from_client_to_server self msgs p
  = (Ok tt, p,
     map (fun msg => SendStr server_ws (data msg)) msgs ++ [Close server_ws]) /\
  (forall bad rest,
     msg_type bad = TEXT ->
     json_loads (data bad) = None ->
     from_client_to_server self (msgs ++ bad :: rest) p
     = (Raise JSONDecodeError, p,
        map (fun msg => SendStr server_ws (data msg)) msgs)).
Proof.
  intros Hmsgs.
  assert (Hbodies : Forall (fun msg => forall q,
            from_client_to_server_body self msg q
            = (Ok Continue, q, [SendStr server_ws (data msg)])) msgs).
  { eapply Forall_impl; [exact Hmsgs|]. intros msg [Htext Hcases] q.
    unfold from_client_to_server_body. rewrite Htext.
    rewrite (other_client_message_passes self msg Hcases). now io_simpl. }
  clear Hmsgs.
  assert (Hloop : async_for (from_client_to_server_body self) msgs p
                  = (Ok tt, p, map (fun msg => SendStr server_ws (data msg)) msgs)).
  { induction Hbodies as [|msg msgs Hbody _ IH]; simpl; [reflexivity|].
    unfold io_bind. now rewrite Hbody, IH. }
  split.
  - unfold from_client_to_server, io_bind. now rewrite Hloop.
  - intros bad rest Htext Hloads. unfold from_client_to_server.
    unfold io_bind at 1.
    rewrite (async_for_app _ msgs (bad :: rest) p p
               (map (fun msg => SendStr server_ws (data msg)) msgs));
      [|clear -Hbodies|exact Hloop].
    + simpl. unfold io_bind at 1, from_client_to_server_body. rewrite Htext.
      unfold _process_message_to_server, loads_value. rewrite Hloads.
      simpl. now rewrite app_nil_r.
    + eapply Forall_impl; [exact Hbodies|]. intros msg Hbody q.
      now rewrite Hbody.
Qed.

End Closures.

(** ** The headers of the model connection *)

(** X17.  The headers [_forward_messages] connects to the model with never carry
    the client's [x-ms-client-request-id]: the dict it was copied into is
    replaced by a new one, whose single entry is the API key or the bearer
    token, so the headers do not depend on the client's at all. *)
Theorem client_request_id_not_forwarded self ws_headers token_provider headers :
  _forward_messages_headers self ws_headers token_provider = Ok headers ->
  assoc "x-ms-client-request-id" headers = None /\
  length headers = 1 /\
  forall ws_headers',
    _forward_messages_headers self ws_headers' token_provider = Ok headers.
Proof.
  unfold _forward_messages_headers. intros Hrun.
  destruct (key self) as [api_key|].
  - injection Hrun as <-. now repeat split.
  - destruct token_provider as [token|]; [|discriminate].
    injection Hrun as <-. now repeat split.
Qed.

(** ** Session policy, applied again *)

Lemma set_same k v d : Dict.lookup k d = Some v -> Dict.set k v d = d.
Proof.
  induction d as [|[k' v'] d IH]; simpl; [discriminate|].
  destruct (String.eqb_spec k k') as [->|Hne].
  - now intros [= ->].
  - intros Hd. now rewrite IH.
Qed.

Lemma set_set k v v' d : Dict.set k v (Dict.set k v' d) = Dict.set k v d.
Proof.
  induction d as [|[k0 v0] d IH]; simpl.
  - now rewrite String.eqb_refl.
  - destruct (String.eqb k k0) eqn:E; simpl; rewrite E; [reflexivity|].
    now rewrite IH.
Qed.

Lemma enforce_needs_dict self session once :
  enforce_session_policy self session = Ok once ->
  exists d, session = JObject d.
Proof.
  destruct session; try (now eexists).
  all: unfold enforce_session_policy;
    destruct (system_message self), (temperature self), (max_tokens self),
      (disable_audio self), (voice_choice self); discriminate.
Qed.

Lemma enforce_session_policy_again self session once :
  enforce_session_policy self session = Ok once ->
  enforce_session_policy self once = Ok once.
Proof.
  intros Hrun. destruct (enforce_needs_dict _ _ _ Hrun) as [d ->].
  destruct (enforce_session_policy_spec self d)
    as (d' & Hrun' & Hchoice & Htools & Hinstr & Htemp & Hmax & Haudio
        & Hvoice & _).
  rewrite Hrun in Hrun'. injection Hrun' as ->. clear Hrun.
  unfold enforce_session_policy, tool_schemas.
  assert (Hlen : (match tools self with [] => "none" | _ => "auto" end : string)
                 = if bool_decide (0 < length (tools self))
                   then "auto" else "none").
  { destruct (tools self); reflexivity. }
  rewrite Hlen in Hchoice.
  destruct (system_message self), (temperature self), (max_tokens self),
    (disable_audio self), (voice_choice self); simpl;
    rewrite ?(set_same _ _ _ Hinstr), ?(set_same _ _ _ Htemp),
      ?(set_same _ _ _ Hmax), ?(set_same _ _ _ Haudio),
      ?(set_same _ _ _ Hvoice), ?(set_same _ _ _ Hchoice);
    simpl; rewrite (set_same _ _ _ Htools); reflexivity.
Qed.

(** X18.  Enforcing session policy is idempotent: running [update_session] on a
    message it has already gone over changes nothing, for any message on
    which it does not raise. *)
Theorem update_session_idempotent self message once :
  update_session self message = Ok once ->
  update_session self once = Ok once.
Proof.
  unfold update_session. intros Hrun.
  destruct (is_None message) eqn:Hnone.
  { injection Hrun as <-. now rewrite Hnone. }
  destruct (getitem message "type") as [ty|e] eqn:Hty; simpl in Hrun;
    [|discriminate].
  destruct (is_str ty "session.update") eqn:Hupdate.
  2:{ injection Hrun as <-. rewrite Hnone, Hty. simpl. now rewrite Hupdate. }
  destruct message as [| | | | | |members]; try discriminate.
  unfold getitem in Hty, Hrun.
  destruct (Dict.lookup "type" members) as [ty'|] eqn:Hlookup; [|discriminate].
  injection Hty as ->.
  destruct (Dict.lookup "session" members) as [session|]; simpl in Hrun;
    [|discriminate].
  destruct (enforce_session_policy self session) as [session'|e] eqn:Henforce;
    simpl in Hrun; [|discriminate].
  injection Hrun as <-. simpl.
  rewrite lookup_set_ne by discriminate. rewrite Hlookup. simpl.
  rewrite Hupdate, lookup_set_eq. simpl.
  rewrite (enforce_session_policy_again _ _ _ Henforce). simpl.
  now rewrite set_set.
Qed.

(** ** Examples *)

(** A text delta and a ping pass through to the client as they came. *)
Lemma from_server_to_client_passes_unhandled_witness :
  @from_server_to_client Sample.lib Examples.relay
    [MoreExamples.text_delta; MoreExamples.client_ping] Examples.one_pending
  = (Ok tt, Examples.one_pending,
     [SendStr client_ws
        (Sample.q "{'type':'response.text.delta','delta':'Hello'}");
      SendStr client_ws (Sample.q "{'type':'ping','n':1}")]).
Proof.
  refine (@from_server_to_client_passes_unhandled Sample.lib Examples.relay
            [MoreExamples.text_delta; MoreExamples.client_ping]
            Examples.one_pending _).
  constructor; [|constructor; [|constructor]].
  - split; [reflexivity|].
    exists "response.text.delta",
           [("type", JString "response.text.delta"); ("delta", JString "Hello")].
    split; [split; vm_compute; reflexivity|not_listed].
  - split; [reflexivity|].
    exists "ping", [("type", JString "ping"); ("n", JInt 1)].
    split; [split; vm_compute; reflexivity|not_listed].
Defined.

(** The announcement of a session with instructions, a tool and a token
    limit. *)
Lemma from_server_to_client_forwards_sanitized_witness :
  exists sanitized,
    @from_server_to_client_body Sample.lib Examples.relay
      Examples.session_created ∅
    = (Ok Continue, ∅,
       [SendStr client_ws
          (@json_dumps Sample.lib
             (JObject (Dict.set "session" (JObject sanitized)
                         Examples.session_created_members)))]) /\
    Dict.lookup "instructions" sanitized = Some (JString "") /\
    Dict.lookup "tools" sanitized = Some (JArray []) /\
    Dict.lookup "tool_choice" sanitized = Some (JString "none") /\
    Dict.lookup "voice" sanitized = Some (JString "alloy") /\
    Dict.lookup "max_response_output_tokens" sanitized = Some JNull /\
    (forall k, k ∉ hidden_keys ->
       Dict.lookup k sanitized
       = Dict.lookup k Examples.session_created_session).
Proof.
  refine (@from_server_to_client_forwards_sanitized Sample.lib Examples.relay
            Examples.session_created Examples.session_created_members
            Examples.session_created_session ∅ _ _ _).
  - reflexivity.
  - split; vm_compute; reflexivity.
  - reflexivity.
Defined.

(** A ping of the client is forwarded as it came, and the model socket is
    closed after it. *)
Lemma from_client_to_server_forwards_witness :
  @from_client_to_server Sample.lib Examples.relay [MoreExamples.client_ping] ∅
  = (Ok tt, ∅,
     [SendStr server_ws (Sample.q "{'type':'ping','n':1}")]
     ++ [Close server_ws]).
Proof.
  refine (proj1 (@from_client_to_server_forwards Sample.lib Examples.relay
            [MoreExamples.client_ping] ∅ _)).
  constructor; [|constructor].
  split; [reflexivity|]. right.
  exists "ping", [("type", JString "ping"); ("n", JInt 1)].
  split; [split; vm_compute; reflexivity|discriminate].
Defined.

(** The client sends [x-ms-client-request-id: req-1]; the relay has an API
    key. *)
Lemma client_request_id_not_forwarded_witness :
  assoc "x-ms-client-request-id" [("api-key", "secret")] = None /\
  length [("api-key", "secret")] = 1 /\
  forall ws_headers',
    _forward_messages_headers Examples.relay ws_headers' None
    = Ok [("api-key", "secret")].
Proof.
  refine (client_request_id_not_forwarded Examples.relay
            (fun header => if String.eqb header "x-ms-client-request-id"
                           then Some "req-1" else None)
            None [("api-key", "secret")] _).
  reflexivity.
Defined.

(** A [session.update] that the policy has gone over once. *)
Lemma update_session_idempotent_witness :
  update_session Examples.relay
    (JObject [("type", JString "session.update");
              ("session", JObject [
                 ("voice", JString "alloy");
                 ("modalities", JArray [JString "audio"]);
                 ("instructions", JString "Answer briefly.");
                 ("temperature", JFloat "0.7");
                 ("tool_choice", JString "auto");
                 ("tools", JArray [Examples.function_schema "search";
                                   Examples.function_schema "report_grounding";
                                   Examples.function_schema "broken"])])])
  = Ok (JObject [("type", JString "session.update");
                 ("session", JObject [
                    ("voice", JString "alloy");
                    ("modalities", JArray [JString "audio"]);
                    ("instructions", JString "Answer briefly.");
                    ("temperature", JFloat "0.7");
                    ("tool_choice", JString "auto");
                    ("tools", JArray [Examples.function_schema "search";
                                      Examples.function_schema "report_grounding";
                                      Examples.function_schema "broken"])])]).
Proof.
  refine (update_session_idempotent Examples.relay
            (JObject [("type", JString "session.update");
                      ("session", JObject [
                         ("voice", JString "echo");
                         ("modalities", JArray [JString "audio"])])])
            _ _).
  vm_compute; reflexivity.
Defined.

(** * The logger *)

Section Logger.
Import LoggerPy.
Context `{Os} `{Logging}.

Lemma the_logger_insert self key l (registry : gmap string Logger) :
  logger self = key -> the_logger self (<[key := l]> registry) = l.
Proof. intros <-. unfold the_logger. now rewrite lookup_insert_eq. Qed.

Ltac logger_simpl :=
  repeat first
    [ rewrite the_logger_insert by reflexivity
    | progress cbn [logger formatter log_file log_destination name level
                    handlers] ].

Lemma init_spec name log_level log_destination log_file log_format registry
    self registry' :
  __init__ name log_level log_destination log_file log_format registry
    = (Ok self, registry') ->
  logger self = logger_key name /\
  LoggerPy.log_destination self = log_destination /\
  Formatter log_format = Ok (formatter self) /\
  level (get_logger self registry') = log_level /\
  ((log_destination = "console" /\
    handlers (get_logger self registry')
      = [StreamHandler log_level (formatter self)]) \/
   (log_destination = "file" /\
    exists file,
      LoggerPy.log_file self = Some (abspath file) /\
      handlers (get_logger self registry')
        = [FileHandler (abspath (abspath file)) log_level (formatter self)])).
Proof.
  unfold __init__, get_logger. intros Hrun.
  destruct (Formatter log_format) as [made|e]; [|discriminate].
  destruct (String.eqb_spec log_destination "console") as [->|_].
  { injection Hrun as <- <-.
    unfold _setup_console_logging, addHandler, clear_handlers, setLevel.
    logger_simpl. repeat split. now left. }
  destruct (String.eqb_spec log_destination "file") as [->|_]; [|discriminate].
  unfold _setup_file_logging in Hrun.
  match type of Hrun with
  | context [can_open (abspath ?f)] => set (file := f) in *
  end.
  destruct (can_open (abspath file)); [|discriminate].
  injection Hrun as <- <-.
  unfold addHandler, clear_handlers, setLevel. logger_simpl. repeat split.
  right. split; [reflexivity|]. now exists file.
Qed.

(** X19.  A [MultiLogger] that was constructed has exactly one handler,
    whatever handlers and level the logger of that name had before: a
    console handler or a file handler on the absolute path of
    [self.log_file], at the level given and with the formatter that
    [logging.Formatter] made of the format given, which is the one kept in
    [self.formatter]. *)
Theorem constructed_logger_has_one_handler name log_level log_destination
    log_file log_format registry self registry' :
  __init__ name log_level log_destination log_file log_format registry
    = (Ok self, registry') ->
  Formatter log_format = Ok (formatter self) /\
  level (get_logger self registry') = log_level /\
  ((log_destination = "console" /\
    handlers (get_logger self registry')
      = [StreamHandler log_level (formatter self)]) \/
   (log_destination = "file" /\
    exists file,
      LoggerPy.log_file self = Some (abspath file) /\
      handlers (get_logger self registry')
        = [FileHandler (abspath (abspath file)) log_level (formatter self)])).
Proof.
  intros Hrun.
  now destruct (init_spec _ _ _ _ _ _ _ _ Hrun) as (_ & _ & ? & ? & ?).
Qed.

(** X20.  After [change_log_destination] has returned, the logger has exactly one
    handler, at the logger's level and with the format of the
    [MultiLogger], however many handlers it had before; the level is
    unchanged. *)
Theorem changed_logger_has_one_handler self new_destination new_log_file
    registry self' registry' :
  change_log_destination self new_destination new_log_file registry
    = (Ok tt, self', registry') ->
  logger self' = logger self /\
  log_destination self' = new_destination /\
  level (get_logger self' registry') = level (get_logger self registry) /\
  ((new_destination = "console" /\
    handlers (get_logger self' registry')
      = [StreamHandler (level (get_logger self registry)) (formatter self)]) \/
   (new_destination = "file" /\
    exists file,
      LoggerPy.log_file self' = Some (abspath file) /\
      handlers (get_logger self' registry')
        = [FileHandler (abspath (abspath file))
             (level (get_logger self registry)) (formatter self)])).
Proof.
  unfold change_log_destination, get_logger. intros Hrun.
  destruct (String.eqb_spec new_destination "console") as [->|_].
  { injection Hrun as <- <-.
    unfold _setup_console_logging, addHandler, clear_handlers. simpl.
    logger_simpl. repeat split. now left. }
  destruct (String.eqb_spec new_destination "file") as [->|_]; [|discriminate].
  unfold _setup_file_logging in Hrun. simpl in Hrun.
  match type of Hrun with
  | context [can_open (abspath ?f)] => set (file := f) in *
  end.
  destruct (can_open (abspath file)); [|discriminate].
  injection Hrun as <- <-.
  unfold addHandler, clear_handlers. simpl.
  logger_simpl. repeat split.
  right. split; [reflexivity|]. now exists file.
Qed.

(** X21.  [change_log_destination] with a destination that is neither
    ["console"] nor ["file"] raises [ValueError] only after it has removed
    the handlers and recorded the destination: the logger is left with no
    handler at all and the [MultiLogger] with the rejected destination. *)
Theorem rejected_destination_leaves_no_handler self new_destination
    new_log_file registry :
  new_destination <> "console" ->
  new_destination <> "file" ->
  exists self' registry',
    change_log_destination self new_destination new_log_file registry
      = (Raise (OtherException "ValueError"), self', registry') /\
    log_destination self' = new_destination /\
    LoggerPy.log_file self' = LoggerPy.log_file self /\
    handlers (get_logger self' registry') = [] /\
    level (get_logger self' registry') = level (get_logger self registry).
Proof.
  intros Hconsole Hfile. unfold change_log_destination.
  apply String.eqb_neq in Hconsole, Hfile. rewrite Hconsole, Hfile.
  do 2 eexists. split; [reflexivity|].
  unfold get_logger, clear_handlers. logger_simpl.
  now repeat split.
Qed.

(** X22.  Switching to the console and back to the file without naming a file
    (or naming the empty string) logs to the file used before: the path
    kept in [self.log_file] survives the console setup. *)
Theorem file_logging_resumes_on_same_file self file new_log_file registry :
  LoggerPy.log_file self = Some file ->
  file <> "" ->
  abspath file = file ->
  can_open file = true ->
  falsy new_log_file = true ->
  exists self1 registry1 self2 registry2,
    change_log_destination self "console" None registry
      = (Ok tt, self1, registry1) /\
    change_log_destination self1 "file" new_log_file registry1
      = (Ok tt, self2, registry2) /\
    LoggerPy.log_file self2 = Some file /\
    handlers (get_logger self2 registry2)
      = [FileHandler file (level (get_logger self registry)) (formatter self)].
Proof.
  intros Hfile Hne Habs Hopen Hnew.
  unfold change_log_destination. simpl.
  do 4 eexists. split; [reflexivity|].
  unfold _setup_file_logging, or_else. simpl. rewrite Hnew, Hfile.
  apply String.eqb_neq in Hne. rewrite Hne, !Habs, Hopen.
  split; [reflexivity|]. split; [reflexivity|].
  unfold get_logger, addHandler, _setup_console_logging, addHandler,
    clear_handlers. simpl.
  logger_simpl. reflexivity.
Qed.

(** X23.  Two [MultiLogger]s of one name share the logger object: once the
    second is constructed, the first one's logger has the second one's
    level and its single handler, whatever the first was set up with. *)
Theorem same_name_loggers_share_handlers name
    level1 destination1 file1 format1 level2 destination2 file2 format2
    registry first registry1 second registry2 :
  __init__ name level1 destination1 file1 format1 registry
    = (Ok first, registry1) ->
  __init__ name level2 destination2 file2 format2 registry1
    = (Ok second, registry2) ->
  get_logger first registry2 = get_logger second registry2 /\
  level (get_logger first registry2) = level2 /\
  length (handlers (get_logger first registry2)) = 1 /\
  log_destination first = destination1.
Proof.
  intros Hfirst Hsecond.
  destruct (init_spec _ _ _ _ _ _ _ _ Hfirst) as (Hk1 & Hd1 & _).
  destruct (init_spec _ _ _ _ _ _ _ _ Hsecond)
    as (Hk2 & _ & _ & Hlevel & Hhandlers).
  assert (Hsame : get_logger first registry2 = get_logger second registry2).
  { unfold get_logger, the_logger. now rewrite Hk1, Hk2. }
  rewrite Hsame. repeat split; try assumption.
  destruct Hhandlers as [[_ ->]|[_ (file & _ & ->)]]; reflexivity.
Qed.

End Logger.

(** ** Examples *)

(** An empty format stands for ["%(message)s"]; a format without a field
    is refused once the level is set and the handlers are cleared. *)
Example formats_of_constructed_loggers :
  @LoggerPy.__init__ MoreExamples.os SampleLogging.lib "rtmt" 40 "console"
    None "" MoreExamples.rtmt_registry
  = (Ok {| LoggerPy.logger := "rtmt"; LoggerPy.formatter := "%(message)s";
           LoggerPy.log_file := None; LoggerPy.log_destination := "console" |},
     {[ "rtmt" := {| LoggerPy.name := "rtmt"; LoggerPy.level := 40;
                     LoggerPy.handlers :=
                       [LoggerPy.StreamHandler 40 "%(message)s"] |} ]}) /\
  @LoggerPy.__init__ MoreExamples.os SampleLogging.lib "rtmt" 10 "console"
    None "plain text" MoreExamples.rtmt_registry
  = (Raise (OtherException "ValueError"),
     {[ "rtmt" := {| LoggerPy.name := "rtmt"; LoggerPy.level := 10;
                     LoggerPy.handlers := [] |} ]}).
Proof. split; vm_compute; reflexivity. Qed.

(** The logger of rtmt.py as it is constructed (line 16): one console
    handler at level ERROR. *)
Lemma constructed_logger_has_one_handler_witness :
  LoggerPy.handlers
    (LoggerPy.get_logger MoreExamples.rtmt_logger MoreExamples.rtmt_registry)
  = [LoggerPy.StreamHandler 40 MoreExamples.log_format].
Proof.
  destruct (@constructed_logger_has_one_handler MoreExamples.os
              SampleLogging.lib
              "rtmt" 40%Z "console" None MoreExamples.log_format ∅
              MoreExamples.rtmt_logger MoreExamples.rtmt_registry)
    as [_ [_ [[_ Hhandlers]|[Hfile _]]]].
  - vm_compute; reflexivity.
  - exact Hhandlers.
  - discriminate Hfile.
Defined.

(** The same logger after line 18: the console handler is gone, one file
    handler is there. *)
Lemma changed_logger_has_one_handler_witness :
  LoggerPy.handlers
    (LoggerPy.get_logger MoreExamples.rtmt_file_logger
       MoreExamples.rtmt_file_registry)
  = [LoggerPy.FileHandler "/srv/app/logs/rtmt-acs.log" 40
       MoreExamples.log_format].
Proof.
  destruct (@changed_logger_has_one_handler MoreExamples.os
              MoreExamples.rtmt_logger "file" (Some "logs/rtmt-acs.log")
              MoreExamples.rtmt_registry
              MoreExamples.rtmt_file_logger MoreExamples.rtmt_file_registry)
    as (_ & _ & _ & [[Hconsole _]|(_ & file & Hfile & Hhandlers)]).
  - vm_compute; reflexivity.
  - discriminate Hconsole.
  - pose (absolute := @LoggerPy.abspath MoreExamples.os).
    assert (Hpath : absolute file = "/srv/app/logs/rtmt-acs.log")
      by (injection Hfile as Hfile; symmetry; exact Hfile).
    change (LoggerPy.handlers
              (LoggerPy.get_logger MoreExamples.rtmt_file_logger
                 MoreExamples.rtmt_file_registry)
            = [LoggerPy.FileHandler (absolute (absolute file)) 40
                 MoreExamples.log_format]) in Hhandlers.
    rewrite Hpath in Hhandlers. exact Hhandlers.
Defined.

(** The logger of rtmt.py is told to log to ["syslog"]. *)
Lemma rejected_destination_leaves_no_handler_witness :
  exists self' registry',
    @LoggerPy.change_log_destination MoreExamples.os
      MoreExamples.rtmt_file_logger "syslog" None MoreExamples.rtmt_file_registry
      = (Raise (OtherException "ValueError"), self', registry') /\
    LoggerPy.log_destination self' = "syslog" /\
    LoggerPy.log_file self' = Some "/srv/app/logs/rtmt-acs.log" /\
    LoggerPy.handlers (LoggerPy.get_logger self' registry') = [] /\
    LoggerPy.level (LoggerPy.get_logger self' registry') = 40%Z.
Proof.
  refine (@rejected_destination_leaves_no_handler MoreExamples.os
            MoreExamples.rtmt_file_logger "syslog" None
            MoreExamples.rtmt_file_registry _ _).
  - discriminate.
  - discriminate.
Defined.

(** The logger of rtmt.py is sent to the console and back. *)
Lemma file_logging_resumes_on_same_file_witness :
  exists self1 registry1 self2 registry2,
    @LoggerPy.change_log_destination MoreExamples.os
      MoreExamples.rtmt_file_logger "console" None
      MoreExamples.rtmt_file_registry
      = (Ok tt, self1, registry1) /\
    @LoggerPy.change_log_destination MoreExamples.os
      self1 "file" (Some "") registry1
      = (Ok tt, self2, registry2) /\
    LoggerPy.log_file self2 = Some "/srv/app/logs/rtmt-acs.log" /\
    LoggerPy.handlers (LoggerPy.get_logger self2 registry2)
      = [LoggerPy.FileHandler "/srv/app/logs/rtmt-acs.log" 40
           MoreExamples.log_format].
Proof.
  refine (@file_logging_resumes_on_same_file MoreExamples.os
            MoreExamples.rtmt_file_logger "/srv/app/logs/rtmt-acs.log"
            (Some "") MoreExamples.rtmt_file_registry _ _ _ _ _).
  - reflexivity.
  - discriminate.
  - reflexivity.
  - reflexivity.
  - reflexivity.
Defined.

(** A second logger named ["rtmt"], made at level DEBUG for a file, takes
    over the logger object of the first. *)
Lemma same_name_loggers_share_handlers_witness :
  LoggerPy.level
    (LoggerPy.get_logger MoreExamples.rtmt_logger
       (@LoggerPy.__init__ MoreExamples.os SampleLogging.lib "rtmt" 10 "file" None
          "%(message)s" MoreExamples.rtmt_registry).2)
  = 10%Z /\
  LoggerPy.handlers
    (LoggerPy.get_logger MoreExamples.rtmt_logger
       (@LoggerPy.__init__ MoreExamples.os SampleLogging.lib "rtmt" 10 "file" None
          "%(message)s" MoreExamples.rtmt_registry).2)
  = [LoggerPy.FileHandler "/srv/app/rtmt.log" 10 "%(message)s"] /\
  LoggerPy.log_destination MoreExamples.rtmt_logger = "console".
Proof.
  destruct (@same_name_loggers_share_handlers MoreExamples.os
              SampleLogging.lib "rtmt"
              40%Z "console" None MoreExamples.log_format
              10%Z "file" None "%(message)s"
              ∅ MoreExamples.rtmt_logger MoreExamples.rtmt_registry
              {| LoggerPy.logger := "rtmt"; LoggerPy.formatter := "%(message)s";
                 LoggerPy.log_file := Some "/srv/app/rtmt.log";
                 LoggerPy.log_destination := "file" |}
              (@LoggerPy.__init__ MoreExamples.os SampleLogging.lib "rtmt" 10 "file" None
                 "%(message)s" MoreExamples.rtmt_registry).2)
    as (_ & Hlevel & _ & Hdestination).
  - vm_compute; reflexivity.
  - vm_compute; reflexivity.
  - split; [exact Hlevel|]. split; [vm_compute; reflexivity|exact Hdestination].
Defined.

(** * Audio logs *)

Section AudioLog.
Import StreamDecoder.

Lemma append_cons c (s t : string) : String c s +:+ t = String c (s +:+ t).
Proof. reflexivity. Qed.

Lemma append_nil (t : string) : "" +:+ t = t.
Proof. reflexivity. Qed.

Ltac append_simpl := rewrite ?append_cons, ?append_nil; simpl.

Lemma append_assoc (s t u : string) : (s +:+ t) +:+ u = s +:+ (t +:+ u).
Proof.
  induction s as [|c s IH]; append_simpl; [reflexivity|]. now rewrite IH.
Qed.

Lemma append_empty_r (s : string) : s +:+ "" = s.
Proof.
  induction s as [|c s IH]; append_simpl; [reflexivity|]. now rewrite IH.
Qed.

(** *** Stripping *)

Lemma lstrip_length s : String.length (lstrip s) <= String.length s.
Proof.
  induction s as [|c s IH]; simpl; [lia|].
  destruct (isspace c); simpl; lia.
Qed.

Lemma rstrip_length s : String.length (rstrip s) <= String.length s.
Proof.
  induction s as [|c s IH]; simpl; [lia|].
  destruct (rstrip s); [destruct (isspace c)|]; simpl in *; lia.
Qed.

Lemma lstrip_chars P s : Forall P (list_ascii_of_string s) -> Forall P (list_ascii_of_string (lstrip s)).
Proof.
  induction s as [|c s IH]; simpl; [trivial|].
  intros Hs. destruct (isspace c); [|exact Hs].
  apply IH. now inversion Hs.
Qed.

Lemma rstrip_chars P s : Forall P (list_ascii_of_string s) -> Forall P (list_ascii_of_string (rstrip s)).
Proof.
  induction s as [|c s IH]; simpl; [trivial|].
  intros Hs. inversion Hs as [|? ? Hc Hrest]; subst.
  specialize (IH Hrest).
  destruct (rstrip s); [destruct (isspace c)|]; simpl;
    [constructor|constructor; [exact Hc|constructor]|constructor; [exact Hc|exact IH]].
Qed.

Lemma rstrip_idempotent s : rstrip (rstrip s) = rstrip s.
Proof.
  induction s as [|c s IH]; simpl; [reflexivity|].
  destruct (rstrip s) as [|k kept] eqn:Hkept.
  - destruct (isspace c) eqn:Hc; simpl; [reflexivity|]. now rewrite Hc.
  - simpl in *. now rewrite IH.
Qed.

(** A text that starts with a character that is not white space. *)
Lemma rstrip_keeps_head c s : isspace c = false ->
  exists kept, rstrip (String c s) = String c kept.
Proof.
  intros Hc. simpl. destruct (rstrip s); [rewrite Hc|]; eauto.
Qed.

Lemma lstrip_head s :
  lstrip s = "" \/ exists c rest, lstrip s = String c rest /\ isspace c = false.
Proof.
  induction s as [|c s IH]; simpl; [now left|].
  destruct (isspace c) eqn:Hc; [exact IH|]. right. eauto.
Qed.

Lemma strip_idempotent s : strip (strip s) = strip s.
Proof.
  unfold strip. destruct (lstrip_head s) as [->|(c & rest & -> & Hc)].
  - reflexivity.
  - destruct (rstrip_keeps_head c rest Hc) as [kept Hkept].
    rewrite Hkept. simpl lstrip. rewrite Hc, <- Hkept.
    apply rstrip_idempotent.
Qed.

Lemma rstrip_space_end s w : isspace w = true ->
  rstrip (s +:+ String w "") = rstrip s.
Proof.
  intros Hw. induction s as [|c s IH]; append_simpl; [now rewrite Hw|].
  now rewrite IH.
Qed.

Lemma lstrip_app s t :
  lstrip (s +:+ t) = match lstrip s with
                     | EmptyString => lstrip t
                     | kept => kept +:+ t
                     end.
Proof.
  induction s as [|c s IH]; append_simpl; [reflexivity|].
  destruct (isspace c); [exact IH|reflexivity].
Qed.

(** The line end of a line does not count. *)
Lemma strip_line_end s : strip (s +:+ String (ascii_of_nat 10) "") = strip s.
Proof.
  unfold strip. rewrite lstrip_app.
  destruct (lstrip s) as [|c kept] eqn:Hkept; [reflexivity|].
  now apply rstrip_space_end.
Qed.

Lemma lstrip_fixed s : String.length (lstrip s) = String.length s -> lstrip s = s.
Proof.
  destruct s as [|c s]; simpl; [reflexivity|].
  destruct (isspace c); [|reflexivity].
  pose proof (lstrip_length s). simpl. lia.
Qed.

Lemma strip_fixed s : strip s = s -> lstrip s = s /\ rstrip s = s.
Proof.
  unfold strip. intros Hs.
  assert (Hl : lstrip s = s).
  { apply lstrip_fixed. pose proof (lstrip_length s).
    pose proof (rstrip_length (lstrip s)). rewrite Hs in *. lia. }
  split; [exact Hl|]. now rewrite Hl in Hs.
Qed.

(** *** Lines *)

Lemma universal_newlines_plain s t :
  Forall (fun c => nat_of_ascii c <> 13) (list_ascii_of_string s) ->
  universal_newlines (s +:+ t) = s +:+ universal_newlines t.
Proof.
  induction s as [|c s IH]; append_simpl; [reflexivity|].
  intros Hs. inversion Hs as [|? ? Hc Hrest]; subst.
  apply Nat.eqb_neq in Hc. rewrite Hc. now rewrite IH.
Qed.

Lemma universal_newlines_chars_aux (P : ascii -> Prop) n : forall s,
  String.length s <= n ->
  P (ascii_of_nat 10) ->
  Forall P (list_ascii_of_string s) ->
  Forall (fun c => nat_of_ascii c <> 13 /\ P c)
    (list_ascii_of_string (universal_newlines s)).
Proof.
  induction n as [|n IH]; intros [|c s] Hlen Hlf Hs; simpl in *;
    try constructor; try lia.
  inversion Hs as [|? ? Hc Hrest]; subst.
  destruct (Nat.eqb_spec (nat_of_ascii c) 13) as [Hcr|Hcr]; simpl.
  - constructor; [split; [rewrite nat_ascii_embedding; lia|exact Hlf]|].
    destruct s as [|c' s']; [constructor|].
    simpl in Hlen. destruct (Nat.eqb (nat_of_ascii c') 10).
    + apply IH; [lia|exact Hlf|now inversion Hrest].
    + apply IH; [simpl; lia|exact Hlf|exact Hrest].
  - constructor; [now split|]. apply IH; [lia|exact Hlf|exact Hrest].
Qed.

(** Reading in text mode leaves no carriage return and brings in no
    character but the line feed. *)
Lemma universal_newlines_chars (P : ascii -> Prop) s :
  P (ascii_of_nat 10) ->
  Forall P (list_ascii_of_string s) ->
  Forall (fun c => nat_of_ascii c <> 13 /\ P c)
    (list_ascii_of_string (universal_newlines s)).
Proof. now apply (universal_newlines_chars_aux P (String.length s)). Qed.

Lemma lines_cons body rest :
  Forall (fun c => nat_of_ascii c <> 10) (list_ascii_of_string body) ->
  lines (body +:+ String (ascii_of_nat 10) rest) = (body +:+ String (ascii_of_nat 10) "") :: lines rest.
Proof.
  induction body as [|c body IH]; append_simpl; [reflexivity|].
  intros Hbody. inversion Hbody as [|? ? Hc Hrest]; subst.
  apply Nat.eqb_neq in Hc. rewrite Hc. now rewrite IH.
Qed.

(** Every line is a text without line feed, followed by a line feed or by
    the end of the text; its other characters are characters of the text. *)
Lemma lines_shape P s :
  Forall P (list_ascii_of_string s) ->
  Forall (fun line =>
            exists body,
              Forall (fun c => nat_of_ascii c <> 10 /\ P c) (list_ascii_of_string body) /\
              (line = body \/ line = body +:+ String (ascii_of_nat 10) "")) (lines s).
Proof.
  induction s as [|c s IH]; simpl; [constructor|].
  intros Hs. inversion Hs as [|? ? Hc Hrest]; subst. specialize (IH Hrest).
  destruct (Nat.eqb_spec (nat_of_ascii c) 10) as [Hlf|Hlf].
  - constructor; [|exact IH]. exists "". split; [constructor|]. right.
    simpl. f_equal. rewrite <- (ascii_nat_embedding c). now rewrite Hlf.
  - destruct (lines s) as [|line more].
    + repeat constructor. exists (String c ""). split; [|now left].
      repeat constructor; assumption.
    + inversion IH as [|? ? (body & Hbody & Hline) Hmore]; subst.
      constructor; [|exact Hmore].
      exists (String c body). split; [now repeat constructor|].
      destruct Hline as [->| ->]; [now left|now right].
Qed.

(** *** Chunks *)

Lemma chunks_spec file_lines : forall pcm_data,
  chunks file_lines pcm_data
  = pcm_data ++ omap (fun line => if String.eqb (strip line) ""
                                  then None else Some (strip line)) file_lines.
Proof.
  induction file_lines as [|line rest IH]; intros pcm_data; simpl.
  - now rewrite app_nil_r.
  - destruct (String.eqb (strip line) ""); rewrite IH; [reflexivity|].
    now rewrite <- app_assoc.
Qed.

(** X24.  Whatever ASCII text the log file holds, [process_audio_log] returns,
    and returns plain chunks only: none is empty (blank lines are
    skipped), none has white space around it, and none contains a line
    end. *)
Theorem process_audio_log_returns_plain_chunks input_log_file files content :
  files !! input_log_file = Some content ->
  ascii_text content ->
  exists pcm_data,
    process_audio_log input_log_file files = Ok pcm_data /\
    Forall plain_chunk pcm_data.
Proof.
  intros Hfile Hascii. unfold process_audio_log. rewrite Hfile.
  eexists. split; [reflexivity|].
  rewrite chunks_spec. simpl. unfold readlines.
  assert (Hlf : nat_of_ascii (ascii_of_nat 10) < 128)
    by (rewrite nat_ascii_embedding; lia).
  pose proof (lines_shape _ _ (universal_newlines_chars _ content Hlf Hascii))
    as Hlines.
  induction Hlines as [|line more (body & Hbody & Hline) _ IH]; simpl;
    [constructor|].
  destruct (String.eqb_spec (strip line) "") as [Hblank|Hblank]; [exact IH|].
  constructor; [|exact IH].
  assert (Hstrip : strip line = strip body).
  { destruct Hline as [->| ->]; [reflexivity|apply strip_line_end]. }
  split; [exact Hblank|]. split; [apply strip_idempotent|].
  rewrite Hstrip. unfold strip. apply rstrip_chars, lstrip_chars.
  eapply Forall_impl; [exact Hbody|]. now intros c (? & ? & ?).
Qed.

Lemma read_written chunks_written :
  Forall plain_chunk chunks_written ->
  chunks
    (readlines
       (fold_right (fun chunk rest =>
                      chunk +:+ String (ascii_of_nat 10) (String (ascii_of_nat 10) (String (ascii_of_nat 10) (String (ascii_of_nat 10) rest))))
          "" chunks_written)) []
  = chunks_written.
Proof.
  intros Hall. rewrite chunks_spec. simpl. unfold readlines.
  induction Hall as [|chunk more (Hne & Hstrip & Hplain) _ IH]; simpl;
    [reflexivity|].
  rewrite universal_newlines_plain
    by (eapply Forall_impl; [exact Hplain|]; now intros c (? & ? & ?)).
  simpl universal_newlines.
  rewrite lines_cons
    by (eapply Forall_impl; [exact Hplain|]; now intros c (? & ? & ?)).
  simpl. rewrite strip_line_end, Hstrip.
  apply String.eqb_neq in Hne. rewrite Hne. simpl. f_equal. exact IH.
Qed.

Context `{LoggerPy.Os}.

Lemma written_content filename chunks_written : forall before files,
  LoggerPy.can_open (LoggerPy.log_path filename) = true ->
  files !! LoggerPy.log_path filename = Some before ->
  fold_left (fun files chunk =>
               (LoggerPy.write_instruction_log chunk filename files).2)
    chunks_written files
    !! LoggerPy.log_path filename
  = Some (before +:+
          fold_right (fun chunk rest =>
                        chunk +:+ String (ascii_of_nat 10) (String (ascii_of_nat 10) (String (ascii_of_nat 10) (String (ascii_of_nat 10) rest))))
            "" chunks_written).
Proof.
  induction chunks_written as [|chunk more IH]; intros before files Hopen Hfile;
    simpl.
  - now rewrite append_empty_r.
  - unfold LoggerPy.write_instruction_log at 2. rewrite Hopen. simpl.
    rewrite (IH (before +:+ chunk +:+
                 String (ascii_of_nat 10) (String (ascii_of_nat 10) (String (ascii_of_nat 10) (String (ascii_of_nat 10) ""))))).
    + f_equal. rewrite !append_assoc. reflexivity.
    + exact Hopen.
    + rewrite Hfile. simpl. apply lookup_insert_eq.
Qed.

(** X25.  What [write_instruction_log] writes, [process_audio_log] reads back:
    after [truncate_log_files] has emptied the log file and plain chunks
    were logged to it one by one, reading the file returns those chunks,
    in the order they were logged, whatever the file held before. *)
Theorem logged_chunks_are_read_back filename chunks_written files :
  LoggerPy.can_open (LoggerPy.log_path filename) = true ->
  Forall plain_chunk chunks_written ->
  process_audio_log (LoggerPy.log_path filename)
    (fold_left (fun files chunk =>
                  (LoggerPy.write_instruction_log chunk filename files).2)
       chunks_written (LoggerPy.truncate_log_files filename files).2)
  = Ok chunks_written.
Proof.
  intros Hopen Hall. unfold process_audio_log.
  rewrite (written_content filename chunks_written "").
  - rewrite append_nil, read_written by exact Hall. reflexivity.
  - exact Hopen.
  - unfold LoggerPy.truncate_log_files. rewrite Hopen. simpl.
    apply lookup_insert_eq.
Qed.

End AudioLog.

(** ** Examples *)

Ltac ascii_chars :=
  repeat (apply Forall_cons_2; [vm_compute; lia|]); apply Forall_nil_2.

(** The log of [MoreExamples.audio_log]: three chunks are read. *)
Lemma process_audio_log_returns_plain_chunks_witness :
  exists pcm_data,
    StreamDecoder.process_audio_log "/srv/app/backend/logs/acs_audio.log"
      {[ "/srv/app/backend/logs/acs_audio.log" := MoreExamples.audio_log ]}
      = Ok pcm_data /\
    Forall StreamDecoder.plain_chunk pcm_data.
Proof.
  refine (process_audio_log_returns_plain_chunks
            "/srv/app/backend/logs/acs_audio.log"
            {[ "/srv/app/backend/logs/acs_audio.log" := MoreExamples.audio_log ]}
            MoreExamples.audio_log _ _).
  - vm_compute; reflexivity.
  - unfold StreamDecoder.ascii_text. ascii_chars.
Defined.

(** Two chunks are logged to [acs_audio.log], which held something else. *)
Lemma logged_chunks_are_read_back_witness :
  StreamDecoder.process_audio_log
    (@LoggerPy.log_path MoreExamples.os "acs_audio.log")
    (fold_left (fun files chunk =>
                  (@LoggerPy.write_instruction_log MoreExamples.os chunk
                     "acs_audio.log" files).2)
       ["QUJD"; "RUZH"]
       (@LoggerPy.truncate_log_files MoreExamples.os "acs_audio.log"
          {[ "/srv/app/backend/logs/acs_audio.log" := "old" ]}).2)
  = Ok ["QUJD"; "RUZH"].
Proof.
  refine (@logged_chunks_are_read_back MoreExamples.os "acs_audio.log"
            ["QUJD"; "RUZH"]
            {[ "/srv/app/backend/logs/acs_audio.log" := "old" ]} _ _).
  - reflexivity.
  - repeat (apply Forall_cons_2; [|try apply Forall_nil_2]);
      (split; [discriminate|split; [reflexivity|ascii_chars]]).
Defined.
